(* ===== verification/_CoqProject ===== *)
-Q . S2P
Prelude.v
Field.v
Editor.v
Focus.v
Widgets.v
Render.v
Session.v
Keys.v
View.v
Scenarios.v
