(* ===== verification/Prelude.v ===== *)
(** * A verification of poezio's data-forms tab ([src/src/data_forms.py])

    ** The program
    [data_forms.py] shows an XMPP data form in a curses tab and lets the
    user fill it in.  Three parts interact:
    - the input widgets ([FieldInput] and its six classes: [DummyInput],
      [BooleanWin], [ListMultiWin], [ListSingleWin], [TextSingleWin],
      [TextPrivateWin]), each holding the edit state of one field, with
      [do_command] (a key), [reply] (write the answer into the field),
      [set_color] and [refresh];
    - [FormWin], which builds one input per field that is not hidden
      ([__init__]), keeps the focus [current_input], moves it
      ([go_to_next_input], [go_to_previous_input]) skipping the inputs
      that are dummies, forwards keys ([on_input]) and replies every input
      ([reply]);
    - [DataFormsTab], which binds [KEY_UP], [KEY_DOWN], [^G] (cancel) and
      [^Y] (send) and calls the caller's [on_cancel] / [on_send] with the
      form.  Inputs hold a reference to their field: a reply writes into
      the form the tab was opened on.

    ** The development (library root S2P, files in dependency order)
    - [Prelude]: the Python run-time: exceptions ([IndexError],
      [TypeError], [NotImplementedError], [AttributeError]), the
      state-and-exception monad
      [PyM] (mutations before an exception are kept, as in Python),
      [py_index] for [l[i]], dynamically typed values [pyval] with
      [bool()], [in] and [==]; [preserves] and its combinators for
      invariants of monadic code; the hint databases and tactics.
    - [Field]: the SleekXMPP field and form objects (outside the
      repository, modelled from the spec, section 3) and [on_field], a
      mutation of the [i]-th field of the shared form.
    - [Editor]: the class [LineEditor], the contract of [windows.Input]
      (outside [src/]) that the text inputs inherit, and an instance
      modelled from the spec.
    - [Focus]: the class [Widget] (what [FormWin] uses of an input) and
      [FormWin]'s focus controller: [go_to_next_input],
      [go_to_previous_input], [formwin_on_input], with the two [while]
      loops as [next_jump] / [prev_jump]; the reference navigation of the
      spec ([spec_next], [spec_prev], [nav_next], [nav_prev]) and the
      theorems relating the code to it.
    - [Widgets]: the six input classes as [input_kind], their
      constructors [make_input], keys [input_do_command], replies
      [input_reply], and the [Widget] instance.
    - [Render]: the [refresh] methods of the inputs ([input_render],
      [TextPrivateWin.rewrite_text] as [private_rewrite]) and
      [FormWin.refresh] ([formwin_refresh], its loop [layout]): a redraw is
      the list of [draw] operations it performs on the opaque curses
      surface, in order, with its outcome; [with g_lock] is [with_lock].
    - [Session]: [FormWin.__init__] ([formwin_init]), [FormWin.reply]
      ([formwin_reply]) and [DataFormsTab] ([tab_init], [tab_on_input],
      [tab_on_send], [tab_on_cancel], [run_keys]); the callbacks are
      recorded as [event]s carrying the form they receive.
    - [Keys]: [self.key_func] as a [gmap] ([key_func]) over the table
      inherited from poezio's [Tab], and [on_input] dispatching through it
      ([tab_dispatch]).
    - [View]: the tab on the screen: [DataFormsTab.resize]
      ([tab_resize], with [FormWin.resize] as [formwin_resize]),
      [DataFormsTab.refresh] ([tab_refresh], which runs [formwin_refresh]
      with the width the resize stored) and [DataFormsTab.__init__] as a
      whole ([tab_open]); the screen calls form a log from which
      [geometry] replays the windows' rectangles.
    - [Scenarios]: the spec's examples run on concrete forms, and the
      witnesses of the general theorems.

    ** What is proved
    - Navigation (Focus): the exact result of each move on every branch
      (C1-C3); where the code agrees with the spec's skip-over navigation
      and where it does not (C4, C5); the focus and colour invariant (C8);
      termination and postconditions of both scan loops, including when
      the backward one raises [IndexError] (C10, C11); down-then-up
      round trip across at most one label (C12); every focusable input
      after the focus is reached by [KEY_DOWN] presses (C32).
    - Inputs (Widgets): the answer of each input kind after any run of
      keys, the list-multi answer being exactly the values of the flagged
      options in option order (C13-C15), and the initial cursor of a
      list-single input (C16); typing into a text-single input with the
      editor of [Editor] appends to the field's text (C22).
    - Session: [__init__] builds one entry per non-hidden field, in order,
      dummies exactly for [fixed] fields, and only overwrites the value of
      fields of unknown type (C7); [^Y] writes each input's answer into
      its field, leaves every other field alone, clears the title and
      calls the send callback once (C6); no key other than [^Y] changes
      the form (C9); under the spec's rule that list fields have options,
      the tab opens and stays with the focus in range, no input but the
      focused one painted focused and every input able to redraw, whatever
      keys are pressed (C21); every input has the widget the spec's
      type table (spec, section 4) gives its field's type, from the
      opening of the tab and after any run of keys (C33).
    - Keys: [on_input] over the full key table, the one inherited from
      poezio's [Tab] included, refines Session's handler: they agree on
      the four keys [__init__] binds and on every key the inherited table
      does not bind; a globally bound key never reaches the input (C17).
    - Error paths (Keys, Session, Widgets), over every form and every
      tab: a key on a focused label raises [TypeError] and ends the run
      (C18); [^Y] with a list-single input off its options raises
      [IndexError] without calling the send callback or clearing the
      title (C19); [^G] right after opening hands the callback the fields
      [__init__] changed (C20); on a window without inputs every key but
      [^G] and [^Y] does nothing (C23); a string value of a list-multi
      field selects the options that are substrings of it (C24); a
      list-multi field with options and a [None] or boolean value makes
      [__init__] raise [TypeError] (C25).
    - Drawing (Render): every input redraw of a boolean, list or masked
      input takes [g_lock] first and releases it last on every path, a
      label draws nothing and a text input hands over to [windows.Input]
      (C26); a redraw raises exactly when [input_refresh_ok] says so
      (C27); [ListMultiWin] centres its label at [width//2 - 1] whatever
      its length (C28); the masked input never draws its text (C29);
      [FormWin.refresh] draws each shown field's label alone on its row,
      its input and instructions on the row below, all inside the form's
      rows (C30); a form window without inputs raises [IndexError] when
      drawn (C31); a second redraw of the form window changes nothing
      (C36).
    - Screen (View): a resize keeps the session state and the next
      refresh places the inputs for the new width (C34); the four windows
      tile the terminal's rows, each full width (C35).

    ** Bounds and fuel
    The scan loops take the number of inputs as fuel: [next_jump] runs at
    most [len(inputs) - current_input] times and [prev_jump] at most
    [current_input] times, and C10/C11 show that this fuel is always
    enough (the result does not depend on it).  Indices are [nat]: the
    code only ever indexes with non-negative values; Python's
    [len(l) - 1 == -1] on an empty list is handled by the [S p < length]
    form of the comparisons.

    ** Not modelled
    Curses itself is the opaque rendering surface of the spec: a redraw is
    the sequence of calls it makes, not the pixels, and [addstr] or
    [resize] are assumed not to fail on a string or a size that does not
    fit (a form taller than its window is not scrolled by the code).  The
    redraw of the text inputs by [windows.Input] is one opaque
    [InputRedraw]; the bars of the tab ([windows.Topic],
    [GlobalInfoBar], [HelpText]) are opaque calls.  [FormWin.refresh]
    before the first resize (which [DataFormsTab.__init__] never lets
    happen) is modelled as raising [AttributeError] before it draws,
    without locating the first read of [self.width].  The copy of the
    form's fields into [Tab.fields] in [DataFormsTab.__init__], the key
    bindings and the state inherited from poezio's [Tab], and the
    key-editing details of [windows.Input] beyond the [LineEditor]
    contract are outside what is modelled; so is what a global command of
    the inherited key table does (the variable [run_global] of Keys). *)

(** * Prelude: the Python run-time the data-forms code relies on

    The data-forms module ([src/src/data_forms.py]) is Python: its widgets
    are mutable objects, list indexing raises [IndexError], a method called
    with the wrong arity raises [TypeError], and an abstract method raises
    [NotImplementedError]; an attribute read before it is assigned raises
    [AttributeError].  This file gives those behaviours a shallow
    embedding shared by every component:
    - [exn] and [outcome]: the exceptions the module can raise;
    - [PyM S A]: a state-and-exception monad over a mutable store [S] in
      which, as in Python, the mutations made before an exception are kept;
    - [py_index]: [l[i]] for a non-negative index;
    - [pyval], [py_truthy], [py_in], [py_eq]: the dynamically typed values
      a form field holds, [bool()], the [in] operator and [==];
    - the hint database [pyforms] and the tactics [py_unfold] and
      [py_case] used by the component proofs. *)

From stdpp Require Import base list strings decidable.
From Stdlib Require Import Lia.

Open Scope string_scope.

(** ** Exceptions and outcomes *)

(** [AttributeError]: an attribute read before it is first assigned. *)
Inductive exn := IndexError | TypeError | NotImplementedError | AttributeError.

#[export] Instance exn_eq_dec : EqDecision exn.
Proof. solve_decision. Defined.

Inductive outcome (A : Type) := Ret (a : A) | Exc (e : exn).
Arguments Ret {A} a.
Arguments Exc {A} e.

(** ** The state-and-exception monad *)

Definition PyM (S A : Type) : Type := S -> S * outcome A.

Definition pret {S A} (a : A) : PyM S A := fun s => (s, Ret a).

Definition praise {S A} (e : exn) : PyM S A := fun s => (s, Exc e).

Definition pbind {S A B} (m : PyM S A) (k : A -> PyM S B) : PyM S B :=
  fun s => match m s with
           | (s', Ret a) => k a s'
           | (s', Exc e) => (s', Exc e)
           end.

Definition pget {S} : PyM S S := fun s => (s, Ret s).

Definition pput {S} (s : S) : PyM S unit := fun _ => (s, Ret tt).

Definition pmodify {S} (f : S -> S) : PyM S unit := fun s => (f s, Ret tt).

(** Lift a computation that cannot fail and does not touch the store. *)
Definition pof {S A} (r : outcome A) : PyM S A := fun s => (s, r).

Declare Scope py_scope.
Delimit Scope py_scope with py.
Notation "'let*' x ':=' m 'in' k" := (pbind m (fun x => k))
  (at level 10, x name, m at level 100, k at level 200) : py_scope.
Notation "m ';;;' k" := (pbind m (fun _ => k))
  (at level 100, right associativity) : py_scope.
Open Scope py_scope.

(** [for x in xs: body(x)] where an exception leaves the loop. *)
Fixpoint pfor {S A} (xs : list A) (body : A -> PyM S unit) : PyM S unit :=
  match xs with
  | [] => pret tt
  | x :: xs' => body x ;;; pfor xs' body
  end.

(** ** Python lists *)

(** [l[i]] for [i >= 0]. *)
Definition py_index {A} (l : list A) (i : nat) : outcome A :=
  match l !! i with
  | Some x => Ret x
  | None => Exc IndexError
  end.

(** ** Dynamically typed field values *)

(** What [field.getValue()] returns: [None], a boolean, a string, or a
    list of strings (for the [list-multi] and [jid-multi] types). *)
Inductive pyval :=
| PNone
| PBool (b : bool)
| PStr (s : string)
| PList (l : list string).

#[export] Instance pyval_eq_dec : EqDecision pyval.
Proof. solve_decision. Defined.

(** [bool(v)]. *)
Definition py_truthy (v : pyval) : bool :=
  match v with
  | PNone => false
  | PBool b => b
  | PStr s => negb (String.eqb s "")
  | PList l => negb (bool_decide (l = []))
  end.

(** [x in s] for strings is the substring test. *)
Fixpoint substring_b (x s : string) : bool :=
  String.prefix x s ||
  match s with
  | EmptyString => false
  | String _ s' => substring_b x s'
  end.

(** [x in v] for a string [x]: membership in a list, substring in a string,
    [TypeError] for [None] and booleans. *)
Definition py_in (x : string) (v : pyval) : outcome bool :=
  match v with
  | PList l => Ret (bool_decide (x ∈ l))
  | PStr s => Ret (substring_b x s)
  | PNone | PBool _ => Exc TypeError
  end.

(** [v == PStr x]: Python equality never raises between these types. *)
Definition py_eq_str (v : pyval) (x : string) : bool :=
  bool_decide (v = PStr x).

(** ** Shared lemmas *)

Create HintDb pyforms discriminated.
Create Rewrite HintDb pyrw.

Lemma pbind_ret {S A B} (a : A) (k : A -> PyM S B) s :
  pbind (pret a) k s = k a s.
Proof. reflexivity. Qed.

Lemma pbind_raise {S A B} e (k : A -> PyM S B) s :
  pbind (praise e) k s = (s, Exc e).
Proof. reflexivity. Qed.

Lemma pbind_assoc {S A B C} (m : PyM S A) (k : A -> PyM S B) (h : B -> PyM S C) s :
  pbind (pbind m k) h s = pbind m (fun a => pbind (k a) h) s.
Proof. unfold pbind. destruct (m s) as [s' [a|e]]; reflexivity. Qed.

Lemma py_index_lookup {A} (l : list A) i x :
  l !! i = Some x -> py_index l i = Ret x.
Proof. unfold py_index. by intros ->. Qed.

Lemma py_index_ge {A} (l : list A) i :
  length l <= i -> py_index l i = Exc IndexError.
Proof. unfold py_index. intros H. by rewrite (lookup_ge_None_2 l i H). Qed.

Lemma py_index_Ret {A} (l : list A) i x :
  py_index l i = Ret x <-> l !! i = Some x.
Proof. unfold py_index. destruct (l !! i); split; congruence. Qed.

Lemma py_index_lt {A} (l : list A) i :
  i < length l -> exists x, l !! i = Some x /\ py_index l i = Ret x.
Proof.
  intros H. destruct (lookup_lt_is_Some_2 l i H) as [x Hx].
  exists x. split; [done | by apply py_index_lookup].
Qed.

Lemma lookup_insert_same_length {A} (l : list A) i j x :
  j < length l -> is_Some (<[i:=x]> l !! j).
Proof. intros H. apply lookup_lt_is_Some_2. by rewrite length_insert. Qed.

Lemma sublist_fmap_mono {A B} (f : A -> B) (l1 l2 : list A) :
  l1 `sublist_of` l2 -> f <$> l1 `sublist_of` f <$> l2.
Proof. induction 1; simpl; by constructor. Qed.

#[export] Hint Resolve py_index_lookup lookup_insert_same_length : pyforms.
#[export] Hint Rewrite @pbind_ret @pbind_raise @length_insert : pyrw.

(** Unfold the monad to the store-passing function it stands for. *)
Ltac py_unfold :=
  repeat unfold pbind, pret, praise, pget, pput, pmodify, pof in *.

(** Case on the outcome of a lookup or a Python index in the goal. *)
Ltac py_case :=
  match goal with
  | |- context [py_index ?l ?i] =>
      let E := fresh "Eidx" in destruct (py_index l i) eqn:E
  | |- context [?l !! ?i] =>
      let E := fresh "Elk" in destruct (l !! i) eqn:E
  end.

(** ** Invariants of monadic code

    [preserves I m]: running [m] from a store satisfying [I] leaves a
    store satisfying [I], whatever the outcome (Python keeps the
    mutations made before an exception).  The combinators below prove it
    by following the program's structure. *)

Definition preserves {S A} (I : S -> Prop) (m : PyM S A) : Prop :=
  forall s, I s -> I (fst (m s)).

Section Preserves.
Context {S : Type} (I : S -> Prop).

Lemma preserves_ret {A} (a : A) : preserves I (pret a).
Proof. by intros s. Qed.

Lemma preserves_raise {A} e : preserves I (praise (A := A) e).
Proof. by intros s. Qed.

Lemma preserves_get : preserves I pget.
Proof. by intros s. Qed.

Lemma preserves_of {A} (r : outcome A) : preserves I (pof r).
Proof. by intros s. Qed.

Lemma preserves_modify (f : S -> S) : (forall s, I s -> I (f s)) -> preserves I (pmodify f).
Proof. intros Hf s. apply Hf. Qed.

Lemma preserves_bind {A B} (m : PyM S A) (k : A -> PyM S B) :
  preserves I m -> (forall a, preserves I (k a)) -> preserves I (pbind m k).
Proof.
  intros Hm Hk s Hs. unfold pbind. specialize (Hm s Hs).
  destruct (m s) as [s' [a|e]]; [by apply Hk | done].
Qed.

Lemma preserves_pfor {A} (xs : list A) (body : A -> PyM S unit) :
  (forall x, x ∈ xs -> preserves I (body x)) -> preserves I (pfor xs body).
Proof.
  induction xs as [|x xs IH]; intros Hb; simpl; [apply preserves_ret|].
  apply preserves_bind; [apply Hb; left|intros _; apply IH; intros y Hy; apply Hb; by right].
Qed.

End Preserves.

#[export] Hint Resolve preserves_ret preserves_raise preserves_get preserves_of : pyforms.

(** ** Loops that raise *)

Section PforRaise.
Context {S A : Type} (body : A -> PyM S unit) (e : exn).

(** A loop whose every iteration either completes or raises [e] raises
    [e] as soon as it reaches an element [bad] says always raises. *)
Lemma pfor_raises (bad : A -> Prop) (xs : list A) s :
  (forall x s, x ∈ xs -> snd (body x s) = Ret tt \/ snd (body x s) = Exc e) ->
  (forall x s, x ∈ xs -> bad x -> snd (body x s) = Exc e) ->
  Exists bad xs -> snd (pfor xs body s) = Exc e.
Proof.
  revert s. induction xs as [|x xs IH]; intros s Hout Hbad Hex; [by apply Exists_nil in Hex|].
  simpl. unfold pbind. pose proof (Hout x s ltac:(left)) as Hx.
  destruct (body x s) as [s1 r] eqn:E. simpl in Hx.
  apply Exists_cons in Hex as [Hb|Hex].
  - pose proof (Hbad x s ltac:(left) Hb) as Hr. rewrite E in Hr. simpl in Hr. by subst r.
  - destruct Hx as [->| ->]; [|done].
    apply IH; [intros y t Hy; apply Hout; by right | intros y t Hy; apply Hbad; by right | done].
Qed.

End PforRaise.

(** A loop whose every iteration leaves the state as it is and completes
    does nothing. *)
Lemma pfor_noop {S A} (body : A -> PyM S unit) (xs : list A) s :
  (forall x, x ∈ xs -> body x s = (s, Ret tt)) -> pfor xs body s = (s, Ret tt).
Proof.
  induction xs as [|x xs IH]; intros Hb; [done|].
  simpl. unfold pbind. rewrite (Hb x ltac:(left)). apply IH. intros y Hy. apply Hb. by right.
Qed.

(** Follow a program's binds and branches down to its primitive steps. *)
Ltac preserves_solve :=
  repeat first
    [ apply preserves_bind; [|intros ?]
    | progress eauto with pyforms
    | case_decide
    | match goal with |- preserves _ (if ?b then _ else _) => destruct b end
    | match goal with |- preserves _ (match ?x with _ => _ end) => destruct x end ].

(** ** [in] on strings against its definition

    [substring_b] is the executable test; Python defines [x in s] as
    [s] containing [x] as a contiguous piece.  The prefix lemmas follow
    the ones of qcert's [StringAdd]. *)

Lemma prefix_append_spec (x s : string) :
  String.prefix x s = true <-> exists q, s = String.append x q.
Proof.
  revert s. induction x as [|a x IH]; intros [|b s]; simpl.
  - split; [by exists "" | done].
  - split; [by exists (String b s) | done].
  - split; [discriminate|]. by intros [q ?].
  - destruct (Ascii.ascii_dec a b) as [<-|Hab]; split.
    + rewrite IH. intros [q ->]. by exists q.
    + intros [q Hq]. injection Hq as Hq. apply IH. by exists q.
    + discriminate.
    + intros [q Hq]. injection Hq as <- _. done.
Qed.

Lemma substring_b_unfold x s :
  substring_b x s = String.prefix x s ||
                    match s with EmptyString => false | String _ s' => substring_b x s' end.
Proof. by destruct s. Qed.

(** Python's [x in s] for strings holds exactly when [s] is [p ++ x ++ q]
    for some strings [p] and [q]: the scan over the suffixes of [s] is
    equivalent to the declarative substring relation. *)
Theorem substring_b_spec (x s : string) :
  substring_b x s = true <->
  exists p q, s = String.append p (String.append x q).
Proof.
  induction s as [|a s IH];
    (rewrite (substring_b_unfold x), orb_true_iff, prefix_append_spec; fold substring_b).
  - split.
    + intros [[q Hq]|H]; [|discriminate]. by exists "", q.
    + intros ([|b p] & q & Hpq); [left; by exists q | done].
  - rewrite IH. split.
    + intros [[q Hq]|(p & q & Hpq)]; [by exists "", q|].
      exists (String a p), q. simpl. by rewrite Hpq.
    + intros ([|b p] & q & Hpq); simpl in Hpq; [left; by exists q|].
      right. injection Hpq as -> ->. by exists p, q.
Qed.
