(* ===== verification/Field.v ===== *)
(** * Field: the data-form objects the widgets read and write

    [data_forms.py] never builds a field: it receives a SleekXMPP form and
    reads and mutates its fields through [getValue], [getOptions],
    [setValue], [setAnswer], [delOptions] and [field['label'] = ...], and
    the form through [getFields] and [form['title'] = ...].  This file
    models that surface as plain records (the library is outside the
    repository; its methods are modelled from the spec, section 3):
    - [opt]: an option [{'label', 'value'}] of a [list-*] field;
    - [field]: [var] (name), [type], [label], [instructions], [value],
      [options];
    - [form]: [title], [instructions], the form [type] and the ordered
      fields.  A widget refers to its field by position in [form_fields]:
      the Python objects are shared, so a write through a widget is a write
      into the form. *)

From stdpp Require Import base list strings.
From S2P Require Import Prelude.

Open Scope string_scope.

Record opt := mkOpt { opt_label : string; opt_value : string }.

Record field := mkField {
  f_var : string;
  f_type : string;
  f_label : string;
  f_instructions : string;
  f_value : pyval;
  f_options : list opt
}.

Record form := mkForm {
  form_title : string;
  form_instructions : string;
  form_type : string;
  form_fields : list field
}.

(** ** Field methods *)

Definition getValue (f : field) : pyval := f_value f.

(** [getOptions] builds a fresh list from the field's elements. *)
Definition getOptions (f : field) : list opt := f_options f.

Definition setValue (v : pyval) (f : field) : field :=
  mkField (f_var f) (f_type f) (f_label f) (f_instructions f) v (f_options f).

Definition setAnswer (v : pyval) (f : field) : field := setValue v f.

Definition delOptions (f : field) : field :=
  mkField (f_var f) (f_type f) (f_label f) (f_instructions f) (f_value f) [].

(** [field['label'] = s]. *)
Definition set_label (s : string) (f : field) : field :=
  mkField (f_var f) (f_type f) s (f_instructions f) (f_value f) (f_options f).

(** ** Form methods *)

Definition getFields (fm : form) : list field := form_fields fm.

Definition set_title (s : string) (fm : form) : form :=
  mkForm s (form_instructions fm) (form_type fm) (form_fields fm).

Definition set_form_instructions (s : string) (fm : form) : form :=
  mkForm (form_title fm) s (form_type fm) (form_fields fm).

Definition set_fields (fs : list field) (fm : form) : form :=
  mkForm (form_title fm) (form_instructions fm) (form_type fm) fs.

(** Run a mutation of the [i]-th field of the form; the field object is
    shared, so the mutations made before an exception stay visible. *)
Definition on_field {A} (i : nat) (m : PyM field A) : PyM form A :=
  fun fm =>
    match form_fields fm !! i with
    | None => (fm, Exc IndexError)
    | Some f =>
        let (f', r) := m f in
        (set_fields (<[i:=f']> (form_fields fm)) fm, r)
    end.

(** ** Lemmas *)

Lemma setAnswer_value v f : getValue (setAnswer v f) = v.
Proof. reflexivity. Qed.

Lemma on_field_length {A} i (m : PyM field A) fm :
  length (form_fields (fst (on_field i m fm))) = length (form_fields fm).
Proof.
  unfold on_field. destruct (form_fields fm !! i); [|done].
  destruct (m f). simpl. apply length_insert.
Qed.

Lemma on_field_other {A} i j (m : PyM field A) fm :
  i <> j -> form_fields (fst (on_field i m fm)) !! j = form_fields fm !! j.
Proof.
  intros Hij. unfold on_field. destruct (form_fields fm !! i); [|done].
  destruct (m f). simpl. by apply list_lookup_insert_ne.
Qed.

Lemma on_field_here {A} i (m : PyM field A) fm f :
  form_fields fm !! i = Some f ->
  on_field i m fm = (set_fields (<[i:=fst (m f)]> (form_fields fm)) fm, snd (m f)).
Proof. intros H. unfold on_field. rewrite H. by destruct (m f). Qed.

Lemma on_field_title {A} i (m : PyM field A) fm :
  form_title (fst (on_field i m fm)) = form_title fm /\
  form_instructions (fst (on_field i m fm)) = form_instructions fm.
Proof.
  unfold on_field. destruct (form_fields fm !! i); [|done]. by destruct (m f).
Qed.

#[export] Hint Rewrite @on_field_length : pyrw.

(** A property of every field that the mutation keeps is kept by [on_field]. *)
Lemma on_field_forall {A} (P : field -> Prop) i (m : PyM field A) :
  (forall f, P f -> P (fst (m f))) -> preserves (fun fm => Forall P (form_fields fm)) (on_field i m).
Proof.
  intros Hm fm Hfm. unfold on_field.
  destruct (form_fields fm !! i) as [f|] eqn:Hi; [|done].
  pose proof (Hm f (Forall_lookup_1 _ _ _ _ Hfm Hi)) as Hf.
  destruct (m f) as [f' r]. simpl in *. by apply Forall_insert.
Qed.
