(* ===== verification/Editor.v ===== *)
(** * Editor: the single-line text input behind the text widgets

    [TextSingleWin] and [TextPrivateWin] inherit their key handling from
    [windows.Input], which is not part of [src/]: the spec (section 4.5)
    describes it only as a generic single-line editing primitive whose text
    buffer is what [reply] reads.  This file states that contract as the
    class [LineEditor] (a key handler that keeps the cursor inside the
    buffer) and gives one instance, [basic_editor], modelled from the
    spec: printable characters are inserted at the cursor, [KEY_LEFT],
    [KEY_RIGHT], [KEY_HOME] and [KEY_END] move it, [KEY_BACKSPACE] and
    [KEY_DC] delete around it.  The widget theorems are proved for every
    instance of the class, except the typing round trip of Widgets, which
    uses [basic_type_char]: a one-character key typed at the end of the
    line appends that character. *)

From stdpp Require Import base list strings.
From Stdlib Require Import Lia.
From S2P Require Import Prelude.

Open Scope string_scope.

(** The attributes of [windows.Input] the data-forms code touches:
    [text], [pos] (the cursor) and [line_pos] (the first visible
    character, read by [TextPrivateWin.rewrite_text]). *)
Record line := mkLine { in_text : string; in_pos : nat; in_line_pos : nat }.

(** [Input.__init__] followed by [self.text = t; self.pos = len(self.text)]
    in [TextSingleWin.__init__]. *)
Definition new_line (t : string) : line := mkLine t (String.length t) 0.

(** [Input.get_text()] returns the buffer. *)
Definition get_text (l : line) : string := in_text l.

Definition line_wf (l : line) : Prop := in_pos l <= String.length (in_text l).

Class LineEditor := {
  le_do_command : string -> line -> line;
  le_do_command_wf : forall k l, line_wf l -> line_wf (le_do_command k l)
}.

(** ** A line editor modelled from the spec *)

Definition chars (s : string) : list Ascii.ascii := String.list_ascii_of_string s.
Definition unchars (l : list Ascii.ascii) : string := String.string_of_list_ascii l.

Lemma length_chars s : length (chars s) = String.length s.
Proof. induction s as [|a s IH]; simpl; [done | by rewrite IH]. Qed.

Lemma length_unchars l : String.length (unchars l) = length l.
Proof. rewrite <- length_chars. unfold chars, unchars. by rewrite String.list_ascii_of_string_of_list_ascii. Qed.

Definition edit_insert (c : string) (l : line) : line :=
  let cs := chars (in_text l) in
  mkLine (unchars (take (in_pos l) cs ++ chars c ++ drop (in_pos l) cs))
         (in_pos l + String.length c) (in_line_pos l).

Definition edit_backspace (l : line) : line :=
  let cs := chars (in_text l) in
  if decide (0 < in_pos l) then
    mkLine (unchars (take (in_pos l - 1) cs ++ drop (in_pos l) cs))
           (in_pos l - 1) (in_line_pos l)
  else l.

Definition edit_delete (l : line) : line :=
  let cs := chars (in_text l) in
  if decide (in_pos l < length cs) then
    mkLine (unchars (take (in_pos l) cs ++ drop (S (in_pos l)) cs))
           (in_pos l) (in_line_pos l)
  else l.

Definition edit_move (p : nat) (l : line) : line :=
  mkLine (in_text l) p (in_line_pos l).

Definition basic_do_command (k : string) (l : line) : line :=
  let n := String.length (in_text l) in
  if decide (k = "KEY_LEFT") then edit_move (in_pos l - 1) l
  else if decide (k = "KEY_RIGHT") then edit_move (Nat.min n (S (in_pos l))) l
  else if decide (k = "KEY_HOME") then edit_move 0 l
  else if decide (k = "KEY_END") then edit_move n l
  else if decide (k = "KEY_BACKSPACE") then edit_backspace l
  else if decide (k = "KEY_DC") then edit_delete l
  else if decide (String.length k = 1) then edit_insert k l
  else l.

Lemma basic_do_command_wf k l : line_wf l -> line_wf (basic_do_command k l).
Proof.
  unfold line_wf, basic_do_command, edit_move, edit_backspace, edit_delete, edit_insert.
  intros H. repeat case_decide; simpl; try lia;
    rewrite length_unchars, ?length_app, ?length_take, ?length_drop, ?length_chars in *; simpl; lia.
Qed.

#[export] Instance basic_editor : LineEditor :=
  { le_do_command := basic_do_command; le_do_command_wf := basic_do_command_wf }.

Lemma new_line_wf t : line_wf (new_line t).
Proof. unfold line_wf, new_line. simpl. lia. Qed.

#[export] Hint Resolve new_line_wf le_do_command_wf : pyforms.

(** ** Typing at the end of the line *)

Lemma chars_app (t u : string) : chars (String.append t u) = (chars t ++ chars u)%list.
Proof. induction t as [|a t IH]; simpl; [done | by rewrite IH]. Qed.

Lemma unchars_chars (t : string) : unchars (chars t) = t.
Proof. apply String.string_of_list_ascii_of_string. Qed.

Lemma length_append (t u : string) :
  String.length (String.append t u) = String.length t + String.length u.
Proof. induction t as [|a t IH]; simpl; [done | by rewrite IH]. Qed.

(** [String.append] is [simpl never] under stdpp: its equations. *)
Lemma append_cons (a : Ascii.ascii) (t u : string) :
  String.append (String a t) u = String a (String.append t u).
Proof. reflexivity. Qed.

Lemma append_empty_r (t : string) : String.append t EmptyString = t.
Proof. induction t as [|a t IH]; [done|]. by rewrite append_cons, IH. Qed.

Lemma append_assoc_str (a b c : string) :
  String.append a (String.append b c) = String.append (String.append a b) c.
Proof. induction a as [|x a IH]; [done|]. by rewrite !append_cons, IH. Qed.

(** Typing a character at the end of the line appends it: a key of one
    character is none of the editing keys. *)
Lemma basic_type_char (a : Ascii.ascii) (t : string) :
  basic_do_command (String a EmptyString) (new_line t) = new_line (String.append t (String a EmptyString)).
Proof.
  unfold basic_do_command. rewrite !decide_False by (intros Hk; inversion Hk).
  rewrite decide_True by reflexivity. unfold edit_insert, new_line. simpl.
  rewrite <- length_chars, take_ge, drop_ge by lia. f_equal.
  - by rewrite <- (unchars_chars (String.append t _)), chars_app.
  - rewrite length_append, length_chars. simpl. lia.
Qed.
