(* ===== verification/Focus.v ===== *)
(** * Focus: the focus controller of [FormWin]

    [FormWin] ([data_forms.py], lines 268-380) keeps the list of inputs
    built from the form and the index [current_input] of the focused one.
    This file models its navigation, [go_to_next_input] (lines 325-338)
    and [go_to_previous_input] (lines 340-353), and the key forwarding
    [on_input] (lines 355-358), as [PyM formwin] computations.

    The widgets are seen through the class [Widget]: what the controller
    uses of an input is [is_dummy], its [color], [set_color] (which also
    redraws the input, and the redraw of a list widget whose option list is
    empty raises [IndexError]) and [do_command].  [Widgets.v] gives the
    instance for the six input classes of the module.

    The two [while] loops become [next_jump] and [prev_jump], with the
    number of inputs as fuel; [next_jump_terminates] and
    [prev_jump_terminates] show that this fuel is always enough.

    Beyond the exact result of each move and its relation to the spec's
    navigation, the file shows that every focusable input after the focus
    is reached by [KEY_DOWN] presses ([eventually], after coqutil's
    combinator of that name) and that any per-input property [set_color]
    keeps is kept by both moves ([inputs_satisfy]), which the typing
    invariant of Session uses. *)

From stdpp Require Import base list strings.
From Stdlib Require Import Lia.
From S2P Require Import Prelude.

Open Scope string_scope.

(** The two colour pairs of the module: 14 (normal) and 13 (focused). *)
Definition COLOR_NORMAL : nat := 14.
Definition COLOR_FOCUSED : nat := 13.

Class Widget (W : Type) := {
  is_dummy : W -> bool;
  color : W -> nat;
  refresh_ok : W -> bool;
  set_color : nat -> PyM W unit;
  do_command : string -> PyM W unit;
  set_color_color : forall c w, color (fst (set_color c w)) = c;
  set_color_dummy : forall c w, is_dummy (fst (set_color c w)) = is_dummy w;
  set_color_refresh : forall c w, refresh_ok (fst (set_color c w)) = refresh_ok w;
  set_color_outcome : forall c w,
    snd (set_color c w) = if refresh_ok w then Ret tt else Exc IndexError
}.

(** One element of [self.inputs]: the dict
    [{'label': ..., 'instructions': ..., 'input': ...}]. *)
Record entry (W : Type) := mkEntry {
  e_label : pyval;
  e_instructions : string;
  e_input : W
}.
Arguments mkEntry {W} _ _ _.
Arguments e_label {W} _.
Arguments e_instructions {W} _.
Arguments e_input {W} _.

Record formwin (W : Type) := mkWin {
  inputs : list (entry W);
  current_input : nat
}.
Arguments mkWin {W} _ _.
Arguments inputs {W} _.
Arguments current_input {W} _.

Section Focus.
Context {W : Type} `{Widget W}.

Definition entry_dummy (e : entry W) : bool := is_dummy (e_input e).

(** [self.inputs[i]['input'].is_dummy()] *)
Definition dummy_at (ins : list (entry W)) (i : nat) : outcome bool :=
  match ins !! i with
  | Some e => Ret (entry_dummy e)
  | None => Exc IndexError
  end.

(** Run a method of [self.inputs[i]['input']]; the input object is
    mutated in place, also when the method raises. *)
Definition on_input_at {A} (i : nat) (m : PyM W A) : PyM (formwin W) A :=
  fun fw =>
    match inputs fw !! i with
    | None => (fw, Exc IndexError)
    | Some e =>
        let (w', r) := m (e_input e) in
        (mkWin (<[i:=mkEntry (e_label e) (e_instructions e) w']> (inputs fw))
               (current_input fw), r)
    end.

Definition set_current (c : nat) : PyM (formwin W) unit :=
  pmodify (fun fw => mkWin (inputs fw) c).

(** [while cur+jump != len(inputs)-1 and inputs[cur+jump].is_dummy(): jump += 1] *)
Fixpoint next_jump (fuel : nat) (ins : list (entry W)) (cur jump : nat) : outcome nat :=
  match fuel with
  | 0 => Ret jump
  | S f =>
      if decide (cur + jump = length ins - 1) then Ret jump
      else match dummy_at ins (cur + jump) with
           | Exc e => Exc e
           | Ret true => next_jump f ins cur (S jump)
           | Ret false => Ret jump
           end
  end.

(** [while cur-jump > 0 and inputs[cur+jump].is_dummy(): jump += 1] *)
Fixpoint prev_jump (fuel : nat) (ins : list (entry W)) (cur jump : nat) : outcome nat :=
  match fuel with
  | 0 => Ret jump
  | S f =>
      if decide (jump < cur) then
        match dummy_at ins (cur + jump) with
        | Exc e => Exc e
        | Ret true => prev_jump f ins cur (S jump)
        | Ret false => Ret jump
        end
      else Ret jump
  end.

Definition go_to_next_input : PyM (formwin W) unit :=
  let* fw := pget in
  if decide (inputs fw = []) then pret tt
  else if decide (current_input fw = length (inputs fw) - 1) then pret tt
  else
    on_input_at (current_input fw) (set_color COLOR_NORMAL) ;;;
    let* fw := pget in
    let c := S (current_input fw) in
    set_current c ;;;
    let* jump := pof (next_jump (length (inputs fw)) (inputs fw) c 0) in
    let* d := pof (dummy_at (inputs fw) (c + jump)) in
    if d then pret tt
    else set_current (c + jump) ;;;
         on_input_at (c + jump) (set_color COLOR_FOCUSED).

Definition go_to_previous_input : PyM (formwin W) unit :=
  let* fw := pget in
  if decide (inputs fw = []) then pret tt
  else if decide (current_input fw = 0) then pret tt
  else
    on_input_at (current_input fw) (set_color COLOR_NORMAL) ;;;
    let* fw := pget in
    let c := current_input fw - 1 in
    set_current c ;;;
    let* jump := pof (prev_jump (length (inputs fw)) (inputs fw) c 0) in
    let* d := pof (dummy_at (inputs fw) (c + jump)) in
    if d then pret tt
    else set_current (c - jump) ;;;
         on_input_at (c - jump) (set_color COLOR_FOCUSED).

(** [FormWin.on_input]: forward the key to the focused input. *)
Definition formwin_on_input (key : string) : PyM (formwin W) unit :=
  let* fw := pget in
  if decide (inputs fw = []) then pret tt
  else on_input_at (current_input fw) (do_command key).

End Focus.

(** ** Reference definitions: where focus should go *)

Section Spec.
Context {W : Type} `{Widget W}.

(** The dummy flags of the inputs: all the scans look at. *)
Definition dummies (ins : list (entry W)) : list bool := entry_dummy <$> ins.

Definition active (b : bool) : Prop := b = false.
#[local] Instance active_dec b : Decision (active b).
Proof. unfold active. apply _. Defined.

(** The first focusable input after [c], if any. *)
Definition spec_next (ds : list bool) (c : nat) : option nat :=
  match list_find active (drop (S c) ds) with
  | Some (k, _) => Some (S c + k)
  | None => None
  end.

(** The last focusable input before [c], if any. *)
Definition spec_prev (ds : list bool) (c : nat) : option nat :=
  match list_find active (reverse (take c ds)) with
  | Some (k, _) => Some (c - 1 - k)
  | None => None
  end.

(** The navigation of the spec (section 4.8): skip the inert inputs, and
    stay in place when there is no focusable input in that direction. *)
Definition nav_next (ds : list bool) (c : nat) : nat :=
  match spec_next ds c with Some j => j | None => c end.

Definition nav_prev (ds : list bool) (c : nat) : nat :=
  match spec_prev ds c with Some j => j | None => c end.

(** The label, instructions, dummy flag and redraw status of an input:
    everything [set_color] leaves alone. *)
Definition shape (e : entry W) : pyval * string * bool * bool :=
  (e_label e, e_instructions e, is_dummy (e_input e), refresh_ok (e_input e)).

(** Every input but the focused one has the normal colour. *)
Definition colors_ok (fw : formwin W) : Prop :=
  forall i e, i <> current_input fw -> inputs fw !! i = Some e ->
              color (e_input e) = COLOR_NORMAL.

Definition focus_in_range (fw : formwin W) : Prop :=
  current_input fw < length (inputs fw).

Definition all_refresh_ok (ins : list (entry W)) : Prop :=
  Forall (fun e => refresh_ok (e_input e) = true) ins.

End Spec.

(** ** Lemmas on the controller's building blocks *)

Section FocusLemmas.
Context {W : Type} `{Widget W}.
Implicit Types (ins : list (entry W)) (fw : formwin W).

Definition recolor (c : nat) (e : entry W) : entry W :=
  mkEntry (e_label e) (e_instructions e) (fst (set_color c (e_input e))).

Lemma on_input_at_set_color i c fw e :
  inputs fw !! i = Some e ->
  on_input_at i (set_color c) fw =
    (mkWin (<[i:=recolor c e]> (inputs fw)) (current_input fw),
     if refresh_ok (e_input e) then Ret tt else Exc IndexError).
Proof.
  intros Hi. unfold on_input_at, recolor. rewrite Hi.
  rewrite <- (set_color_outcome c (e_input e)).
  by destruct (set_color c (e_input e)).
Qed.

Lemma on_input_at_None {A} i (m : PyM W A) fw :
  inputs fw !! i = None -> on_input_at i m fw = (fw, Exc IndexError).
Proof. intros Hi. unfold on_input_at. by rewrite Hi. Qed.

Lemma shape_recolor c e : shape (recolor c e) = shape e.
Proof. unfold shape, recolor. simpl. by rewrite set_color_dummy, set_color_refresh. Qed.

Lemma shapes_recolor i c ins e :
  ins !! i = Some e -> shape <$> <[i:=recolor c e]> ins = shape <$> ins.
Proof.
  intros Hi. rewrite list_fmap_insert, shape_recolor.
  apply list_insert_id. by rewrite list_lookup_fmap, Hi.
Qed.

Lemma dummies_of_shapes ins ins' :
  shape <$> ins = shape <$> ins' -> dummies ins = dummies ins'.
Proof.
  intros Hs. unfold dummies.
  transitivity ((fun s => snd (fst s)) <$> (shape <$> ins)).
  - by rewrite <- list_fmap_compose.
  - by rewrite Hs, <- list_fmap_compose.
Qed.

Lemma length_of_shapes ins ins' :
  shape <$> ins = shape <$> ins' -> length ins = length ins'.
Proof. intros Hs. by rewrite <- (length_fmap shape ins), Hs, length_fmap. Qed.

Lemma dummy_at_dummies ins i :
  dummy_at ins i = match dummies ins !! i with Some b => Ret b | None => Exc IndexError end.
Proof. unfold dummy_at, dummies. rewrite list_lookup_fmap. by destruct (ins !! i). Qed.

Lemma dummy_at_congr ins ins' i :
  dummies ins = dummies ins' -> dummy_at ins i = dummy_at ins' i.
Proof. intros Hd. by rewrite !dummy_at_dummies, Hd. Qed.

Lemma length_dummies ins : length (dummies ins) = length ins.
Proof. apply length_fmap. Qed.



Lemma next_jump_congr f ins ins' c j :
  dummies ins = dummies ins' -> next_jump f ins c j = next_jump f ins' c j.
Proof.
  intros Hd. revert j. induction f as [|f IH]; intros j; [done|]. simpl.
  rewrite <- !length_dummies, Hd, (dummy_at_congr ins ins') by done.
  case_decide; [done|]. destruct (dummy_at ins' (c + j)) as [[]|]; auto.
Qed.

Lemma prev_jump_congr f ins ins' c j :
  dummies ins = dummies ins' -> prev_jump f ins c j = prev_jump f ins' c j.
Proof.
  intros Hd. revert j. induction f as [|f IH]; intros j; [done|]. simpl.
  rewrite (dummy_at_congr ins ins') by done.
  case_decide; [|done]. destruct (dummy_at ins' (c + j)) as [[]|]; auto.
Qed.

End FocusLemmas.

(** ** The forward scan *)

Section NextScan.
Context {W : Type} `{Widget W}.
Implicit Types (ins : list (entry W)) (fw : formwin W) (ds : list bool).

(** Where the [while] loop of [go_to_next_input] stops when started at
    index [i]: the first focusable input from [i] on, or the last input. *)
Definition next_scan ds (i : nat) : nat :=
  match list_find active (drop i ds) with
  | Some (k, _) => i + k
  | None => length ds - 1
  end.

Lemma next_scan_step ds (i : nat) (b : bool) :
  ds !! i = Some b -> next_scan ds i = if b then next_scan ds (S i) else i.
Proof.
  intros Hi. unfold next_scan. rewrite (drop_S ds b i Hi). simpl.
  destruct b; case_decide as Hd; unfold active in Hd; try done; simpl; try lia.
  destruct (list_find active (drop (S i) ds)) as [[k x]|]; simpl; [lia | done].
Qed.

Lemma next_scan_last ds :
  ds <> [] -> next_scan ds (length ds) = length ds - 1.
Proof. intros _. unfold next_scan. by rewrite drop_ge. Qed.

Lemma next_jump_scan f ins c j :
  c + j < length ins -> length ins - (c + j) <= f ->
  next_jump f ins c j = Ret (next_scan (dummies ins) (c + j) - c).
Proof.
  revert j. induction f as [|f IH]; intros j Hlt Hf; [lia|]. simpl.
  destruct (lookup_lt_is_Some_2 (dummies ins) (c + j)) as [b Hb];
    [by rewrite length_dummies|].
  rewrite dummy_at_dummies, Hb, (next_scan_step _ _ b Hb).
  case_decide as Hend.
  - destruct b; [|f_equal; lia].
    assert (S (c + j) = length (dummies ins)) as -> by (rewrite length_dummies; lia).
    rewrite next_scan_last; [rewrite length_dummies; f_equal; lia|].
    intros E. rewrite E in Hb. done.
  - destruct b; [|f_equal; lia].
    rewrite IH by lia. by replace (c + S j) with (S (c + j)) by lia.
Qed.

(** What the scan finds: a focusable input, or the last input, dummy. *)
Lemma next_scan_spec ds (i : nat) :
  i < length ds ->
  match list_find active (drop i ds) with
  | Some (k, _) => next_scan ds i = i + k /\ ds !! (i + k) = Some false
  | None => next_scan ds i = length ds - 1 /\ ds !! (length ds - 1) = Some true
  end.
Proof.
  intros Hi. unfold next_scan.
  destruct (list_find active (drop i ds)) as [[k x]|] eqn:E.
  - apply list_find_Some in E as (Hk & Hx & _). rewrite lookup_drop in Hk.
    unfold active in Hx. subst. done.
  - split; [done|]. apply list_find_None in E.
    destruct (lookup_lt_is_Some_2 ds (length ds - 1)) as [b Hb]; [lia|].
    rewrite Hb. destruct b; [done|].
    rewrite Forall_forall in E. exfalso. apply (E false); [|done].
    apply list_elem_of_lookup. exists (length ds - 1 - i).
    rewrite lookup_drop. replace (i + (length ds - 1 - i)) with (length ds - 1) by lia.
    done.
Qed.

End NextScan.

(** ** Forward navigation *)

Section Next.
Context {W : Type} `{Widget W}.
Implicit Types (ins : list (entry W)) (fw : formwin W) (ds : list bool).

Lemma all_refresh_ok_shapes ins ins' :
  shape <$> ins' = shape <$> ins -> all_refresh_ok ins -> all_refresh_ok ins'.
Proof.
  intros Hs Hok. unfold all_refresh_ok in *. rewrite Forall_lookup in *.
  intros i e' Hi'.
  assert (Hsh : (shape <$> ins') !! i = Some (shape e')) by (by rewrite list_lookup_fmap, Hi').
  rewrite Hs, list_lookup_fmap in Hsh.
  destruct (ins !! i) as [e|] eqn:Hi; [|done]. simpl in Hsh.
  unfold shape in Hsh. injection Hsh as _ _ _ Hr. cbn. rewrite <- Hr. by apply (Hok i e).
Qed.

(** [set_color c] applied to the [i]-th input, as a change of the list. *)
Definition paint (c i : nat) ins : list (entry W) := alter (recolor c) i ins.

Lemma on_input_at_paint i c fw :
  i < length (inputs fw) ->
  on_input_at i (set_color c) fw =
    (mkWin (paint c i (inputs fw)) (current_input fw),
     match inputs fw !! i with
     | Some e => if refresh_ok (e_input e) then Ret tt else Exc IndexError
     | None => Ret tt
     end).
Proof.
  intros Hi. destruct (lookup_lt_is_Some_2 _ _ Hi) as [e He].
  rewrite (on_input_at_set_color i c fw e He), He. unfold paint. do 2 f_equal.
  rewrite list_insert_alter. apply list_alter_ext; [|done]. by intros x; rewrite He; intros [= <-].
Qed.

Lemma recolor_ok (i c : nat) fw :
  i < length (inputs fw) -> all_refresh_ok (inputs fw) ->
  on_input_at i (set_color c) fw = (mkWin (paint c i (inputs fw)) (current_input fw), Ret tt).
Proof.
  intros Hi Hok. rewrite on_input_at_paint by done.
  destruct (lookup_lt_is_Some_2 _ _ Hi) as [e He]. rewrite He.
  by rewrite (Forall_lookup_1 _ _ _ _ Hok He).
Qed.

Lemma shapes_paint c i ins : shape <$> paint c i ins = shape <$> ins.
Proof.
  unfold paint. destruct (ins !! i) as [e|] eqn:He.
  - rewrite <- (shapes_recolor i c ins e He). f_equal.
    rewrite list_insert_alter. apply list_alter_ext; [|done]. by intros x; rewrite He; intros [= <-].
  - f_equal. apply list_eq. intros k.
    destruct (decide (k = i)) as [->|Hk].
    + by rewrite list_lookup_alter_eq, He.
    + by rewrite list_lookup_alter_ne.
Qed.

Lemma length_paint c i ins : length (paint c i ins) = length ins.
Proof. apply length_alter. Qed.

Lemma paint_color c i ins e :
  paint c i ins !! i = Some e -> color (e_input e) = c.
Proof.
  unfold paint. rewrite list_lookup_alter_eq.
  destruct (ins !! i); simpl; [|done]. intros [= <-]. apply set_color_color.
Qed.

Lemma paint_other c i j ins : i <> j -> paint c i ins !! j = ins !! j.
Proof. apply list_lookup_alter_ne. Qed.

(** Where the code puts the focus: nowhere new from the last input;
    otherwise the next focusable input, and when there is none, the input
    right after the current one, although it is a dummy. *)
Definition next_target ds (c : nat) : nat :=
  if decide (c = length ds - 1) then c
  else match spec_next ds c with Some j => j | None => S c end.

Lemma spec_next_scan ds c :
  S c < length ds ->
  match spec_next ds c with
  | Some j => next_scan ds (S c) = j /\ ds !! j = Some false
  | None => next_scan ds (S c) = length ds - 1 /\ ds !! (length ds - 1) = Some true
  end.
Proof.
  intros Hc. pose proof (next_scan_spec ds (S c) Hc) as Hs. unfold spec_next.
  destruct (list_find active (drop (S c) ds)) as [[k x]|]; done.
Qed.

(** The code's forward move, for inputs that redraw without error: the
    old focus is repainted normal, then the focus goes to the next
    focusable input, which is painted focused; when none is left it goes
    to the input right after, unpainted. *)
Definition next_result (fw : formwin W) : formwin W * outcome unit :=
  let c := current_input fw in
  let ins := inputs fw in
  if decide (c = length ins - 1) then (fw, Ret tt)
  else match spec_next (dummies ins) c with
       | Some j => (mkWin (paint COLOR_FOCUSED j (paint COLOR_NORMAL c ins)) j, Ret tt)
       | None => (mkWin (paint COLOR_NORMAL c ins) (S c), Ret tt)
       end.

Lemma go_to_next_input_result (fw : formwin W) :
  focus_in_range fw -> all_refresh_ok (inputs fw) ->
  go_to_next_input fw = next_result fw.
Proof.
  destruct fw as [ins c]. unfold focus_in_range. simpl. intros Hc Hok.
  unfold go_to_next_input, next_result. py_unfold. simpl.
  case_decide as Hnil; [subst; simpl in Hc; lia|].
  case_decide as Hlast; [done|].
  rewrite (recolor_ok c COLOR_NORMAL (mkWin ins c)) by done. simpl.
  set (ins1 := paint COLOR_NORMAL c ins).
  assert (Hd1 : dummies ins1 = dummies ins) by (apply dummies_of_shapes, shapes_paint).
  assert (Hl1 : length ins1 = length ins) by apply length_paint.
  rewrite Hl1, (next_jump_congr _ ins1 ins) by done.
  rewrite next_jump_scan, Nat.add_0_r by lia.
  rewrite (dummy_at_congr ins1 ins), dummy_at_dummies by done.
  pose proof (spec_next_scan (dummies ins) c) as Hsp. rewrite length_dummies in Hsp.
  specialize (Hsp ltac:(lia)).
  destruct (spec_next (dummies ins) c) as [j|] eqn:Ej; destruct Hsp as [-> Hj].
  - assert (S c <= j).
    { unfold spec_next in Ej. destruct (list_find _ _) as [[k x]|]; [|done]. injection Ej. lia. }
    replace (S (c + (j - S c))) with j by lia. rewrite Hj. simpl.
    apply recolor_ok; simpl.
    + rewrite Hl1, <- length_dummies. by apply lookup_lt_Some in Hj.
    + apply (all_refresh_ok_shapes ins); [apply shapes_paint | done].
  - replace (S (c + (length ins - 1 - S c))) with (length ins - 1) by lia.
    by rewrite Hj.
Qed.
End Next.

(** ** Backward navigation *)

Section Prev.
Context {W : Type} `{Widget W}.
Implicit Types (ins : list (entry W)) (fw : formwin W) (ds : list bool).

(** The [while] loop of [go_to_previous_input] started at [jump = j]:
    it reads the inputs [c+j], [c+j+1], ... (forward, although the focus
    is moving backward) while [jump < c], and raises [IndexError] when it
    walks off the end of the list. *)
Definition prev_scan ds (c j : nat) : outcome nat :=
  match list_find active (take (c - j) (drop (c + j) ds)) with
  | Some (k, _) => Ret (j + k)
  | None => if decide (j = c \/ 2 * c <= length ds) then Ret c else Exc IndexError
  end.

Lemma prev_jump_scan f ins c j :
  j <= c -> c - j < f ->
  prev_jump f ins c j = prev_scan (dummies ins) c j.
Proof.
  revert j. induction f as [|f IH]; intros j Hj Hf; [lia|]. simpl. unfold prev_scan.
  case_decide as Hjc.
  - rewrite dummy_at_dummies.
    destruct (dummies ins !! (c + j)) as [b|] eqn:Hb.
    + replace (c - j) with (S (c - S j)) by lia.
      rewrite (drop_S _ b _ Hb). simpl.
      destruct b; case_decide as Hd; unfold active in Hd; try done; simpl.
      * rewrite IH by lia. unfold prev_scan.
        replace (c + S j) with (S (c + j)) by lia.
        destruct (list_find active _) as [[k x]|]; simpl; [f_equal; lia|].
        apply lookup_lt_Some in Hb. repeat case_decide; try done; lia.
      * f_equal. lia.
    + apply lookup_ge_None in Hb. rewrite drop_ge, take_nil by done. simpl.
      case_decide; [lia | done].
  - replace (c - j) with 0 by lia. simpl. case_decide; [f_equal; lia | lia].
Qed.

(** The code's backward move, for inputs that redraw without error. *)
Definition prev_result fw : formwin W * outcome unit :=
  let c0 := current_input fw in
  let ins := inputs fw in
  let ins1 := paint COLOR_NORMAL c0 ins in
  let c := c0 - 1 in
  if decide (c0 = 0) then (fw, Ret tt)
  else match prev_scan (dummies ins) c 0 with
       | Exc e => (mkWin ins1 c, Exc e)
       | Ret jump =>
           match dummies ins !! (c + jump) with
           | None => (mkWin ins1 c, Exc IndexError)
           | Some true => (mkWin ins1 c, Ret tt)
           | Some false => (mkWin (paint COLOR_FOCUSED (c - jump) ins1) (c - jump), Ret tt)
           end
       end.

Lemma go_to_previous_input_result fw :
  focus_in_range fw -> all_refresh_ok (inputs fw) ->
  go_to_previous_input fw = prev_result fw.
Proof.
  destruct fw as [ins c0]. unfold focus_in_range. simpl. intros Hc Hok.
  unfold go_to_previous_input, prev_result. py_unfold. simpl.
  case_decide as Hnil; [subst; simpl in Hc; lia|].
  case_decide as Hz; [done|].
  rewrite (recolor_ok c0 COLOR_NORMAL (mkWin ins c0)) by done. simpl.
  set (ins1 := paint COLOR_NORMAL c0 ins).
  assert (Hd1 : dummies ins1 = dummies ins) by (apply dummies_of_shapes, shapes_paint).
  assert (Hl1 : length ins1 = length ins) by apply length_paint.
  rewrite Hl1, (prev_jump_congr _ ins1 ins), prev_jump_scan by (done || lia).
  destruct (prev_scan (dummies ins) (c0 - 1) 0) as [jump|e] eqn:Ep; [|done]. simpl.
  rewrite (dummy_at_congr ins1 ins), dummy_at_dummies by done.
  destruct (dummies ins !! (c0 - 1 + jump)) as [[]|]; [done| |done]. simpl.
  apply recolor_ok; simpl.
  - rewrite Hl1. lia.
  - apply (all_refresh_ok_shapes ins); [apply shapes_paint | done].
Qed.

End Prev.

(** ** Properties of the controller *)

Section Properties.
Context {W : Type} `{Widget W}.
Implicit Types (ins : list (entry W)) (fw : formwin W) (ds : list bool).

Lemma next_result_current fw :
  current_input (fst (next_result fw)) = next_target (dummies (inputs fw)) (current_input fw).
Proof.
  unfold next_result, next_target. rewrite length_dummies.
  case_decide; [done|]. by destruct (spec_next _ _).
Qed.

Lemma spec_next_end ds (c : nat) : length ds <= S c -> spec_next ds c = None.
Proof. intros Hc. unfold spec_next. by rewrite drop_ge. Qed.

(** C4: the forward move agrees with the spec's navigation (skip the
    dummies, stay when no focusable input is left) exactly when there is a
    focusable input after the focus or the focus is on the last input;
    otherwise the code moves onto the dummy right after the focus. *)
Theorem go_to_next_input_refines_nav fw :
  focus_in_range fw -> all_refresh_ok (inputs fw) ->
  let c := current_input fw in
  let ds := dummies (inputs fw) in
  (current_input (fst (go_to_next_input fw)) = nav_next ds c <->
   spec_next ds c <> None \/ c = length (inputs fw) - 1).
Proof.
  intros Hr Hok. rewrite go_to_next_input_result, next_result_current by done.
  unfold next_target, nav_next. rewrite length_dummies.
  case_decide as Hl.
  { rewrite spec_next_end by (rewrite length_dummies; lia). tauto. }
  destruct (spec_next _ _); split; [by left | done | lia | intros [Hn|Hn]; [done|lia]].
Qed.

Lemma prev_scan_hit ds (c : nat) : ds !! c = Some false -> prev_scan ds c 0 = Ret 0.
Proof.
  intros Hb. unfold prev_scan. rewrite Nat.add_0_r, Nat.sub_0_r.
  destruct c as [|c'].
  - simpl. repeat case_decide; naive_solver.
  - rewrite (drop_S _ false _ Hb). simpl. repeat case_decide; naive_solver.
Qed.

Lemma prev_result_step fw :
  1 <= current_input fw ->
  dummies (inputs fw) !! (current_input fw - 1) = Some false ->
  prev_result fw = (mkWin (paint COLOR_FOCUSED (current_input fw - 1)
                             (paint COLOR_NORMAL (current_input fw) (inputs fw)))
                          (current_input fw - 1), Ret tt).
Proof.
  destruct fw as [ins c0]; simpl. intros H1 Hb.
  unfold prev_result; simpl. case_decide; [lia|].
  rewrite (prev_scan_hit _ _ Hb), Nat.add_0_r, Hb. by rewrite Nat.sub_0_r.
Qed.

Lemma prev_scan_skip ds (c : nat) :
  1 <= c -> ds !! c = Some true -> ds !! S c = Some false -> prev_scan ds c 0 = Ret 1.
Proof.
  intros Hc Hb Hb'. pose proof (lookup_lt_Some _ _ _ Hb') as Hn.
  unfold prev_scan. rewrite Nat.add_0_r, Nat.sub_0_r.
  rewrite (drop_S _ true _ Hb). destruct c as [|[|c']]; [lia| |].
  - simpl. repeat case_decide; naive_solver lia.
  - rewrite (drop_S _ false _ Hb'). simpl. repeat case_decide; naive_solver.
Qed.

Lemma prev_result_skip fw :
  2 <= current_input fw ->
  dummies (inputs fw) !! (current_input fw - 1) = Some true ->
  dummies (inputs fw) !! current_input fw = Some false ->
  prev_result fw = (mkWin (paint COLOR_FOCUSED (current_input fw - 2)
                             (paint COLOR_NORMAL (current_input fw) (inputs fw)))
                          (current_input fw - 2), Ret tt).
Proof.
  destruct fw as [ins c0]; simpl. intros H2 Hb Hb'.
  unfold prev_result; simpl. case_decide; [lia|].
  rewrite (prev_scan_skip _ (c0 - 1)) by (try rewrite <- Nat.sub_succ_l, Nat.sub_succ, Nat.sub_0_r by lia; (done || lia)).
  replace (c0 - 1 + 1) with c0 by lia. rewrite Hb'.
  by replace (c0 - 1 - 1) with (c0 - 2) by lia.
Qed.

Lemma dummies_paint c i ins : dummies (paint c i ins) = dummies ins.
Proof. apply dummies_of_shapes, shapes_paint. Qed.

Lemma spec_next_ge ds (c j : nat) : spec_next ds c = Some j -> S c <= j.
Proof. unfold spec_next. destruct (list_find _ _) as [[k x]|]; [|done]. intros [= <-]. lia. Qed.

Lemma spec_next_hit ds (c j : nat) : spec_next ds c = Some j -> ds !! j = Some false.
Proof.
  unfold spec_next. destruct (list_find _ _) as [[k x]|] eqn:E; [|done]. intros [= <-].
  apply list_find_Some in E as (Hk & Hx & _). rewrite lookup_drop in Hk.
  unfold active in Hx. subst x. by rewrite <- Hk.
Qed.

Lemma spec_next_skipped ds (c j k : nat) :
  spec_next ds c = Some j -> S c <= k < j -> ds !! k = Some true.
Proof.
  unfold spec_next. destruct (list_find _ _) as [[i x]|] eqn:E; [|done]. intros [= <-] Hk.
  apply list_find_Some in E as (Hi & _ & Hbefore).
  assert (Hlt : k < length ds).
  { apply lookup_lt_Some in Hi. rewrite length_drop in Hi. lia. }
  destruct (lookup_lt_is_Some_2 _ _ Hlt) as [b Hb]. rewrite Hb.
  destruct b; [done|]. exfalso. apply (Hbefore (k - S c) false); [|lia|done].
  rewrite lookup_drop. by replace (S c + (k - S c)) with k by lia.
Qed.

(** C12: from a focusable input whose next focusable input is at most two
    places ahead (at most one label between), down then up brings the focus
    back. *)
Theorem next_prev_roundtrip fw (j : nat) :
  focus_in_range fw -> all_refresh_ok (inputs fw) ->
  dummies (inputs fw) !! current_input fw = Some false ->
  spec_next (dummies (inputs fw)) (current_input fw) = Some j ->
  j <= current_input fw + 2 ->
  current_input (fst (go_to_previous_input (fst (go_to_next_input fw)))) = current_input fw.
Proof.
  destruct fw as [ins c]; unfold focus_in_range; simpl. intros Hr Hok Hc Hj Hle.
  pose proof (spec_next_ge _ _ _ Hj) as Hge. pose proof (spec_next_hit _ _ _ Hj) as Hf.
  pose proof (lookup_lt_Some _ _ _ Hf) as Hjn. rewrite length_dummies in Hjn.
  rewrite go_to_next_input_result by done. unfold next_result; simpl.
  rewrite Hj, decide_False by lia.
  assert (Hd : dummies (paint COLOR_FOCUSED j (paint COLOR_NORMAL c ins)) = dummies ins)
    by (by rewrite !dummies_paint).
  assert (Hs : shape <$> paint COLOR_FOCUSED j (paint COLOR_NORMAL c ins) = shape <$> ins)
    by (by rewrite !shapes_paint).
  rewrite go_to_previous_input_result; simpl.
  - destruct (decide (j = S c)) as [->|Hne].
    + rewrite prev_result_step; simpl; [lia | lia |]. rewrite Hd. simpl. by rewrite Nat.sub_0_r.
    + rewrite prev_result_skip; simpl; [lia | lia | |].
      * rewrite Hd. apply (spec_next_skipped _ c j); [done | lia].
      * by rewrite Hd.
  - unfold focus_in_range; simpl. by rewrite !length_paint.
  - by apply (all_refresh_ok_shapes ins).
Qed.

Lemma spec_prev_step ds (c : nat) (b : bool) :
  ds !! c = Some b -> spec_prev ds (S c) = if b then spec_prev ds c else Some c.
Proof.
  intros Hb. unfold spec_prev. rewrite (take_S_r _ _ _ Hb), reverse_snoc. simpl.
  destruct b; case_decide as Hd; unfold active in Hd; try done; simpl; [|f_equal; lia].
  destruct (list_find active (reverse (take c ds))) as [[k x]|]; simpl; [f_equal; lia|done].
Qed.

Definition no_adjacent_dummies ds : Prop :=
  forall i : nat, ds !! i = Some true -> ds !! S i <> Some true.

(** C5: on a form that starts with a focusable input and has no two dummies
    in a row, the backward move from a focusable input agrees with the
    spec's navigation: it goes to the last focusable input before the focus.
    *)
Theorem go_to_previous_input_refines_nav fw :
  focus_in_range fw -> all_refresh_ok (inputs fw) ->
  let ds := dummies (inputs fw) in
  ds !! 0 = Some false -> no_adjacent_dummies ds ->
  ds !! current_input fw = Some false ->
  current_input (fst (go_to_previous_input fw)) = nav_prev ds (current_input fw).
Proof.
  intros Hr Hok ds H0 Hadj Hc. rewrite go_to_previous_input_result by done.
  unfold nav_prev. destruct (current_input fw) as [|c] eqn:Ec.
  { unfold prev_result. by rewrite Ec. }
  assert (Hlt : c < length ds) by (unfold ds; rewrite length_dummies; unfold focus_in_range in Hr; lia).
  destruct (lookup_lt_is_Some_2 _ _ Hlt) as [b Hb]. rewrite (spec_prev_step _ _ _ Hb).
  destruct b.
  - destruct c as [|c']; [congruence|].
    assert (Hb' : ds !! c' = Some false).
    { destruct (lookup_lt_is_Some_2 ds c') as [[] Hb']; [lia| |done]. by apply Hadj in Hb'. }
    rewrite prev_result_skip; rewrite ?Ec; simpl; [|lia|done|done].
    rewrite (spec_prev_step _ _ _ Hb'). lia.
  - rewrite prev_result_step; rewrite ?Ec; simpl; [lia|lia|]. by rewrite Nat.sub_0_r.
Qed.

Definition all_normal ins : Prop :=
  forall i e, ins !! i = Some e -> color (e_input e) = COLOR_NORMAL.

Lemma colors_ok_paint_normal ins (c : nat) :
  colors_ok (mkWin ins c) -> all_normal (paint COLOR_NORMAL c ins).
Proof.
  intros Hc i e Hi. destruct (decide (i = c)) as [->|Hne].
  - by apply (paint_color _ _ _ _ Hi).
  - rewrite paint_other in Hi by done. by apply (Hc i e).
Qed.

Lemma all_normal_colors_ok ins (c : nat) : all_normal ins -> colors_ok (mkWin ins c).
Proof. intros Ha i e _. apply Ha. Qed.

Lemma all_normal_paint_focus ins (j : nat) :
  all_normal ins -> colors_ok (mkWin (paint COLOR_FOCUSED j ins) j).
Proof. intros Ha i e Hne Hi. simpl in *. rewrite paint_other in Hi by done. by apply (Ha i e). Qed.

Definition focus_inv fw : Prop :=
  (inputs fw <> [] -> focus_in_range fw) /\ colors_ok fw.

(** Both moves keep [focus_inv] (the proof shared by the navigation
    invariant and the session invariant). *)
Lemma nav_focus_inv fw :
  focus_inv fw -> all_refresh_ok (inputs fw) ->
  focus_inv (fst (go_to_next_input fw)) /\ focus_inv (fst (go_to_previous_input fw)).
Proof.
  destruct fw as [ins c]. intros [Hr Hcol] Hok.
  destruct (decide (ins = [])) as [->|Hne].
  { unfold go_to_next_input, go_to_previous_input. py_unfold. simpl. by split. }
  specialize (Hr Hne). unfold focus_in_range in Hr; simpl in Hr.
  pose proof (colors_ok_paint_normal ins c Hcol) as Han.
  rewrite go_to_next_input_result, go_to_previous_input_result by done.
  unfold focus_inv, focus_in_range. split.
  - unfold next_result; simpl. case_decide; [done|].
    destruct (spec_next (dummies ins) c) as [j|] eqn:Ej; simpl; rewrite ?length_paint; split.
    + intros _. apply spec_next_hit, lookup_lt_Some in Ej. by rewrite length_dummies in Ej.
    + by apply all_normal_paint_focus.
    + intros _. lia.
    + by apply all_normal_colors_ok.
  - unfold prev_result; simpl. case_decide; [done|].
    destruct (prev_scan _ _ _) as [jump|]; simpl.
    + destruct (dummies ins !! (c - 1 + jump)) as [[]|]; simpl; rewrite ?length_paint;
        (split; [intros _; lia|]);
        [apply all_normal_colors_ok | apply all_normal_paint_focus | apply all_normal_colors_ok];
        done.
    + rewrite length_paint. split; [intros _; lia | by apply all_normal_colors_ok].
Qed.

(** C8: both moves keep the focus in range and every input other than the
    focused one in the normal colour. *)
Theorem navigation_preserves_focus_inv fw :
  focus_inv fw -> all_refresh_ok (inputs fw) ->
  focus_inv (fst (go_to_next_input fw)) /\ focus_inv (fst (go_to_previous_input fw)).
Proof. apply nav_focus_inv. Qed.
End Properties.

(** ** Claims on the controller *)

Section Claims.
Context {W : Type} `{Widget W}.
Implicit Types (ins : list (entry W)) (fw : formwin W) (ds : list bool).

Lemma not_active_true (b : bool) : ~ active b -> b = true.
Proof. unfold active. destruct b; [done|]. intros Hn. by destruct Hn. Qed.

Lemma window_lookup ds (n c k : nat) (y : bool) :
  take n (drop c ds) !! k = Some y <-> ds !! (c + k) = Some y /\ k < n.
Proof. rewrite lookup_take_Some, lookup_drop. done. Qed.

(** C10: the forward scan of [go_to_next_input], started on an input in
    range with as much fuel as inputs left, stops: on the last input or on
    a focusable one, after skipping only dummies. *)
Theorem next_jump_terminates f ins (c : nat) :
  c < length ins -> length ins - c <= f ->
  exists j, next_jump f ins c 0 = Ret j /\ c + j < length ins /\
    (c + j = length ins - 1 \/ dummies ins !! (c + j) = Some false) /\
    (forall k, k < j -> dummies ins !! (c + k) = Some true).
Proof.
  intros Hc Hf. rewrite next_jump_scan, Nat.add_0_r by lia.
  pose proof (next_scan_spec (dummies ins) c) as Hs. rewrite length_dummies in Hs.
  specialize (Hs Hc).
  destruct (list_find active (drop c (dummies ins))) as [[k x]|] eqn:E;
    destruct Hs as [-> Hk].
  - apply list_find_Some in E as (_ & _ & Hbefore).
    exists k. replace (c + k - c) with k by lia. split; [done|].
    pose proof (lookup_lt_Some _ _ _ Hk) as Hlt. rewrite length_dummies in Hlt. split; [lia|].
    split; [by right|]. intros k' Hk'.
    destruct (lookup_lt_is_Some_2 (dummies ins) (c + k')) as [y Hy];
      [rewrite length_dummies; lia|].
    rewrite Hy. f_equal. apply not_active_true, (Hbefore k'); [|done].
    by rewrite lookup_drop.
  - apply list_find_None in E. rewrite Forall_lookup in E.
    exists (length ins - 1 - c). split; [done|]. split; [lia|]. split; [left; lia|].
    intros k' Hk'.
    destruct (lookup_lt_is_Some_2 (dummies ins) (c + k')) as [y Hy];
      [rewrite length_dummies; lia|].
    rewrite Hy. f_equal. apply not_active_true, (E k'). by rewrite lookup_drop.
Qed.

(** C11: the backward scan of [go_to_previous_input], with more fuel than
    [c], either stops at a jump [j <= c] after skipping only dummies
    (on a focusable input, or at [j = c]), or raises [IndexError]: that
    happens exactly when it walks off the end of the list, i.e. there are
    fewer than [2c] inputs and all the inputs from [c] on are dummies. *)
Theorem prev_jump_terminates f ins (c : nat) :
  c < f ->
  match prev_jump f ins c 0 with
  | Ret j => j <= c /\ (forall k, k < j -> dummies ins !! (c + k) = Some true) /\
             (j = c \/ dummies ins !! (c + j) = Some false)
  | Exc e => e = IndexError /\ length ins < 2 * c /\
             (forall k, c <= k < length ins -> dummies ins !! k = Some true)
  end.
Proof.
  intros Hf. rewrite prev_jump_scan by lia. unfold prev_scan.
  rewrite Nat.add_0_r, Nat.sub_0_r.
  destruct (list_find active (take c (drop c (dummies ins)))) as [[k x]|] eqn:E.
  - apply list_find_Some in E as (Hk & Hx & Hbefore).
    apply window_lookup in Hk as [Hk Hkc]. unfold active in Hx. subst x. simpl.
    split; [lia|]. split; [|by right].
    intros k' Hk'.
    destruct (lookup_lt_is_Some_2 (dummies ins) (c + k')) as [y Hy];
      [apply lookup_lt_Some in Hk; lia|].
    rewrite Hy. f_equal. apply not_active_true, (Hbefore k'); [|done].
    apply window_lookup. split; [done | lia].
  - apply list_find_None in E. rewrite Forall_lookup in E.
    assert (Hall : forall k, k < c -> c + k < length ins ->
                   dummies ins !! (c + k) = Some true).
    { intros k Hk Hn. destruct (lookup_lt_is_Some_2 (dummies ins) (c + k)) as [y Hy];
        [rewrite length_dummies; lia|].
      rewrite Hy. f_equal. apply not_active_true, (E k). apply window_lookup. done. }
    case_decide as Hd; rewrite ?length_dummies in Hd.
    + split; [done|]. split; [|by left]. intros k Hk. apply Hall; [done|]. lia.
    + split; [done|]. split; [lia|]. intros k Hk.
      replace k with (c + (k - c)) by lia. apply Hall; lia.
Qed.

(** C1: [go_to_next_input] on inputs that redraw without error: from the
    last input nothing happens; otherwise the current input is repainted
    normal and the focus goes to the next focusable input, painted
    focused, or, when every later input is a dummy, to the input right
    after the current one, left unpainted. *)
Theorem go_to_next_input_spec fw :
  focus_in_range fw -> all_refresh_ok (inputs fw) ->
  go_to_next_input fw =
    if decide (current_input fw = length (inputs fw) - 1) then (fw, Ret tt)
    else match spec_next (dummies (inputs fw)) (current_input fw) with
         | Some j => (mkWin (paint COLOR_FOCUSED j
                               (paint COLOR_NORMAL (current_input fw) (inputs fw))) j, Ret tt)
         | None => (mkWin (paint COLOR_NORMAL (current_input fw) (inputs fw))
                          (S (current_input fw)), Ret tt)
         end.
Proof. intros Hr Hok. by rewrite go_to_next_input_result. Qed.

(** C2: [go_to_previous_input] when the input just before the focus is
    focusable: the focus moves to it, repainted. *)
Theorem go_to_previous_input_step fw :
  focus_in_range fw -> all_refresh_ok (inputs fw) -> 1 <= current_input fw ->
  dummies (inputs fw) !! (current_input fw - 1) = Some false ->
  go_to_previous_input fw =
    (mkWin (paint COLOR_FOCUSED (current_input fw - 1)
              (paint COLOR_NORMAL (current_input fw) (inputs fw)))
           (current_input fw - 1), Ret tt).
Proof. intros Hr Hok H1 Hb. rewrite go_to_previous_input_result by done. by apply prev_result_step. Qed.

(** C3: [go_to_previous_input] from a focusable input preceded by one
    dummy moves the focus two inputs back, whether or not that input is a
    dummy itself: the scan tests [inputs[current_input+jump]], the input
    it comes from, instead of the one it goes to. *)
Theorem go_to_previous_input_skip fw :
  focus_in_range fw -> all_refresh_ok (inputs fw) -> 2 <= current_input fw ->
  dummies (inputs fw) !! (current_input fw - 1) = Some true ->
  dummies (inputs fw) !! current_input fw = Some false ->
  go_to_previous_input fw =
    (mkWin (paint COLOR_FOCUSED (current_input fw - 2)
              (paint COLOR_NORMAL (current_input fw) (inputs fw)))
           (current_input fw - 2), Ret tt).
Proof. intros Hr Hok H2 Hb Hb'. rewrite go_to_previous_input_result by done. by apply prev_result_skip. Qed.

End Claims.

(** ** Reachability by [KEY_DOWN]

    The liveness side of the forward move: the user reaches every
    focusable input after the focus by pressing [KEY_DOWN].  [eventually]
    follows the combinator of the same name in coqutil's small-step
    semantics, over the one step the key triggers. *)

Section Liveness.
Context {W : Type} `{Widget W}.
Implicit Types (ins : list (entry W)) (fw : formwin W) (ds : list bool).

(** [P] holds now, or after one more [KEY_DOWN] that completes. *)
Inductive eventually (P : formwin W -> Prop) : formwin W -> Prop :=
| eventually_done fw : P fw -> eventually P fw
| eventually_step fw :
    snd (go_to_next_input fw) = Ret tt ->
    eventually P (fst (go_to_next_input fw)) -> eventually P fw.

(** The first focusable input after [c] is at most any focusable [j > c]. *)
Lemma spec_next_le ds (c j : nat) :
  c < j -> ds !! j = Some false -> exists t, spec_next ds c = Some t /\ t <= j.
Proof.
  intros Hcj Hj. unfold spec_next.
  assert (Hd : drop (S c) ds !! (j - S c) = Some false)
    by (rewrite lookup_drop; by replace (S c + (j - S c)) with j by lia).
  destruct (list_find active (drop (S c) ds)) as [[k x]|] eqn:E.
  - exists (S c + k). split; [done|].
    apply list_find_Some in E as (_ & _ & Hmin).
    destruct (decide (j - S c < k)) as [Hlt|]; [|lia].
    by destruct (Hmin _ _ Hd Hlt).
  - apply list_find_None in E. rewrite Forall_forall in E.
    destruct (E false); [by eapply list_elem_of_lookup_2 | done].
Qed.

(** One press from [c] before a focusable [j] lands on the first
    focusable input [t <= j], and keeps what the next press needs. *)
Lemma down_progress fw (j : nat) :
  focus_in_range fw -> all_refresh_ok (inputs fw) ->
  current_input fw < j -> dummies (inputs fw) !! j = Some false ->
  exists t, go_to_next_input fw = (mkWin (paint COLOR_FOCUSED t
               (paint COLOR_NORMAL (current_input fw) (inputs fw))) t, Ret tt) /\
            current_input fw < t <= j.
Proof.
  intros Hr Hok Hcj Hj.
  destruct (spec_next_le _ _ _ Hcj Hj) as (t & Ht & Htj).
  assert (j < length (inputs fw)) by (rewrite <- length_dummies; by eapply lookup_lt_Some).
  rewrite go_to_next_input_result by done. unfold next_result.
  rewrite decide_False by lia. rewrite Ht. exists t.
  split; [done|]. apply spec_next_ge in Ht. lia.
Qed.

(** C32: liveness of the forward move: from a focus in range, with inputs
    that redraw without error, every focusable input after the focus is
    reached by pressing [KEY_DOWN] a number of times, each press
    completing without an exception. *)
Theorem down_reaches_focusable fw (j : nat) :
  focus_in_range fw -> all_refresh_ok (inputs fw) ->
  current_input fw < j -> dummies (inputs fw) !! j = Some false ->
  eventually (fun fw' => current_input fw' = j) fw.
Proof.
  intros Hr Hok Hcj. remember (j - current_input fw) as n eqn:En.
  revert fw Hr Hok Hcj En. induction n as [n IH] using lt_wf_ind.
  intros fw Hr Hok Hcj En Hj.
  destruct (down_progress fw j Hr Hok Hcj Hj) as (t & Hgo & Ht).
  apply eventually_step; rewrite Hgo; [done|]. simpl.
  set (ins' := paint COLOR_FOCUSED t (paint COLOR_NORMAL (current_input fw) (inputs fw))).
  assert (Hsh : shape <$> ins' = shape <$> inputs fw) by (unfold ins'; by rewrite !shapes_paint).
  assert (Hd : dummies ins' = dummies (inputs fw)) by (by apply dummies_of_shapes).
  destruct (decide (t = j)) as [->|Hne]; [by apply eventually_done|].
  apply (IH (j - t)); simpl; [lia| | |lia|done|by rewrite Hd].
  - unfold focus_in_range. simpl. unfold ins'. rewrite !length_paint.
    rewrite <- length_dummies. apply lookup_lt_Some in Hj. lia.
  - by apply (all_refresh_ok_shapes (inputs fw)).
Qed.

End Liveness.

(** ** Per-input invariants

    A property of each input that [set_color] keeps is kept by both moves
    on every path, exceptions included; one that [do_command] also keeps
    is kept by [on_input]. *)

Section InputInvariants.
Context {W : Type} `{Widget W}.
Variable P : W -> Prop.

Definition inputs_satisfy (fw : formwin W) : Prop := Forall (fun e => P (e_input e)) (inputs fw).

Lemma on_input_at_preserves {A} (i : nat) (m : PyM W A) :
  (forall w, P w -> P (fst (m w))) -> preserves inputs_satisfy (on_input_at i m).
Proof.
  intros Hm fw Hfw. unfold on_input_at.
  destruct (inputs fw !! i) as [e|] eqn:He; [|done].
  pose proof (Hm (e_input e)) as Hw. destruct (m (e_input e)) as [w' r].
  unfold inputs_satisfy in *. simpl in *. apply Forall_insert; [done|].
  apply Hw. by apply (Forall_lookup_1 _ _ _ _ Hfw He).
Qed.

Lemma set_current_preserves (c : nat) : preserves inputs_satisfy (set_current c).
Proof. apply preserves_modify. by intros fw. Qed.

Hypothesis set_color_P : forall c w, P w -> P (fst (set_color c w)).

Lemma go_to_next_input_preserves : preserves inputs_satisfy go_to_next_input.
Proof.
  unfold go_to_next_input.
  preserves_solve; auto using on_input_at_preserves, set_current_preserves.
Qed.

Lemma go_to_previous_input_preserves : preserves inputs_satisfy go_to_previous_input.
Proof.
  unfold go_to_previous_input.
  preserves_solve; auto using on_input_at_preserves, set_current_preserves.
Qed.

Lemma formwin_on_input_preserves (key : string) :
  (forall w, P w -> P (fst (do_command key w))) -> preserves inputs_satisfy (formwin_on_input key).
Proof.
  intros Hd. unfold formwin_on_input. preserves_solve; auto using on_input_at_preserves.
Qed.

End InputInvariants.

(** ** Forwarding a key keeps the focus invariant *)

Section Forward.
Context {W : Type} `{Widget W}.

Lemma on_input_at_frame {A} (i : nat) (m : PyM W A) fw :
  length (inputs (fst (on_input_at i m fw))) = length (inputs fw) /\
  current_input (fst (on_input_at i m fw)) = current_input fw /\
  forall j, j <> i -> inputs (fst (on_input_at i m fw)) !! j = inputs fw !! j.
Proof.
  unfold on_input_at. destruct (inputs fw !! i) as [e|]; [|done].
  destruct (m (e_input e)) as [w' r]. simpl. rewrite length_insert.
  split; [done|]. split; [done|]. intros j Hj. by apply list_lookup_insert_ne.
Qed.

(** A key that leaves the focused input's colour alone keeps [focus_inv]. *)
Lemma formwin_on_input_focus_inv (key : string) fw :
  (forall w, color (fst (do_command key w)) = color w) ->
  focus_inv fw -> focus_inv (fst (formwin_on_input key fw)).
Proof.
  intros Hc [Hr Hcol]. unfold formwin_on_input. py_unfold. simpl.
  case_decide as Hnil; [by split|].
  destruct (on_input_at_frame (current_input fw) (do_command key) fw) as (Hl & Hcur & Hoth).
  split.
  - intros _. unfold focus_in_range in *. rewrite Hl, Hcur. by apply Hr.
  - intros i e Hi He. rewrite Hcur in Hi. rewrite Hoth in He by done. by apply (Hcol i e).
Qed.

End Forward.
