(* ===== verification/Widgets.v ===== *)
(** * Widgets: the input classes of [data_forms.py]

    One constructor of [input_kind] per input class of the module, with
    the attributes each keeps:
    - [DummyInput] (lines 108-120) for [fixed] fields: no state;
    - [BooleanWin value last_key] (lines 122-151);
    - [ListMultiWin options val_pos] (lines 153-193), [options] being the
      list of [[option, selected]] pairs;
    - [ListSingleWin options val_pos] (lines 195-234);
    - [TextSingleWin ed] (lines 236-247) and [TextPrivateWin ed]
      (lines 249-266), [ed] the [windows.Input] state of [Editor.v].
    A [field_input] adds what [FieldInput] (lines 79-106) keeps: the field
    (by its position in the form, since the object is shared) and the
    colour.  The operations are [make_input] (the [__init__] methods),
    [input_do_command], [input_reply], [input_set_color] and the redraw
    status [input_refresh_ok]; [field_input_widget] is the [Widget]
    instance the focus controller of [Focus.v] runs on; [kind_class] is
    the class of an input and [field_class] the class [FormWin.__init__]
    picks for a field type.  The theorems cover every branch of every key
    handler and reply, and show that keys keep an input's class and
    replies never change a field's type; the last section gives the
    list-multi input built for a field whose value is a string, where
    [in] is the substring test. *)

From stdpp Require Import base list strings.
From Stdlib Require Import Lia.
From S2P Require Import Prelude Field Editor Focus.

Open Scope string_scope.

(** ** Classes and state *)

Inductive input_class :=
| CBoolean | CDummy | CTextSingle | CListMulti | CListSingle | CTextPrivate.

#[export] Instance input_class_eq_dec : EqDecision input_class.
Proof. solve_decision. Defined.

(** [FormWin.input_classes]: the dict from field type to input class. *)
Definition input_classes (t : string) : option input_class :=
  if decide (t = "boolean") then Some CBoolean
  else if decide (t = "fixed") then Some CDummy
  else if decide (t = "jid-single") then Some CTextSingle
  else if decide (t = "list-multi") then Some CListMulti
  else if decide (t = "list-single") then Some CListSingle
  else if decide (t = "text-private") then Some CTextPrivate
  else if decide (t = "text-single") then Some CTextSingle
  else None.

Inductive input_kind :=
| DummyInput
| BooleanWin (value : bool) (last_key : string)
| ListMultiWin (options : list (opt * bool)) (val_pos : nat)
| ListSingleWin (options : list opt) (val_pos : nat)
| TextSingleWin (ed : line)
| TextPrivateWin (ed : line).

Record field_input := mkInput {
  fi_field : nat;
  fi_color : nat;
  fi_kind : input_kind
}.

Definition with_kind (k : input_kind) (w : field_input) : field_input :=
  mkInput (fi_field w) (fi_color w) k.

Definition with_color (c : nat) (w : field_input) : field_input :=
  mkInput (fi_field w) c (fi_kind w).

Section Widgets.
Context `{LineEditor}.

(** ** Constructors *)

(** [[[option, option['value'] in values] for option in field.getOptions()]] *)
Fixpoint multi_options (values : pyval) (os : list opt) : outcome (list (opt * bool)) :=
  match os with
  | [] => Ret []
  | o :: os' =>
      match py_in (opt_value o) values with
      | Exc e => Exc e
      | Ret b =>
          match multi_options values os' with
          | Exc e => Exc e
          | Ret rest => Ret ((o, b) :: rest)
          end
      end
  end.

(** [for i, option in enumerate(self.options): if field.getValue() ==
    option['value']: self.val_pos = i], from index [i] with current
    position [pos]. *)
Fixpoint single_pos (v : pyval) (os : list opt) (i pos : nat) : nat :=
  match os with
  | [] => pos
  | o :: os' => single_pos v os' (S i) (if py_eq_str v (opt_value o) then i else pos)
  end.

(** [self.text = field.getValue() if isinstance(field.getValue(), str) else ""] *)
Definition initial_text (v : pyval) : string :=
  match v with PStr s => s | _ => "" end.

(** The [__init__] of each class, for the field at position [idx]. *)
Definition make_input (c : input_class) (idx : nat) (f : field) : outcome field_input :=
  match c with
  | CDummy => Ret (mkInput idx COLOR_NORMAL DummyInput)
  | CBoolean =>
      Ret (mkInput idx COLOR_NORMAL (BooleanWin (py_truthy (getValue f)) "KEY_RIGHT"))
  | CListMulti =>
      match multi_options (getValue f) (getOptions f) with
      | Exc e => Exc e
      | Ret os => Ret (mkInput idx COLOR_NORMAL (ListMultiWin os 0))
      end
  | CListSingle =>
      Ret (mkInput idx COLOR_NORMAL
             (ListSingleWin (getOptions f) (single_pos (getValue f) (getOptions f) 0 0)))
  | CTextSingle =>
      Ret (mkInput idx COLOR_NORMAL (TextSingleWin (new_line (initial_text (getValue f)))))
  | CTextPrivate =>
      Ret (mkInput idx COLOR_NORMAL (TextPrivateWin (new_line (initial_text (getValue f)))))
  end.

(** ** Redraw, colour and keys *)

(** The redraw of a list input reads [self.options[self.val_pos]]. *)
Definition input_refresh_ok (w : field_input) : bool :=
  match fi_kind w with
  | ListMultiWin os p => bool_decide (p < length os)
  | ListSingleWin os p => bool_decide (p < length os)
  | _ => true
  end.

Definition input_refresh : PyM field_input unit :=
  fun w => (w, if input_refresh_ok w then Ret tt else Exc IndexError).

(** [FieldInput.set_color]: [self.color = color; self.refresh()] *)
Definition input_set_color (c : nat) : PyM field_input unit :=
  pmodify (with_color c) ;;; input_refresh.

Definition set_kind (k : input_kind) : PyM field_input unit := pmodify (with_kind k).

Definition input_do_command (key : string) : PyM field_input unit :=
  let* w := pget in
  match fi_kind w with
  | DummyInput =>
      (* [DummyInput.do_command(self)] takes no key: the call raises. *)
      praise TypeError
  | BooleanWin v lk =>
      (if decide (key = "KEY_LEFT" \/ key = "KEY_RIGHT")
       then set_kind (BooleanWin (negb v) key) else pret tt) ;;;
      input_refresh
  | ListMultiWin os p =>
      if decide (key = "KEY_LEFT") then
        (if decide (0 < p) then set_kind (ListMultiWin os (p - 1)) else pret tt) ;;;
        input_refresh
      else if decide (key = "KEY_RIGHT") then
        (if decide (S p < length os) then set_kind (ListMultiWin os (S p)) else pret tt) ;;;
        input_refresh
      else if decide (key = " ") then
        let* o := pof (py_index os p) in
        set_kind (ListMultiWin (<[p:=(o.1, negb o.2)]> os) p) ;;;
        input_refresh
      else pret tt
  | ListSingleWin os p =>
      if decide (key = "KEY_LEFT") then
        (if decide (0 < p) then set_kind (ListSingleWin os (p - 1)) else pret tt) ;;;
        input_refresh
      else if decide (key = "KEY_RIGHT") then
        (if decide (S p < length os) then set_kind (ListSingleWin os (S p)) else pret tt) ;;;
        input_refresh
      else pret tt
  | TextSingleWin ed => set_kind (TextSingleWin (le_do_command key ed))
  | TextPrivateWin ed => set_kind (TextPrivateWin (le_do_command key ed))
  end.

(** ** Replies *)

(** [[option[0]['value'] for option in self.options if option[1] is True]] *)
Definition selected_values (os : list (opt * bool)) : list string :=
  (fun o => opt_value o.1) <$> filter (fun o => o.2 = true) os.

(** The [reply] of each class, run on the input's field. *)
Definition input_reply (w : field_input) : PyM field unit :=
  match fi_kind w with
  | DummyInput => praise NotImplementedError
  | BooleanWin v _ =>
      pmodify (set_label "") ;;; pmodify (setAnswer (PBool v))
  | ListMultiWin os _ =>
      pmodify (set_label "") ;;; pmodify delOptions ;;;
      pmodify (setAnswer (PList (selected_values os)))
  | ListSingleWin os p =>
      pmodify (set_label "") ;;; pmodify delOptions ;;;
      let* o := pof (py_index os p) in
      pmodify (setAnswer (PStr (opt_value o)))
  | TextSingleWin ed | TextPrivateWin ed =>
      pmodify (set_label "") ;;; pmodify (setAnswer (PStr (get_text ed)))
  end.

Definition input_is_dummy (w : field_input) : bool :=
  match fi_kind w with DummyInput => true | _ => false end.

End Widgets.

(** ** The [Widget] instance *)

Section Instance.
Context `{LineEditor}.

Lemma input_set_color_color c w : fi_color (fst (input_set_color c w)) = c.
Proof. reflexivity. Qed.

Lemma input_set_color_dummy c w :
  input_is_dummy (fst (input_set_color c w)) = input_is_dummy w.
Proof. reflexivity. Qed.

Lemma input_set_color_refresh c w :
  input_refresh_ok (fst (input_set_color c w)) = input_refresh_ok w.
Proof. reflexivity. Qed.

Lemma input_set_color_outcome c w :
  snd (input_set_color c w) = if input_refresh_ok w then Ret tt else Exc IndexError.
Proof. reflexivity. Qed.

#[export] Instance field_input_widget : Widget field_input := {
  is_dummy := input_is_dummy;
  color := fi_color;
  refresh_ok := input_refresh_ok;
  set_color := input_set_color;
  do_command := input_do_command;
  set_color_color := input_set_color_color;
  set_color_dummy := input_set_color_dummy;
  set_color_refresh := input_set_color_refresh;
  set_color_outcome := input_set_color_outcome
}.

End Instance.

(** ** Properties of the inputs *)

Section WidgetProps.
Context `{LineEditor}.

(** A run of keys sent to one input; an exception ends the run. *)
Definition run_input_keys (keys : list string) : PyM field_input unit :=
  pfor keys input_do_command.

Definition is_arrow (k : string) : bool :=
  bool_decide (k = "KEY_LEFT" \/ k = "KEY_RIGHT").

Lemma boolean_do_command k i c v lk :
  input_do_command k (mkInput i c (BooleanWin v lk)) =
    (mkInput i c (BooleanWin (if is_arrow k then negb v else v)
                             (if is_arrow k then k else lk)), Ret tt).
Proof. unfold input_do_command, is_arrow. py_unfold. simpl. case_bool_decide; case_decide; tauto || reflexivity. Qed.

(** C13: whatever keys are pressed, a boolean input answers its initial
    value flipped once per arrow key; [last_key] plays no part. *)
Theorem boolean_reply_after_keys i c v lk (keys : list string) (f : field) :
  let (w, r) := run_input_keys keys (mkInput i c (BooleanWin v lk)) in
  r = Ret tt /\
  input_reply w f =
    (setAnswer (PBool (xorb v (Nat.odd (length (filter is_arrow keys))))) (set_label "" f),
     Ret tt).
Proof.
  revert v lk. induction keys as [|k keys IH]; intros v lk.
  - simpl. rewrite xorb_false_r. done.
  - unfold run_input_keys. simpl. py_unfold. rewrite boolean_do_command.
    specialize (IH (if is_arrow k then negb v else v) (if is_arrow k then k else lk)).
    unfold run_input_keys in IH. destruct (pfor keys _ _) as [w r].
    destruct IH as [-> IH]. split; [done|]. rewrite IH. do 3 f_equal.
    rewrite filter_cons. destruct (is_arrow k); simpl; [|done].
    rewrite Nat.odd_succ, <- Nat.negb_odd. by destruct v, (Nat.odd _).
Qed.

End WidgetProps.

Section ListProps.
Context `{LineEditor}.

Lemma multi_do_command_ok k i c os p :
  p < length os ->
  exists os' p',
    input_do_command k (mkInput i c (ListMultiWin os p)) =
      (mkInput i c (ListMultiWin os' p'), Ret tt) /\
    fst <$> os' = fst <$> os /\ p' < length os'.
Proof.
  intros Hp. unfold input_do_command, input_refresh, set_kind, with_kind, input_refresh_ok. py_unfold. simpl.
  repeat case_decide; simpl; rewrite ?bool_decide_true by lia;
    try (eexists _, _; split; [reflexivity | split; [done | lia]]).
  destruct (py_index_lt os p Hp) as ([o b] & Ho & ->). simpl.
  rewrite bool_decide_true by (rewrite length_insert; lia).
  eexists _, _; split; [reflexivity|]. split; [|rewrite length_insert; lia].
  rewrite list_fmap_insert. simpl. apply list_insert_id. by rewrite list_lookup_fmap, Ho.
Qed.

Lemma multi_do_command_other k i c os p :
  k <> " " -> p < length os ->
  exists p', input_do_command k (mkInput i c (ListMultiWin os p)) =
               (mkInput i c (ListMultiWin os p'), Ret tt) /\ p' < length os.
Proof.
  intros Hk Hp. unfold input_do_command, input_refresh, set_kind, with_kind, input_refresh_ok.
  py_unfold. simpl. repeat case_decide; simpl; try done;
    rewrite ?bool_decide_true by lia; eexists; (split; [reflexivity|lia]).
Qed.

(** C14: from a list-multi input whose cursor is on an option, any run of
    keys succeeds and leaves a list-multi input over the same options,
    the cursor on one of them; the flags change only if a space was
    pressed; and the reply clears the label and the option list and
    answers exactly the values of the options whose flag is set, in the
    order of the options. *)
Theorem list_multi_reply_after_keys i c os p (keys : list string) (f : field) :
  p < length os ->
  let (w, r) := run_input_keys keys (mkInput i c (ListMultiWin os p)) in
  r = Ret tt /\
  exists os' p',
    w = mkInput i c (ListMultiWin os' p') /\ fst <$> os' = fst <$> os /\ p' < length os' /\
    (" " ∉ keys -> os' = os) /\
    input_reply w f =
      (setAnswer (PList ((fun o => opt_value o.1) <$> filter (fun o => o.2 = true) os'))
                 (delOptions (set_label "" f)), Ret tt).
Proof.
  revert os p. induction keys as [|k keys IH]; intros os p Hp.
  - split; [done|]. by exists os, p.
  - unfold run_input_keys. simpl. py_unfold.
    destruct (decide (k = " ")) as [->|Hk].
    + destruct (multi_do_command_ok " " i c os p Hp) as (os1 & p1 & -> & Hfst & Hp1).
      specialize (IH os1 p1 Hp1). unfold run_input_keys in IH.
      destruct (pfor keys _ _) as [w r]. destruct IH as [-> (os' & p' & -> & Hf' & Hp' & _ & Hr)].
      split; [done|]. exists os', p'. split; [done|]. split; [by rewrite Hf'|].
      split; [done|]. split; [|done]. intros Hn. exfalso. apply Hn. left.
    + destruct (multi_do_command_other k i c os p Hk Hp) as (p1 & -> & Hp1).
      specialize (IH os p1 Hp1). unfold run_input_keys in IH.
      destruct (pfor keys _ _) as [w r]. destruct IH as [-> (os' & p' & -> & Hf' & Hp' & Hsp & Hr)].
      split; [done|]. exists os', p'. do 3 (split; [done|]). split; [|done].
      intros Hn. apply Hsp. intros Hin. apply Hn. by right.
Qed.

Definition opt_matches (v : pyval) (o : opt) : bool := py_eq_str v (opt_value o).

Lemma single_pos_spec v os (i pos : nat) :
  (exists q o, os !! q = Some o /\ opt_matches v o = true /\
     single_pos v os i pos = i + q /\
     forall q' o', q < q' -> os !! q' = Some o' -> opt_matches v o' = false) \/
  (single_pos v os i pos = pos /\
     forall q o, os !! q = Some o -> opt_matches v o = false).
Proof.
  revert i pos. induction os as [|o os IH]; intros i pos; simpl.
  - right. split; [done|]. intros q o Hq. by rewrite lookup_nil in Hq.
  - destruct (IH (S i) (if py_eq_str v (opt_value o) then i else pos))
      as [(q & o' & Hq & Hm & -> & Hlater) | [-> Hnone]].
    + left. exists (S q), o'. split; [done|]. split; [done|]. split; [lia|].
      intros [|q''] o'' Hlt Hq''; [lia|]. apply (Hlater q''); [lia|done].
    + unfold opt_matches in *. destruct (py_eq_str v (opt_value o)) eqn:Ho.
      * left. exists 0, o. split; [done|]. split; [done|]. split; [lia|].
        intros [|q''] o'' Hlt Hq''; [lia|]. by apply (Hnone q'').
      * right. split; [done|]. intros [|q] o'' Hq; simpl in Hq; [congruence|].
        by apply (Hnone q).
Qed.

(** C16: a list-single input starts on the last option whose value equals
    the field's value, and on the first option when none does. *)
Theorem list_single_initial_position i (f : field) :
  let os := getOptions f in
  match make_input CListSingle i f with
  | Ret (mkInput _ _ (ListSingleWin os' p)) =>
      os' = os /\
      ((exists o, os !! p = Some o /\ opt_matches (getValue f) o = true /\
          forall q o', p < q -> os !! q = Some o' -> opt_matches (getValue f) o' = false) \/
       (p = 0 /\ forall q o, os !! q = Some o -> opt_matches (getValue f) o = false))
  | _ => False
  end.
Proof.
  simpl. split; [done|].
  destruct (single_pos_spec (getValue f) (getOptions f) 0 0)
    as [(q & o & Hq & Hm & -> & Hl) | [-> Hn]]; [left | right]; eauto.
Qed.

Lemma single_do_command_ok k i c os p :
  p < length os ->
  exists p',
    input_do_command k (mkInput i c (ListSingleWin os p)) =
      (mkInput i c (ListSingleWin os p'), Ret tt) /\ p' < length os.
Proof.
  intros Hp. unfold input_do_command, input_refresh, set_kind, with_kind, input_refresh_ok.
  py_unfold. simpl.
  repeat case_decide; simpl; rewrite ?bool_decide_true by lia;
    eexists; (split; [reflexivity | lia]).
Qed.

(** C15: from a list-single input whose cursor is on an option, any run of
    keys succeeds and the reply answers the value of one of the field's
    options, after clearing the label and the option list. *)
Theorem list_single_reply_after_keys i c os p (keys : list string) (f : field) :
  p < length os ->
  let (w, r) := run_input_keys keys (mkInput i c (ListSingleWin os p)) in
  r = Ret tt /\
  exists o, (o ∈ os) /\
    input_reply w f = (setAnswer (PStr (opt_value o)) (delOptions (set_label "" f)), Ret tt).
Proof.
  revert p. induction keys as [|k keys IH]; intros p Hp.
  - split; [done|]. destruct (py_index_lt os p Hp) as (o & Ho & Hidx).
    exists o. split; [by apply list_elem_of_lookup_2 with p|].
    unfold input_reply. py_unfold. simpl. by rewrite Hidx.
  - unfold run_input_keys. simpl. py_unfold.
    destruct (single_do_command_ok k i c os p Hp) as (p' & -> & Hp').
    specialize (IH p' Hp'). unfold run_input_keys in IH. exact IH.
Qed.

End ListProps.


(** ** The class of an input

    [kind_class] is the class an input object is an instance of;
    [field_class] the class [FormWin.__init__] picks for a field type,
    [TextSingleWin] when [input_classes] has no entry for it. *)

Definition kind_class (k : input_kind) : input_class :=
  match k with
  | DummyInput => CDummy
  | BooleanWin _ _ => CBoolean
  | ListMultiWin _ _ => CListMulti
  | ListSingleWin _ _ => CListSingle
  | TextSingleWin _ => CTextSingle
  | TextPrivateWin _ => CTextPrivate
  end.

Definition field_class (t : string) : input_class :=
  match input_classes t with Some c => c | None => CTextSingle end.

(** An input is well typed for the field types [ts] of the form when it
    refers to a field that is not hidden and is of the class chosen for
    that field's type. *)
Definition input_typed (ts : list string) (w : field_input) : Prop :=
  exists t, ts !! fi_field w = Some t /\ t <> "hidden" /\ kind_class (fi_kind w) = field_class t.

Section Typing.
Context `{LineEditor}.

Lemma make_input_class c idx f w :
  make_input c idx f = Ret w -> kind_class (fi_kind w) = c /\ fi_field w = idx.
Proof.
  destruct c; simpl; try (intros [= <-]; done).
  destruct (multi_options _ _); [intros [= <-] | done]. done.
Qed.

Lemma input_set_color_typed ts c w : input_typed ts w -> input_typed ts (fst (input_set_color c w)).
Proof. done. Qed.

Lemma input_do_command_class key w :
  fi_field (fst (input_do_command key w)) = fi_field w /\
  kind_class (fi_kind (fst (input_do_command key w))) = kind_class (fi_kind w).
Proof.
  unfold input_do_command, set_kind, input_refresh. py_unfold.
  destruct w as [i c []]; simpl; repeat case_decide; simpl; try done.
  destruct (py_index _ _); done.
Qed.

Lemma input_do_command_typed ts key w :
  input_typed ts w -> input_typed ts (fst (input_do_command key w)).
Proof.
  intros (t & Ht & Hh & Hk). exists t.
  destruct (input_do_command_class key w) as [Hf Hc]. by rewrite Hf, Hc.
Qed.

(** A reply writes the answer, the label and the options: never the type. *)
Lemma input_reply_type w f : f_type (fst (input_reply w f)) = f_type f.
Proof.
  unfold input_reply. py_unfold. destruct (fi_kind w); simpl; try done.
  destruct (py_index _ _); done.
Qed.

End Typing.

(** ** Colour and redraw status across construction and keys

    A key never changes an input's colour, and keeps a list input's
    cursor on an option; a new input is in the normal colour and redraws
    without error unless its field is a list field without options. *)

Section Frame.
Context `{LineEditor}.

Lemma input_do_command_color key w : fi_color (fst (input_do_command key w)) = fi_color w.
Proof.
  unfold input_do_command, set_kind, input_refresh. py_unfold.
  destruct w as [i c []]; simpl; repeat case_decide; simpl; try done.
  by destruct (py_index _ _).
Qed.

Lemma input_do_command_refresh_ok key w :
  input_refresh_ok w = true -> input_refresh_ok (fst (input_do_command key w)) = true.
Proof.
  destruct w as [i c [|v lk|os p|os p|ed|ed]]; simpl; intros Hok;
    try (unfold input_do_command, set_kind, input_refresh; py_unfold; simpl;
         repeat case_decide; done).
  - apply bool_decide_eq_true in Hok.
    destruct (multi_do_command_ok key i c os p Hok) as (os' & p' & -> & _ & Hp').
    simpl. by apply bool_decide_eq_true.
  - apply bool_decide_eq_true in Hok.
    destruct (single_do_command_ok key i c os p Hok) as (p' & -> & Hp').
    simpl. by apply bool_decide_eq_true.
Qed.

Lemma multi_options_length v os r : multi_options v os = Ret r -> length r = length os.
Proof.
  revert r. induction os as [|o os IH]; intros r; simpl; [by intros [= <-]|].
  destruct (py_in _ _); [|done]. destruct (multi_options v os) as [r'|]; [|done].
  intros [= <-]. simpl. by rewrite (IH r').
Qed.

Lemma single_pos_lt v os : os <> [] -> single_pos v os 0 0 < length os.
Proof.
  intros Hne. destruct (single_pos_spec v os 0 0) as [(q & o & Hq & _ & -> & _)|[-> _]].
  - simpl. by eapply lookup_lt_Some.
  - destruct os; [done|]. simpl. lia.
Qed.

Lemma make_input_frame c idx f w :
  make_input c idx f = Ret w ->
  fi_color w = COLOR_NORMAL /\
  (input_refresh_ok w = true \/ f_options f = [] /\ (c = CListMulti \/ c = CListSingle)).
Proof.
  destruct c; simpl; try (intros [= <-]; by split; [|left]).
  - destruct (multi_options _ _) as [r|] eqn:Hr; [|done]. intros [= <-].
    split; [done|]. unfold input_refresh_ok; simpl.
    apply multi_options_length in Hr. unfold getOptions in Hr.
    destruct (f_options f) eqn:Ho; [by right; split; [|left]|left].
    apply bool_decide_eq_true. simpl in Hr. lia.
  - intros [= <-]. split; [done|]. unfold input_refresh_ok; simpl. unfold getOptions.
    destruct (f_options f) as [|o os] eqn:Ho; [by right; split; [|right]|left].
    apply bool_decide_eq_true. by apply single_pos_lt.
Qed.

End Frame.

(** ** The text inputs

    [TextSingleWin] and [TextPrivateWin] hand every key to the line
    editor of [windows.Input] and reply its text. *)

(** The editor after a run of keys, one at a time. *)
Definition edit_keys `{LineEditor} (keys : list string) (ed : line) : line :=
  fold_left (fun l k => le_do_command k l) keys ed.

(** The keys that type the characters of [s]. *)
Definition type_keys (s : string) : list string := (fun a => String a EmptyString) <$> chars s.

Section TextProps.
Context `{LineEditor}.

Lemma text_do_command (mk : line -> input_kind) k i c ed :
  mk = TextSingleWin \/ mk = TextPrivateWin ->
  input_do_command k (mkInput i c (mk ed)) = (mkInput i c (mk (le_do_command k ed)), Ret tt).
Proof. intros [-> | ->]; reflexivity. Qed.

Lemma edit_keys_wf keys ed : line_wf ed -> line_wf (edit_keys keys ed).
Proof.
  revert ed. induction keys as [|k keys IH]; intros ed Hed; simpl; [done|].
  apply IH, le_do_command_wf, Hed.
Qed.

Lemma run_text_keys (mk : line -> input_kind) keys i c ed :
  mk = TextSingleWin \/ mk = TextPrivateWin ->
  run_input_keys keys (mkInput i c (mk ed)) = (mkInput i c (mk (edit_keys keys ed)), Ret tt).
Proof.
  intros Hmk. revert ed. induction keys as [|k keys IH]; intros ed; [done|].
  unfold run_input_keys in *. simpl. py_unfold. rewrite (text_do_command mk) by done.
  apply IH.
Qed.

End TextProps.

(** ** Typing into a text input, with the editor of [Editor.v] *)

Lemma type_keys_cons (a : Ascii.ascii) (s : string) :
  type_keys (String a s) = String a EmptyString :: type_keys s.
Proof. reflexivity. Qed.

Lemma edit_keys_cons `{LineEditor} k keys ed :
  edit_keys (k :: keys) ed = edit_keys keys (le_do_command k ed).
Proof. reflexivity. Qed.

Lemma edit_type_keys (s t : string) :
  edit_keys (H := basic_editor) (type_keys s) (new_line t) = new_line (String.append t s).
Proof.
  revert t. induction s as [|a s IH]; intros t.
  - by rewrite append_empty_r.
  - rewrite type_keys_cons, edit_keys_cons.
    change (le_do_command _ _) with (basic_do_command (String a EmptyString) (new_line t)).
    by rewrite basic_type_char, IH, <- append_assoc_str.
Qed.

(** C22: a text-single input built from a field holds the field's text
    (the empty text when the value is not a string) with the cursor at
    its end; typing the characters of [s] appends them, so the reply
    answers the initial text followed by [s], after clearing the label. *)
Theorem text_single_typing_roundtrip i (f : field) (s : string) :
  exists w, make_input CTextSingle i f = Ret w /\
  let (w', r) := run_input_keys (type_keys s) w in
  r = Ret tt /\
  input_reply w' f = (setAnswer (PStr (String.append (initial_text (getValue f)) s)) (set_label "" f), Ret tt).
Proof.
  eexists. split; [reflexivity|].
  rewrite (run_text_keys TextSingleWin) by (by left). split; [done|].
  simpl. by rewrite edit_type_keys.
Qed.

(** ** A list-multi field whose value is a string *)

Section StringValue.
Context `{LineEditor}.

Lemma multi_options_str s os :
  multi_options (PStr s) os = Ret ((fun o => (o, substring_b (opt_value o) s)) <$> os).
Proof. induction os as [|o os IH]; [done|]. simpl. by rewrite IH. Qed.

(** C24: the list-multi input [__init__] builds for a field whose value
    is a string [s] (not the list of values the spec expects) lists the
    field's options in order, the cursor on the first, and flags an
    option selected exactly when its value occurs in [s] as a contiguous
    piece ([option['value'] in values] is Python's substring test), so
    that on "ABC" the options "A", "B", "C", "AB" and "BC" all start
    selected. *)
Theorem list_multi_string_value (idx : nat) f s :
  getValue f = PStr s ->
  exists os,
    make_input CListMulti idx f = Ret (mkInput idx COLOR_NORMAL (ListMultiWin os 0)) /\
    fst <$> os = getOptions f /\
    forall k o b, os !! k = Some (o, b) ->
      (b = true <-> exists p q, s = String.append p (String.append (opt_value o) q)).
Proof.
  intros Hv. simpl. rewrite Hv, multi_options_str. eexists. split; [reflexivity|]. split.
  - rewrite <- list_fmap_compose. apply list_fmap_id.
  - intros k o b Hk. apply list_lookup_fmap_Some in Hk as (o' & Heq & _). injection Heq as -> ->.
    apply substring_b_spec.
Qed.

End StringValue.
