(* ===== verification/Render.v ===== *)
(** * Render: what the inputs and the form window draw

    The [refresh] methods of the inputs (lines 116-187, 218-229),
    [TextPrivateWin.rewrite_text] (lines 253-266) and [FormWin.refresh]
    (lines 360-380) write on curses windows under the global lock
    [g_lock].  The rendering surface is opaque (spec, section 6): a redraw
    is modelled as the list of [draw] operations it performs, in order,
    with the outcome ([RW]).  [with_lock] is Python's [with g_lock:]: the
    lock is released on every exit, also when the body raises.  Coordinates
    and sizes are [Z], Python's [//] is [Z.div], [' ' * n] is [py_repeat]
    and [len] on strings counts UTF-8 code points ([py_len]).  The redraw
    of [windows.Input] (text inputs) is outside [src/] and drawn as one
    opaque operation.  Besides the lock discipline and the geometry of
    the layout, the file shows that [FormWin.refresh] is idempotent. *)

From stdpp Require Import base list strings.
From Stdlib Require Import Lia ZArith.
From S2P Require Import Prelude Field Editor Focus Widgets.

Open Scope string_scope.

Inductive draw :=
| Lock | Unlock
| AttrOn (pair : nat) | AttrOff (pair : nat)
| Erase
| AddStr (y x : Z) (s : string)
| AddStrCur (s : string)
| AddNStr (y x : Z) (s : string) (n : Z)
| AddNStrCur (s : string) (n : Z) (pair : nat)
| ResizeInput (i : nat) (h w y x : Z)
| Flush
| InputRedraw.

(** ** Drawing with exceptions *)

Definition RW (A : Type) : Type := list draw * outcome A.

Definition rret {A} (a : A) : RW A := ([], Ret a).
Definition rdraw (ops : list draw) : RW unit := (ops, Ret tt).
Definition rraise {A} (e : exn) : RW A := ([], Exc e).
Definition rbind {A B} (m : RW A) (k : A -> RW B) : RW B :=
  match m with
  | (ops, Ret a) => let (ops', r) := k a in (app ops ops', r)
  | (ops, Exc e) => (ops, Exc e)
  end.

Notation "'let+' x ':=' m 'in' k" := (rbind m (fun x => k))
  (at level 10, x name, m at level 100, k at level 200) : py_scope.
Notation "m ';;+' k" := (rbind m (fun _ => k))
  (at level 100, right associativity) : py_scope.

(** [with g_lock: body]: acquire, run, release on every exit. *)
Definition with_lock {A} (body : RW A) : RW A :=
  let (ops, r) := body in (Lock :: app ops [Unlock], r).

Definition rof {A} (r : outcome A) : RW A := ([], r).

(** ** Python strings *)

(** [len(s)] for a UTF-8 encoded [s]: the bytes that start a code point. *)
Definition py_len (s : string) : Z :=
  Z.of_nat (length (filter (fun a => ~ (128 <= Ascii.nat_of_ascii a < 192)%nat) (chars s))).

(** [s * n]: empty when [n <= 0]. *)
Definition py_repeat (s : string) (n : Z) : string :=
  String.concat "" (replicate (Z.to_nat n) s).

(** A slice bound of [s[a:b]] on a string of [n] code points: negative
    bounds count from the end, and bounds are clamped to [[0, n]]. *)
Definition py_slice_index (n i : Z) : Z :=
  if decide (i < 0)%Z then Z.max 0 (n + i) else Z.min i n.

(** [len(s[a:b])] for a string of [len(s) = n]. *)
Definition py_slice_len (n a b : Z) : Z :=
  Z.max 0 (py_slice_index n b - py_slice_index n a).

(** ** The redraw of each input *)

(** ["%s" % self.value] for a boolean. *)
Definition py_str_bool (b : bool) : string := if b then "True" else "False".

(** [len(option)] in [ListMultiWin.refresh]: [option] is the two-element
    list [[option, selected]]. *)
Definition multi_option_len : Z := 2.

Definition opt_if (b : bool) (ops : list draw) : list draw := if b then ops else [].

(** [TextPrivateWin.rewrite_text] with the input's width: one star per
    visible character, padding, cursor placement. *)
Definition private_rewrite (c : nat) (ed : line) (width : Z) : RW unit :=
  let mask := py_repeat "*" (py_slice_len (py_len (in_text ed)) (Z.of_nat (in_line_pos ed))
                               (Z.of_nat (in_line_pos ed) + width - 1)) in
  let size := (width - py_len mask)%Z in
  with_lock (rdraw
    ([Erase] ++ opt_if (bool_decide (c <> 0)) [AttrOn c] ++ [AddStrCur mask] ++
     opt_if (bool_decide (c <> 0)) [AddNStrCur (py_repeat " " size) size c] ++
     [AddStr 0 (Z.of_nat (in_pos ed)) ""] ++ opt_if (bool_decide (c <> 0)) [AttrOff c] ++
     [Flush])%list).

(** The [refresh] of an input [w] whose window is [width] wide. *)
Definition input_render (w : field_input) (width : Z) : RW unit :=
  let c := fi_color w in
  match fi_kind w with
  | DummyInput => rret tt
  | BooleanWin v lk =>
      with_lock (rdraw
        [AttrOn c; AddNStr 0 0 (py_repeat " " 8) width; AddStr 0 2 (py_str_bool v);
         AddStr 0 8 "→"; AddStr 0 0 "←";
         if decide (lk = "KEY_RIGHT") then AddStr 0 8 "" else AddStr 0 0 "";
         AttrOff c; Flush])
  | ListMultiWin os p =>
      with_lock (
        rdraw ([AttrOn c; AddNStr 0 0 (py_repeat " " width) width] ++
               opt_if (bool_decide (0 < p)) [AddStr 0 0 "←"] ++
               opt_if (bool_decide (S p < length os)) [AddStr 0 (width - 1) "→"])%list ;;+
        let+ o := rof (py_index os p) in
        rdraw [AddStr 0 (width / 2 - multi_option_len / 2) (opt_label o.1);
               AddStr 0 2 (if o.2 then "✔" else "☐"); AttrOff c; Flush])
  | ListSingleWin os p =>
      with_lock (
        rdraw ([AttrOn c; AddNStr 0 0 (py_repeat " " width) width] ++
               opt_if (bool_decide (0 < p)) [AddStr 0 0 "←"] ++
               opt_if (bool_decide (S p < length os)) [AddStr 0 (width - 1) "→"])%list ;;+
        let+ o := rof (py_index os p) in
        let label := opt_label o in
        rdraw [AddStr 0 (width / 2 - py_len label / 2) label; AttrOff c; Flush])
  | TextSingleWin _ => rdraw [InputRedraw]
  | TextPrivateWin ed => private_rewrite c ed width
  end.

(** ** Properties of the redraws *)

Definition lock_free (ops : list draw) : Prop := Forall (fun d => d <> Lock /\ d <> Unlock) ops.

Lemma lock_free_app ops1 ops2 : lock_free ops1 -> lock_free ops2 -> lock_free (ops1 ++ ops2)%list.
Proof. intros. by apply Forall_app. Qed.

Ltac lock_free_solve :=
  unfold lock_free, opt_if; repeat (case_bool_decide || case_decide);
  repeat (apply Forall_app; split); repeat constructor; discriminate.

(** C26: the lock discipline of the input redraws: a [DummyInput] draws
    nothing, a [TextSingleWin] hands over to [windows.Input]'s own redraw,
    and every other input (boolean, list-multi, list-single, masked text)
    acquires [g_lock] first and releases it last, on every path, also when
    the list redraw raises on a cursor off its options, with no lock
    operation in between. *)
Theorem input_render_lock w width :
  match fi_kind w with
  | DummyInput => fst (input_render w width) = []
  | TextSingleWin _ => fst (input_render w width) = [InputRedraw]
  | _ => exists body, fst (input_render w width) = (Lock :: body ++ [Unlock])%list /\ lock_free body
  end.
Proof.
  unfold input_render, private_rewrite, with_lock, rbind, rof, rdraw, rret.
  destruct (fi_kind w) as [|v lk|os p|os p|ed|ed];
    [| |destruct (py_index os p)|destruct (py_index os p)| |];
    try reflexivity; eexists; (split; [reflexivity|]); lock_free_solve.
Qed.

(** C27: a redraw raises exactly when [input_refresh_ok] says so (a list
    input whose cursor is not on an option, [IndexError]): the redraw
    status the focus controller relies on is the drawing code's. *)
Theorem input_render_outcome w width :
  snd (input_render w width) = if input_refresh_ok w then Ret tt else Exc IndexError.
Proof.
  unfold input_render, input_refresh_ok, private_rewrite, with_lock, rdraw, rret, rbind, rof.
  destruct (fi_kind w) as [|v lk|os p|os p|ed|ed]; simpl; try done;
    unfold py_index; destruct (os !! p) eqn:E; simpl;
    [rewrite bool_decide_true by (by apply lookup_lt_Some in E) |
     rewrite bool_decide_false by (apply lookup_ge_None in E; lia) |
     rewrite bool_decide_true by (by apply lookup_lt_Some in E) |
     rewrite bool_decide_false by (apply lookup_ge_None in E; lia)]; done.
Qed.

(** C28: [ListMultiWin.refresh] centres the label at column [width//2 - 1]
    whatever the label's length: it halves [len(option)], the length of
    the pair [[option, selected]], not the length of the label. *)
Theorem list_multi_label_column i c os p width :
  p < length os ->
  exists o, os !! p = Some o /\
    AddStr 0 (width / 2 - 1) (opt_label o.1) ∈ fst (input_render (mkInput i c (ListMultiWin os p)) width).
Proof.
  intros Hp. destruct (py_index_lt os p Hp) as (o & Ho & Hidx). exists o. split; [done|].
  unfold input_render, with_lock, rdraw, rbind, rof. simpl. rewrite Hidx. simpl.
  unfold multi_option_len. replace (2 / 2)%Z with 1%Z by reflexivity.
  apply list_elem_of_In. simpl. right. right.
  rewrite !in_app_iff. simpl. tauto.
Qed.

Lemma py_len_nonneg s : (0 <= py_len s)%Z.
Proof. unfold py_len. lia. Qed.

Lemma py_slice_len_bound (n a b : Z) :
  (0 <= n)%Z -> (0 <= a <= b)%Z -> (0 <= py_slice_len n a b <= b - a)%Z.
Proof.
  intros Hn Hab. unfold py_slice_len, py_slice_index.
  rewrite !decide_False by lia. lia.
Qed.

(** C29: the masked input draws no character of its text: it writes one
    string of stars, spaces for the padding and an empty string to place
    the cursor; and when its window is at least one column wide there are
    at most [width - 1] stars. *)
Theorem private_render_masks i c ed width :
  Forall (fun d => match d with
                   | AddStrCur s => exists k, s = py_repeat "*" k /\
                                      ((1 <= width)%Z -> (0 <= k <= width - 1)%Z)
                   | AddNStrCur s _ _ => exists k, s = py_repeat " " k
                   | AddStr _ _ s => s = ""
                   | AddNStr _ _ _ _ => False
                   | _ => True
                   end)
    (fst (input_render (mkInput i c (TextPrivateWin ed)) width)).
Proof.
  unfold input_render, private_rewrite, with_lock, rdraw, opt_if. simpl.
  set (k := py_slice_len _ _ _).
  assert (Hk : (1 <= width)%Z -> (0 <= k <= width - 1)%Z).
  { intros Hw. unfold k. pose proof (py_slice_len_bound (py_len (in_text ed))
      (Z.of_nat (in_line_pos ed)) (Z.of_nat (in_line_pos ed) + width - 1)) as Hb.
    pose proof (py_len_nonneg (in_text ed)). lia. }
  repeat case_bool_decide; repeat constructor; eauto.
Qed.

(** ** [FormWin.refresh] *)

(** [addstr] takes a string; a label that is not one (the value of a
    [fixed] field) makes curses raise [TypeError]. *)
Definition py_str_arg (v : pyval) : outcome string :=
  match v with PStr s => Ret s | _ => Exc TypeError end.

Definition instr_rows (f : field) : Z := if decide (f_instructions f = "") then 0 else 1.

(** The loop of [FormWin.refresh] over the form's fields from row [y],
    with [i] the index of the next input. *)
Fixpoint layout (ins : list (entry field_input)) (fs : list field) (width y : Z) (i : nat)
  : RW unit :=
  match fs with
  | [] => rret tt
  | f :: fs' =>
      if decide (f_type f = "hidden") then layout ins fs' width y i
      else
        let+ e := rof (py_index ins i) in
        let+ label := rof (py_str_arg (e_label e)) in
        rdraw ([AddStr y 0 label; ResizeInput i 1 (width / 3) (y + 1) (2 * width / 3)] ++
               opt_if (bool_decide (f_instructions f <> "")) [AddStr (y + 1) 0 (f_instructions f)])%list ;;+
        layout ins fs' width (y + 1 + instr_rows f) (S i)
  end.

(** [for inp in self.inputs: inp['input'].refresh()], each input [width]
    columns wide. *)
Fixpoint render_all (ins : list (entry field_input)) (width : Z) : RW unit :=
  match ins with
  | [] => rret tt
  | e :: ins' => input_render (e_input e) width ;;+ render_all ins' width
  end.

(** [FormWin.refresh] on a window [width] columns wide: the labels and
    instructions under the lock, every input, then the focused input
    recoloured (which redraws it) and redrawn once more.  The window is
    returned with the focused input's new colour. *)
Definition formwin_refresh (fm : form) (width : Z) (fw : formwin field_input)
  : formwin field_input * RW unit :=
  let ins := inputs fw in
  let w3 := (width / 3)%Z in
  match with_lock (rdraw [Erase] ;;+ layout ins (getFields fm) width 0 0 ;;+ rdraw [Flush]) with
  | (ops1, Exc e) => (fw, (ops1, Exc e))
  | (ops1, Ret _) =>
      match render_all ins w3 with
      | (ops2, Exc e) => (fw, (ops1 ++ ops2, Exc e))%list
      | (ops2, Ret _) =>
          match on_input_at (current_input fw) (input_set_color COLOR_FOCUSED) fw with
          | (fw', Exc e) => (fw', (ops1 ++ ops2, Exc e))%list
          | (fw', Ret _) =>
              match inputs fw' !! current_input fw' with
              | None => (fw', (ops1 ++ ops2, Exc IndexError))%list
              | Some e =>
                  let (ops3, r) := input_render (e_input e) w3 in
                  let (ops4, r') := rbind (ops3, r) (fun _ => input_render (e_input e) w3) in
                  (fw', (ops1 ++ ops2 ++ ops4, r'))%list
              end
          end
      end
  end.

(** The rows the labels and instructions of [fs] take. *)
Fixpoint form_rows (fs : list field) : Z :=
  match fs with
  | [] => 0
  | f :: fs' => (if decide (f_type f = "hidden") then 0 else 1 + instr_rows f) + form_rows fs'
  end%Z.

Lemma form_rows_nonneg fs : (0 <= form_rows fs)%Z.
Proof.
  induction fs as [|f fs IH]; simpl; [lia|].
  unfold instr_rows. repeat case_decide; lia.
Qed.

(** Where the layout may draw: labels and instructions in column 0 of
    rows [y0 .. y0+rows-1]; inputs one row high, a third of the width
    wide, in the last third, on rows [y0+1 .. y0+rows]. *)
Definition row_ok (width y0 rows : Z) (d : draw) : Prop :=
  match d with
  | AddStr y x _ => (y0 <= y < y0 + rows)%Z /\ x = 0%Z
  | ResizeInput _ h w y x => (y0 + 1 <= y <= y0 + rows)%Z /\ h = 1%Z /\
                             w = (width / 3)%Z /\ x = (2 * width / 3)%Z
  | _ => True
  end.

Lemma row_ok_mono width y0 y1 r0 r1 d :
  (y0 <= y1)%Z -> (y1 + r1 <= y0 + r0)%Z -> row_ok width y1 r1 d -> row_ok width y0 r0 d.
Proof. destruct d; simpl; lia. Qed.

(** The geometry of the layout loop, from any row [y]. *)
Lemma layout_row_ok ins fs width (y : Z) (i : nat) :
  Forall (row_ok width y (form_rows fs)) (fst (layout ins fs width y i)).
Proof.
  revert y i. induction fs as [|f fs IH]; intros y i; simpl; [constructor|].
  pose proof (form_rows_nonneg fs) as Hn.
  case_decide as Hh.
  - eapply Forall_impl; [apply IH|]. intros d. apply row_ok_mono; lia.
  - unfold rbind, rof, rdraw. pose proof (IH (y + 1 + instr_rows f)%Z (S i)) as IHf.
    assert (Hi : (0 <= instr_rows f <= 1)%Z) by (unfold instr_rows; case_decide; lia).
    destruct (py_index ins i) as [e|]; [|constructor].
    destruct (py_str_arg (e_label e)) as [l|]; [|constructor]. simpl.
    destruct (layout ins fs width (y + 1 + instr_rows f) (S i)) as [ops r] eqn:E. simpl in IHf |- *.
    constructor; [simpl; lia|]. constructor; [simpl; lia|].
    apply Forall_app. split.
    + unfold opt_if, instr_rows in *. case_bool_decide; [|constructor].
      rewrite decide_False in Hi, IHf |- * by done. repeat constructor; simpl; lia.
    + eapply Forall_impl; [exact IHf|]. intros d. apply row_ok_mono; lia.
Qed.

(** The number of fields of [fs] the loop gives an input. *)
Definition shown_count (fs : list field) : nat :=
  length (filter (fun f => f_type f <> "hidden") fs).

(** One shown field of a loop that completes: its entry and label, and
    the calls of its iteration before the rest of the loop. *)
Lemma layout_cons_ok ins f fs width (y : Z) (i : nat) :
  f_type f <> "hidden" ->
  snd (layout ins (f :: fs) width y i) = Ret tt ->
  exists e label,
    ins !! i = Some e /\ py_str_arg (e_label e) = Ret label /\
    snd (layout ins fs width (y + 1 + instr_rows f) (S i)) = Ret tt /\
    fst (layout ins (f :: fs) width y i) =
      ([AddStr y 0 label; ResizeInput i 1 (width / 3) (y + 1) (2 * width / 3)] ++
       opt_if (bool_decide (f_instructions f <> "")) [AddStr (y + 1) 0 (f_instructions f)] ++
       fst (layout ins fs width (y + 1 + instr_rows f) (S i)))%list.
Proof.
  intros Hh. simpl. rewrite decide_False by done. unfold rbind, rof, rdraw, py_index.
  destruct (ins !! i) as [e|]; [|discriminate].
  destruct (py_str_arg (e_label e)) as [l|] eqn:El; [|discriminate].
  destruct (layout ins fs width (y + 1 + instr_rows f) (S i)) as [ops r]. simpl.
  intros ->. by exists e, l.
Qed.

(** The labels and instructions of the loop from row [y] are on rows [y]
    and below. *)
Lemma layout_addstr_below ins fs width (y : Z) (i : nat) r x s :
  AddStr r x s ∈ fst (layout ins fs width y i) -> (y <= r)%Z.
Proof.
  intros Hin. pose proof (layout_row_ok ins fs width y i) as Hf.
  rewrite Forall_forall in Hf. apply Hf in Hin. simpl in Hin. lia.
Qed.

Lemma filter_take_cons_hidden f fs k :
  f_type f = "hidden" ->
  shown_count (take (S k) (f :: fs)) = shown_count (take k fs) /\
  form_rows (take (S k) (f :: fs)) = form_rows (take k fs).
Proof. intros Hh. unfold shown_count. simpl. rewrite filter_cons_False by naive_solver. by rewrite decide_True. Qed.

Lemma filter_take_cons_shown f fs k :
  f_type f <> "hidden" ->
  shown_count (take (S k) (f :: fs)) = S (shown_count (take k fs)) /\
  form_rows (take (S k) (f :: fs)) = (1 + instr_rows f + form_rows (take k fs))%Z.
Proof. intros Hh. unfold shown_count. simpl. rewrite filter_cons_True by done. by rewrite decide_False. Qed.

(** C30: when the layout loop of [FormWin.refresh] started on row [y]
    completes, the [k]-th field of the form, when it is not hidden, is
    drawn as the code lays it out: its label (the label of the input its
    position among the shown fields gives) in column 0 of row
    [r = y + form_rows (take k fs)], the only string drawn on that row;
    its input moved to a one-row window a third of the width wide, in the
    last third, on row [r + 1], the row below its label; and its
    instructions, when it has some, in column 0 of that row below.
    Whatever exception ends the loop, everything it draws stays in the
    [form_rows fs] rows from [y] (inputs at most one row lower). *)
Theorem layout_geometry ins fs width (y : Z) (i k : nat) (f : field) :
  snd (layout ins fs width y i) = Ret tt ->
  fs !! k = Some f -> f_type f <> "hidden" ->
  let ops := fst (layout ins fs width y i) in
  let r := (y + form_rows (take k fs))%Z in
  let j := (i + shown_count (take k fs))%nat in
  Forall (row_ok width y (form_rows fs)) ops /\
  exists e label,
    ins !! j = Some e /\ py_str_arg (e_label e) = Ret label /\
    AddStr r 0 label ∈ ops /\
    (forall x s, AddStr r x s ∈ ops -> x = 0%Z /\ s = label) /\
    ResizeInput j 1 (width / 3) (r + 1) (2 * width / 3) ∈ ops /\
    (f_instructions f <> "" -> AddStr (r + 1) 0 (f_instructions f) ∈ ops).
Proof.
  intros Hok Hk Hh ops r j. split; [apply layout_row_ok|]. subst ops r j.
  revert y i k Hok Hk. induction fs as [|f0 fs IH]; intros y i k Hok Hk; [done|].
  destruct k as [|k]; simpl in Hk.
  - injection Hk as ->.
    destruct (layout_cons_ok ins f fs width y i Hh Hok) as (e & l & He & Hl & _ & ->).
    exists e, l. rewrite Nat.add_0_r, Z.add_0_r. do 2 (split; [done|]).
    split; [by left|]. split; [|split; [by right; left|]].
    + intros x s' Hin. apply elem_of_app in Hin as [Hin|Hin].
      * apply elem_of_cons in Hin as [Heq|Hin]; [by injection Heq as -> ->|].
        rewrite elem_of_cons, elem_of_nil in Hin. by destruct Hin.
      * unfold opt_if, instr_rows in *. apply elem_of_app in Hin as [Hin|Hin].
        -- case_bool_decide; [|by apply elem_of_nil in Hin].
           apply list_elem_of_singleton in Hin. injection Hin. lia.
        -- apply layout_addstr_below in Hin. case_decide; lia.
    + intros Hi. right; right. apply elem_of_app. left.
      unfold opt_if. rewrite bool_decide_true by done. by left.
  - destruct (decide (f_type f0 = "hidden")) as [Hh0|Hh0].
    + destruct (filter_take_cons_hidden f0 fs k Hh0) as [-> ->].
      simpl in Hok |- *. rewrite decide_True in Hok |- * by done. by apply (IH y i k).
    + destruct (filter_take_cons_shown f0 fs k Hh0) as [-> ->].
      destruct (layout_cons_ok ins f0 fs width y i Hh0 Hok) as (e0 & l0 & _ & _ & Hok' & ->).
      destruct (IH (y + 1 + instr_rows f0)%Z (S i) k Hok' Hk) as (e & l & He & Hl & Hin & Hon & Hres & Hins).
      rewrite Nat.add_succ_r, <- Nat.add_succ_l.
      replace (y + (1 + instr_rows f0 + form_rows (take k fs)))%Z
        with (y + 1 + instr_rows f0 + form_rows (take k fs))%Z by lia.
      pose proof (form_rows_nonneg (take k fs)).
      exists e, l. do 2 (split; [done|]).
      split; [by do 2 right; apply elem_of_app; right|].
      split; [|split; [by do 2 right; apply elem_of_app; right|]].
      * intros x s' Hx. apply elem_of_app in Hx as [Hx|Hx].
        -- unfold instr_rows in *. rewrite elem_of_cons, elem_of_cons, elem_of_nil in Hx.
           destruct Hx as [Hx|[Hx|[]]]; [injection Hx; intros; case_decide; lia | discriminate Hx].
        -- apply elem_of_app in Hx as [Hx|Hx]; [|by apply Hon].
           unfold opt_if, instr_rows in *. case_bool_decide; [|by apply elem_of_nil in Hx].
           apply list_elem_of_singleton in Hx. injection Hx. case_decide; [done|]. lia.
      * intros Hi. do 2 right. apply elem_of_app. right. by apply Hins.
Qed.

(** With no inputs, the layout loop either draws nothing (the form shows
    no field) or stops on [self.inputs[i]] with an [IndexError]. *)
Lemma layout_no_inputs fs width y i :
  snd (layout [] fs width y i) = Ret tt \/ snd (layout [] fs width y i) = Exc IndexError.
Proof.
  revert y i. induction fs as [|f fs IH]; intros y i; simpl; [by left|].
  case_decide; [apply IH|]. by right.
Qed.

(** C31: [FormWin.refresh] of a window without inputs raises [IndexError]:
    on [self.inputs[i]] when the form shows a field, and otherwise on
    [self.inputs[self.current_input]] after the loop; the window is left
    as it was. *)
Theorem formwin_refresh_empty fm width fw :
  inputs fw = [] ->
  formwin_refresh fm width fw = (fw, (fst (snd (formwin_refresh fm width fw)), Exc IndexError)).
Proof.
  intros Hin. unfold formwin_refresh. rewrite Hin.
  destruct (layout_no_inputs (getFields fm) width 0 0) as [Hl|Hl];
    destruct (layout [] (getFields fm) width 0 0) as [ops r] eqn:E; simpl in Hl; subst r;
    unfold with_lock, rbind, rdraw; simpl; [|done].
  unfold on_input_at. rewrite Hin. done.
Qed.

(** ** Where [FormWin.refresh] puts the inputs *)

(** An input window placed by a redraw of a form [width] columns wide is
    one row high, a third of the width wide, in the last third. *)
Definition resize_geometry (width : Z) (d : draw) : Prop :=
  match d with
  | ResizeInput _ h w y x => h = 1%Z /\ w = (width / 3)%Z /\ x = (2 * width / 3)%Z
  | _ => True
  end.

Lemma row_ok_resize_geometry width y0 rows d : row_ok width y0 rows d -> resize_geometry width d.
Proof. destruct d; simpl; tauto. Qed.

Lemma input_render_resize_geometry width w width' :
  Forall (resize_geometry width) (fst (input_render w width')).
Proof.
  unfold input_render, private_rewrite, with_lock, rbind, rof, rdraw, rret.
  destruct (fi_kind w); [| |destruct (py_index _ _)|destruct (py_index _ _)| |];
    simpl; unfold opt_if; repeat (case_bool_decide || case_decide); simpl; repeat constructor.
Qed.

Lemma render_all_resize_geometry width ins width' :
  Forall (resize_geometry width) (fst (render_all ins width')).
Proof.
  induction ins as [|e ins IH]; simpl; [constructor|].
  pose proof (input_render_resize_geometry width (e_input e) width') as Hi.
  unfold rbind. destruct (input_render _ _) as [ops [[]|]]; simpl in *; [|done].
  destruct (render_all ins width') as [ops' r]. apply Forall_app. by split.
Qed.

#[local] Hint Resolve input_render_resize_geometry render_all_resize_geometry : core.

(** Split a [Forall] over a list built from pieces into its pieces. *)
Ltac forall_pieces :=
  repeat match goal with
  | |- Forall _ (_ ++ _) => apply Forall_app; split
  | |- Forall _ (_ :: _) => constructor
  | |- Forall _ [] => constructor
  end.

(** Every input window [FormWin.refresh] places, on any path. *)
Lemma formwin_refresh_resize_geometry fm width fw :
  Forall (resize_geometry width) (fst (snd (formwin_refresh fm width fw))).
Proof.
  assert (Hl : Forall (resize_geometry width) (fst (layout (inputs fw) (getFields fm) width 0 0)))
    by (eapply Forall_impl; [apply layout_row_ok | intros d; apply row_ok_resize_geometry]).
  pose proof (render_all_resize_geometry width (inputs fw) (width / 3)) as H2.
  unfold formwin_refresh, with_lock, rbind, rdraw.
  destruct (layout _ _ _ _ _) as [ops1 [[]|e1]]; simpl in Hl;
    [destruct (render_all _ _) as [ops2 [[]|e2]]; simpl in H2 |];
    [destruct (on_input_at _ _ _) as [fw' [[]|e3]] | |];
    [destruct (inputs fw' !! current_input fw') as [e|] | | | ];
    [pose proof (input_render_resize_geometry width (e_input e) (width / 3)) as H3;
     destruct (input_render _ _) as [ops3 [[]|e4]]; simpl in H3 | | | | ];
    simpl; forall_pieces; done.
Qed.

(** ** Redrawing is idempotent *)

(** [FormWin.refresh] changes the window only by recolouring the focused
    input, on the path that reaches it. *)
Lemma formwin_refresh_state fm width fw :
  fst (formwin_refresh fm width fw) = fw \/
  fst (formwin_refresh fm width fw) =
    fst (on_input_at (current_input fw) (input_set_color COLOR_FOCUSED) fw).
Proof.
  unfold formwin_refresh.
  destruct (with_lock _) as [ops1 [[]|e1]]; [|by left].
  destruct (render_all _ _) as [ops2 [[]|e2]]; [|by left].
  right. destruct (on_input_at _ _ _) as [fw' [[]|e3]]; simpl; [|done].
  destruct (inputs fw' !! current_input fw'); [|done].
  unfold rbind. by destruct (input_render _ _) as [ops3 [[]|e3]].
Qed.

Lemma on_input_at_set_color_idem (c : nat) (k : nat) fw :
  let fw1 := fst (on_input_at c (input_set_color k) fw) in
  current_input fw1 = current_input fw /\
  fst (on_input_at c (input_set_color k) fw1) = fw1.
Proof.
  unfold on_input_at. destruct (inputs fw !! c) as [e|] eqn:He; simpl; [|by rewrite He].
  split; [done|]. rewrite list_lookup_insert_eq by (by apply lookup_lt_Some in He).
  unfold input_set_color, input_refresh. py_unfold. simpl. rewrite list_insert_insert, decide_True by done. reflexivity.
Qed.

(** C36: a redraw of the form window is idempotent: after one
    [FormWin.refresh], which leaves the focused input in the focused
    colour, a second one changes nothing, so the following ones draw the
    same operations with the same outcome. *)
Theorem formwin_refresh_idempotent fm width fw :
  let fw1 := fst (formwin_refresh fm width fw) in
  fst (formwin_refresh fm width fw1) = fw1 /\
  formwin_refresh fm width (fst (formwin_refresh fm width fw1)) = formwin_refresh fm width fw1.
Proof.
  simpl. assert (Hfix : fst (formwin_refresh fm width (fst (formwin_refresh fm width fw))) =
                        fst (formwin_refresh fm width fw)).
  { destruct (formwin_refresh_state fm width fw) as [E|E]; rewrite E; [by rewrite E|].
    destruct (on_input_at_set_color_idem (current_input fw) COLOR_FOCUSED fw) as [Hc Hid].
    destruct (formwin_refresh_state fm width
                (fst (on_input_at (current_input fw) (input_set_color COLOR_FOCUSED) fw))) as [E'|E'];
      rewrite E'; [done|]. by rewrite Hc. }
  split; [done|]. by rewrite Hfix.
Qed.
