(* ===== verification/Session.v ===== *)
(** * Session: building the form window and running the tab

    [FormWin.__init__] (lines 285-305) builds one entry per field that is
    not hidden, picking the input class from [input_classes] and falling
    back to [TextSingleWin] after writing the type name into the field's
    value; [FormWin.reply] (lines 312-323) replies every input that is not
    a dummy and clears the form's title and instructions; [DataFormsTab]
    (lines 29-77) routes [KEY_UP], [KEY_DOWN], [^G] and [^Y] to the
    navigation and to the two callbacks and forwards every other key to the
    focused input.

    The tab state [tab] holds the shared form, the form window and the
    calls made to the two callbacks, recorded as [event]s with the form
    the callback receives.  SleekXMPP's [Form.reply], called first by
    [on_send], is outside the repository: it is the section variable
    [form_reply].  The last section proves the typing invariant of the
    session ([tab_typed]): every input is of the class its field's type
    calls for, from [tab_init] on and after any run of keys, and that
    class is the widget the spec's table gives the type ([spec_widget]); and its focus
    invariant ([session_inv]): the focus in range, no other input painted
    focused, every input able to redraw.  The last part states the error
    paths and fallbacks: a window without inputs ignores every key but
    [^G] and [^Y]; [^Y] with a list-single input off its options raises
    [IndexError] before the send callback; [__init__] raises [TypeError]
    on a list-multi field whose value is [None] or a boolean; the cancel
    callback sees the values [__init__] wrote. *)

From stdpp Require Import base list strings.
From Stdlib Require Import Lia.
From S2P Require Import Prelude Field Editor Focus Widgets.

Open Scope string_scope.

Inductive event := Cancelled (fm : form) | Sent (fm : form).

Record tab := mkTab {
  t_form : form;
  t_win : formwin field_input;
  t_events : list event
}.

Section Session.
Context `{LineEditor}.
Variable form_reply : form -> form.

(** ** [FormWin.__init__] *)

(** The body of the loop for the field at position [idx]: [None] for a
    hidden field (the [continue]), the new entry otherwise. *)
Definition init_entry (idx : nat) : PyM form (option (entry field_input)) :=
  let* fm := pget in
  let* f := pof (py_index (form_fields fm) idx) in
  if decide (f_type f = "hidden") then pret None
  else
    let* cls :=
      match input_classes (f_type f) with
      | Some c => pret c
      | None => on_field idx (pmodify (setValue (PStr (f_type f)))) ;;; pret CTextSingle
      end in
    let* fm := pget in
    let* f := pof (py_index (form_fields fm) idx) in
    let label := if decide (f_type f = "fixed") then getValue f else PStr (f_label f) in
    let* inp := pof (make_input cls idx f) in
    pret (Some (mkEntry label (f_instructions f) inp)).

Fixpoint init_entries (idxs : list nat) : PyM form (list (entry field_input)) :=
  match idxs with
  | [] => pret []
  | i :: idxs' =>
      let* e := init_entry i in
      let* es := init_entries idxs' in
      pret (match e with Some x => x :: es | None => es end)
  end.

Definition formwin_init : PyM form (formwin field_input) :=
  let* fm := pget in
  let* es := init_entries (seq 0 (length (getFields fm))) in
  pret (mkWin es 0).

(** ** [FormWin.reply] *)

Definition reply_entry (e : entry field_input) : PyM form unit :=
  if input_is_dummy (e_input e) then pret tt
  else on_field (fi_field (e_input e)) (input_reply (e_input e)).

Definition formwin_reply (fw : formwin field_input) : PyM form unit :=
  pfor (inputs fw) reply_entry ;;;
  pmodify (set_title "") ;;;
  pmodify (set_form_instructions "").

(** ** [DataFormsTab] *)

Definition with_form {A} (m : PyM form A) : PyM tab A :=
  fun t => let (fm', r) := m (t_form t) in (mkTab fm' (t_win t) (t_events t), r).

Definition with_win {A} (m : PyM (formwin field_input) A) : PyM tab A :=
  fun t => let (w', r) := m (t_win t) in (mkTab (t_form t) w' (t_events t), r).

Definition emit (ev : form -> event) : PyM tab unit :=
  pmodify (fun t => mkTab (t_form t) (t_win t) (t_events t ++ [ev (t_form t)])).

(** [DataFormsTab.__init__]: the form window over the form, no callback
    called yet. *)
Definition tab_init : PyM form tab :=
  let* fw := formwin_init in
  let* fm := pget in
  pret (mkTab fm fw []).

(** [on_cancel]: [self._on_cancel(self._form)]. *)
Definition tab_on_cancel : PyM tab unit := emit Cancelled.

(** [on_send]: [self._form.reply(); self.form_win.reply();
    self._on_send(self._form)]. *)
Definition tab_on_send : PyM tab unit :=
  with_form (pmodify form_reply) ;;;
  let* t := pget in
  with_form (formwin_reply (t_win t)) ;;;
  emit Sent.

Definition tab_on_input (key : string) : PyM tab unit :=
  if decide (key = "KEY_UP") then with_win go_to_previous_input
  else if decide (key = "KEY_DOWN") then with_win go_to_next_input
  else if decide (key = "^G") then tab_on_cancel
  else if decide (key = "^Y") then tab_on_send
  else with_win (formwin_on_input key).

(** A run of key presses; an exception ends the run. *)
Definition run_keys (keys : list string) : PyM tab unit := pfor keys tab_on_input.

End Session.

(** ** Properties of the session *)

Section SessionProps.
Context `{LineEditor}.
Variable form_reply : form -> form.

Lemma with_win_form {A} (m : PyM (formwin field_input) A) t :
  t_form (fst (with_win m t)) = t_form t.
Proof. unfold with_win. by destruct (m (t_win t)). Qed.

Lemma tab_on_input_form key t :
  key <> "^Y" -> t_form (fst (tab_on_input form_reply key t)) = t_form t.
Proof.
  intros Hk. unfold tab_on_input. repeat case_decide; try done; apply with_win_form.
Qed.

(** C9: only [^Y] writes to the form: a run of keys without it (moves,
    edits, cancels) leaves the title, the instructions and every field as
    they were, whatever exception ends the run. *)
Theorem run_keys_without_send_keeps_form keys t :
  "^Y" ∉ keys -> t_form (fst (run_keys form_reply keys t)) = t_form t.
Proof.
  revert t. induction keys as [|k keys IH]; intros t Hk; [done|].
  apply not_elem_of_cons in Hk as [Hk Hks]. unfold run_keys. simpl. py_unfold.
  pose proof (tab_on_input_form k t (not_eq_sym Hk)) as Hf.
  destruct (tab_on_input form_reply k t) as [t1 [[]|e]] eqn:E; simpl in Hf |- *.
  - rewrite <- Hf. by apply IH.
  - done.
Qed.

End SessionProps.

Section InitProps.
Context `{LineEditor}.

(** The field after [FormWin.__init__]: a field of unknown type that is
    not hidden gets its type name as value. *)
Definition init_field (f : field) : field :=
  if decide (f_type f <> "hidden" /\ input_classes (f_type f) = None)
  then setValue (PStr (f_type f)) f else f.

(** The only way [__init__] can fail: [option['value'] in values] on a
    list-multi field whose value is [None] or a boolean. *)
Definition init_ok (f : field) : bool :=
  negb (bool_decide (f_type f = "list-multi")) || bool_decide (f_options f = []) ||
  match f_value f with PStr _ | PList _ => true | _ => false end.

Definition nonhidden_at (fs : list field) (i : nat) : bool :=
  match fs !! i with Some f => negb (bool_decide (f_type f = "hidden")) | None => false end.

(** The entry built for a field: it refers to that field, it is a dummy
    exactly when the field is [fixed], and its input is of the class
    chosen for the field's type. *)
Definition entry_of (fs : list field) (e : entry field_input) : Prop :=
  exists f, fs !! fi_field (e_input e) = Some f /\ f_type f <> "hidden" /\
    input_is_dummy (e_input e) = bool_decide (f_type f = "fixed") /\
    kind_class (fi_kind (e_input e)) = field_class (f_type f).

Lemma init_field_type f : f_type (init_field f) = f_type f.
Proof. unfold init_field. by case_decide. Qed.

Lemma set_fields_twice fs fs' fm : set_fields fs (set_fields fs' fm) = set_fields fs fm.
Proof. reflexivity. Qed.

Lemma input_classes_cases t c :
  input_classes t = Some c ->
  (c = CDummy <-> t = "fixed") /\ (c = CListMulti -> t = "list-multi").
Proof. unfold input_classes. repeat case_decide; intros [= <-]; subst; split; done. Qed.

Lemma multi_options_ok v os :
  os = [] \/ (exists s, v = PStr s) \/ (exists l, v = PList l) ->
  exists r, multi_options v os = Ret r.
Proof.
  intros Hv. induction os as [|o os IH]; [by eexists|]. simpl.
  destruct Hv as [Hn | [[s ->] | [l ->]]]; [done| |]; simpl;
    (destruct IH as [r ->]; [naive_solver|]); by eexists.
Qed.

Lemma make_input_ok c idx f :
  (c = CListMulti -> init_ok f = true) -> (c = CListMulti -> f_type f = "list-multi") ->
  exists w, make_input c idx f = Ret w /\ fi_field w = idx /\
            input_is_dummy w = bool_decide (c = CDummy) /\ kind_class (fi_kind w) = c.
Proof.
  intros Hok Ht. destruct c; try (eexists; split; [reflexivity|done]).
  specialize (Hok eq_refl). specialize (Ht eq_refl). unfold init_ok in Hok.
  rewrite Ht, bool_decide_true in Hok by done. simpl in Hok.
  destruct (multi_options_ok (getValue f) (getOptions f)) as [r Hr].
  { unfold getValue, getOptions. destruct (bool_decide (f_options f = [])) eqn:E.
    - left. by apply bool_decide_eq_true in E.
    - destruct (f_value f); simpl in Hok; try done; naive_solver. }
  simpl. rewrite Hr. by eexists.
Qed.

Lemma init_entry_spec (k : nat) fs fm f :
  fs !! k = Some f -> init_ok f = true ->
  exists oe,
    init_entry k (set_fields fs fm) = (set_fields (<[k:=init_field f]> fs) fm, Ret oe) /\
    match oe with
    | None => f_type f = "hidden"
    | Some e => entry_of (<[k:=init_field f]> fs) e /\ fi_field (e_input e) = k
    end.
Proof.
  intros Hk Hok. unfold init_entry. py_unfold. simpl. rewrite (py_index_lookup _ _ _ Hk). simpl.
  case_decide as Hh.
  { exists None. split; [|done]. unfold init_field. rewrite decide_False by tauto.
    by rewrite list_insert_id. }
  destruct (input_classes (f_type f)) as [c|] eqn:Ec; simpl.
  - destruct (input_classes_cases _ _ Ec) as [Hd Hm].
    rewrite (py_index_lookup _ _ _ Hk). simpl.
    destruct (make_input_ok c k f) as (w & -> & Hw & Hdw & Hkw); [intros _; done | done |]. simpl.
    assert (Hf : init_field f = f) by (unfold init_field; rewrite decide_False by (intros [_ Hn]; congruence); done).
    rewrite Hf, list_insert_id by done.
    exists (Some (mkEntry (if decide (f_type f = "fixed") then getValue f else PStr (f_label f)) (f_instructions f) w)).
    split; [done|]. split; [|done]. unfold entry_of; simpl. rewrite Hw.
    exists f. split; [done|]. split; [done|]. rewrite Hdw, Hkw. unfold field_class. rewrite Ec.
    split; [by apply bool_decide_ext | done].
  - rewrite (on_field_here k _ (set_fields fs fm) f Hk). simpl.
    assert (Hf : init_field f = setValue (PStr (f_type f)) f)
      by (unfold init_field; rewrite decide_True by done; done).
    rewrite set_fields_twice, <- Hf.
    rewrite (py_index_lookup _ _ (init_field f)) by
      (apply list_lookup_insert_eq; by apply lookup_lt_Some in Hk). simpl.
    eexists. split; [reflexivity|]. split; [|done]. unfold entry_of; simpl.
    exists (init_field f). split; [apply list_lookup_insert_eq; by apply lookup_lt_Some in Hk|].
    rewrite init_field_type. split; [done|]. unfold field_class. rewrite Ec.
    split; [|done]. rewrite bool_decide_false; [done|].
    intros Hfx. rewrite Hfx in Ec. done.
Qed.

Lemma init_ok_init_field f : init_ok f = true -> init_ok (init_field f) = true.
Proof.
  unfold init_field. case_decide as Hc; [|done]. unfold init_ok; simpl.
  intros _. destruct Hc as [_ Hn]. rewrite bool_decide_false; [done|].
  intros Hm. rewrite Hm in Hn. done.
Qed.

Lemma types_insert_init (fs : list field) (k : nat) f :
  fs !! k = Some f -> f_type <$> <[k:=init_field f]> fs = f_type <$> fs.
Proof.
  intros Hk. rewrite list_fmap_insert, init_field_type.
  apply list_insert_id. by rewrite list_lookup_fmap, Hk.
Qed.

Lemma nonhidden_at_types fs fs' (i : nat) :
  f_type <$> fs = f_type <$> fs' -> nonhidden_at fs i = nonhidden_at fs' i.
Proof.
  intros Ht. unfold nonhidden_at.
  assert (Hl : f_type <$> fs !! i = f_type <$> fs' !! i) by (by rewrite <- !list_lookup_fmap, Ht).
  destruct (fs !! i) as [f|], (fs' !! i) as [f'|]; simpl in Hl; try discriminate; [|done].
  assert (Hty : f_type f = f_type f') by congruence. by rewrite Hty.
Qed.

Lemma filter_nonhidden_types fs fs' (l : list nat) :
  f_type <$> fs = f_type <$> fs' ->
  filter (fun i => nonhidden_at fs i = true) l = filter (fun i => nonhidden_at fs' i = true) l.
Proof.
  intros Ht. induction l as [|i l IH]; [done|]. rewrite !filter_cons.
  rewrite (nonhidden_at_types fs fs' i Ht), IH. done.
Qed.

Lemma entry_of_types fs fs' e :
  f_type <$> fs = f_type <$> fs' -> entry_of fs e -> entry_of fs' e.
Proof.
  intros Ht (f & Hf & Hh & Hd & Hc).
  assert (Hl : f_type <$> fs' !! fi_field (e_input e) = Some (f_type f))
    by (by rewrite <- list_lookup_fmap, <- Ht, list_lookup_fmap, Hf).
  destruct (fs' !! fi_field (e_input e)) as [f'|] eqn:E; [|done]. simpl in Hl.
  assert (Hty : f_type f' = f_type f) by congruence. exists f'. by rewrite Hty.
Qed.

Lemma init_entries_spec (m k : nat) fs fm :
  k + m = length fs -> Forall (fun f => init_ok f = true) fs ->
  exists es,
    init_entries (seq k m) (set_fields fs fm) =
      (set_fields (take k fs ++ (init_field <$> drop k fs)) fm, Ret es) /\
    (fun e => fi_field (e_input e)) <$> es = filter (fun i => nonhidden_at fs i = true) (seq k m) /\
    Forall (entry_of fs) es.
Proof.
  revert k fs. induction m as [|m IH]; intros k fs Hlen Hok.
  - exists []. rewrite drop_ge, take_ge by lia. simpl. by rewrite app_nil_r.
  - destruct (lookup_lt_is_Some_2 fs k) as [f Hk]; [lia|].
    destruct (init_entry_spec k fs fm f Hk (Forall_lookup_1 _ _ _ _ Hok Hk)) as (oe & E1 & Hoe).
    set (fs1 := <[k:=init_field f]> fs).
    assert (Ht : f_type <$> fs1 = f_type <$> fs) by (apply types_insert_init; done).
    destruct (IH (S k) fs1) as (es & E2 & Hmap & Hall).
    { unfold fs1. rewrite length_insert. lia. }
    { unfold fs1. apply Forall_insert; [done|]. by apply init_ok_init_field, (Forall_lookup_1 _ _ _ _ Hok Hk). }
    simpl. py_unfold. rewrite E1. unfold fs1 in E2. rewrite E2.
    exists (match oe with Some x => x :: es | None => es end). split.
    + assert (Heq : (take (S k) (<[k:=init_field f]> fs) ++ (init_field <$> drop (S k) (<[k:=init_field f]> fs)))%list
                    = (take k fs ++ (init_field <$> drop k fs))%list).
      { rewrite (take_S_r _ _ (init_field f)) by (apply list_lookup_insert_eq; by apply lookup_lt_Some in Hk).
        rewrite take_insert_ge, drop_insert_lt, (drop_S _ _ _ Hk) by lia.
        by rewrite <- app_assoc. }
      by rewrite Heq.
    + rewrite filter_cons, <- (filter_nonhidden_types fs1 fs) by done.
      rewrite <- Hmap.
      assert (Hnk : nonhidden_at fs k = negb (bool_decide (f_type f = "hidden")))
        by (unfold nonhidden_at; by rewrite Hk).
      destruct oe as [e|]; simpl.
      * destruct Hoe as [Hent Hfe]. pose proof Hent as (f' & Hf' & Hh & _). rewrite Hfe in Hf'.
        rewrite list_lookup_insert_eq in Hf' by (by apply lookup_lt_Some in Hk).
        injection Hf' as <-. rewrite init_field_type in Hh.
        rewrite decide_True by (rewrite Hnk, bool_decide_false; done). split; [by rewrite Hfe|].
        constructor; [by apply (entry_of_types fs1)|].
        eapply Forall_impl; [done|]; intros x; apply entry_of_types, Ht.
      * rewrite decide_False by (rewrite Hnk, bool_decide_true; done). split; [done|].
        eapply Forall_impl; [done|]; intros x; apply entry_of_types, Ht.
Qed.

(** C7: the form window has one entry per field that is not hidden, in
    the order of the form; each entry refers to its field, is a dummy
    exactly when the field is [fixed], and is of the class
    [input_classes] gives the field's type ([TextSingleWin] for an
    unknown type); the only change made to the form
    is that a field of unknown type gets its type name as value. *)
Theorem formwin_init_spec fm :
  Forall (fun f => init_ok f = true) (form_fields fm) ->
  exists es,
    formwin_init fm = (set_fields (init_field <$> form_fields fm) fm, Ret (mkWin es 0)) /\
    (fun e => fi_field (e_input e)) <$> es =
      filter (fun i => nonhidden_at (form_fields fm) i = true) (seq 0 (length (form_fields fm))) /\
    Forall (entry_of (form_fields fm)) es.
Proof.
  intros Hok. destruct fm as [ti ins ty fs]. simpl in *.
  destruct (init_entries_spec (length fs) 0 fs (mkForm ti ins ty fs)) as (es & E & Hmap & Hall);
    [done|done|].
  exists es. unfold formwin_init, getFields. py_unfold. simpl. unfold set_fields in E |- *. simpl in E |- *. rewrite E. done.
Qed.
End InitProps.

Section SendProps.
Context `{LineEditor}.

(** An input whose reply does not raise. *)
Definition input_reply_ok (w : field_input) : bool :=
  match fi_kind w with
  | DummyInput => false
  | ListSingleWin os p => bool_decide (p < length os)
  | _ => true
  end.

Lemma input_reply_ret w f : input_reply_ok w = true -> snd (input_reply w f) = Ret tt.
Proof.
  unfold input_reply_ok, input_reply. py_unfold.
  destruct (fi_kind w) as [| | |os p| |]; simpl; try done.
  intros Hp. apply bool_decide_eq_true in Hp.
  destruct (py_index_lt os p Hp) as (o & _ & ->). done.
Qed.

(** The fields an answer is written to: those of the inputs that are not dummies. *)
Definition touched (es : list (entry field_input)) : list nat :=
  (fun e => fi_field (e_input e)) <$> filter (fun e => input_is_dummy (e_input e) = false) es.

Definition replies_ok (es : list (entry field_input)) (fs : list field) : Prop :=
  Forall (fun e => input_is_dummy (e_input e) = false ->
                   fi_field (e_input e) < length fs /\ input_reply_ok (e_input e) = true) es /\
  NoDup (touched es).

Lemma reply_entry_dummy e : input_is_dummy (e_input e) = true -> reply_entry e = pret tt.
Proof. unfold reply_entry. by intros ->. Qed.

Lemma reply_entry_input e :
  input_is_dummy (e_input e) = false ->
  reply_entry e = on_field (fi_field (e_input e)) (input_reply (e_input e)).
Proof. unfold reply_entry. by intros ->. Qed.

Lemma touched_elem e es :
  e ∈ es -> input_is_dummy (e_input e) = false -> fi_field (e_input e) ∈ touched es.
Proof. intros He Hd. apply (list_elem_of_fmap_2 (fun e => fi_field (e_input e))). by apply list_elem_of_filter. Qed.

Lemma pfor_reply_spec es fm :
  replies_ok es (form_fields fm) ->
  exists fs',
    pfor es reply_entry fm = (set_fields fs' fm, Ret tt) /\
    length fs' = length (form_fields fm) /\
    (forall j, j ∉ touched es -> fs' !! j = form_fields fm !! j) /\
    (forall e, e ∈ es -> input_is_dummy (e_input e) = false ->
       exists f, form_fields fm !! fi_field (e_input e) = Some f /\
                 fs' !! fi_field (e_input e) = Some (fst (input_reply (e_input e) f))).
Proof.
  revert fm. induction es as [|e es IH]; intros fm [Hall Hnd].
  - exists (form_fields fm). destruct fm. split; [done|]. split; [done|].
    split; [done|]. intros e He. by apply elem_of_nil in He.
  - apply Forall_cons in Hall as [He Hall]. simpl. py_unfold.
    destruct (input_is_dummy (e_input e)) eqn:Hd.
    + rewrite (reply_entry_dummy e Hd). destruct (IH fm) as (fs' & E & Hl & Hout & Hin).
      { split; [done|]. unfold touched in Hnd. rewrite filter_cons_False in Hnd by congruence. done. }
      simpl. rewrite E. exists fs'. split; [done|]. split; [done|]. split.
      * intros j Hj. apply Hout. unfold touched in *. rewrite filter_cons_False in Hj by congruence. done.
      * intros e' He'. apply elem_of_cons in He' as [->|He']; [congruence|]. by apply Hin.
    + destruct (He eq_refl) as [Hi Hok].
      destruct (lookup_lt_is_Some_2 _ _ Hi) as [f Hf].
      rewrite (reply_entry_input e Hd), (on_field_here _ _ _ f Hf), (input_reply_ret _ f Hok). simpl.
      set (fs1 := <[fi_field (e_input e):=fst (input_reply (e_input e) f)]> (form_fields fm)).
      unfold touched in Hnd. rewrite filter_cons_True in Hnd by done. simpl in Hnd.
      apply NoDup_cons in Hnd as [Hnin Hnd].
      destruct (IH (set_fields fs1 fm)) as (fs' & E & Hl & Hout & Hin).
      { split; [|done]. eapply Forall_impl; [done|]. simpl. unfold fs1. by rewrite length_insert. }
      rewrite E. exists fs'. split; [done|]. simpl in Hl. unfold fs1 in Hl. rewrite length_insert in Hl.
      split; [done|]. split.
      * intros j Hj. unfold touched in Hj. rewrite filter_cons_True in Hj by done.
        apply not_elem_of_cons in Hj as [Hji Hj]. rewrite (Hout j Hj). simpl.
        by apply list_lookup_insert_ne.
      * intros e' He' Hd'. apply elem_of_cons in He' as [->|He'].
        -- exists f. split; [done|]. rewrite Hout by done. simpl.
           apply list_lookup_insert_eq. by apply lookup_lt_Some in Hf.
        -- destruct (Hin e' He' Hd') as (f' & Hf' & Hr). exists f'. split; [|done].
           simpl in Hf'. unfold fs1 in Hf'. rewrite list_lookup_insert_ne in Hf'; [done|].
           intros Heq. apply Hnin. rewrite Heq. by apply touched_elem.
Qed.

Section Send.
Variable form_reply : form -> form.
Hypothesis form_reply_fields : forall fm, form_fields (form_reply fm) = form_fields fm.

(** C6: [^Y] on a form whose inputs can all reply: the send callback is
    called once, after the replies, with the form whose title and
    instructions are cleared, in which the field of every input that is
    not a dummy holds that input's reply and every other field (hidden,
    fixed, or without input) is left as it was. *)
Theorem tab_on_send_spec t :
  replies_ok (inputs (t_win t)) (form_fields (t_form t)) ->
  exists fs',
    let fm' := set_form_instructions "" (set_title "" (set_fields fs' (form_reply (t_form t)))) in
    tab_on_send form_reply t = (mkTab fm' (t_win t) (t_events t ++ [Sent fm']), Ret tt) /\
    (forall j, j ∉ touched (inputs (t_win t)) -> fs' !! j = form_fields (t_form t) !! j) /\
    (forall e, e ∈ inputs (t_win t) -> input_is_dummy (e_input e) = false ->
       exists f, form_fields (t_form t) !! fi_field (e_input e) = Some f /\
                 fs' !! fi_field (e_input e) = Some (fst (input_reply (e_input e) f))).
Proof.
  destruct t as [fm fw evs]. simpl. intros Hok.
  destruct (pfor_reply_spec (inputs fw) (form_reply fm)) as (fs' & E & _ & Hout & Hin);
    [by rewrite form_reply_fields|].
  rewrite form_reply_fields in Hout, Hin.
  exists fs'. split; [|done].
  unfold tab_on_send, with_form, formwin_reply, emit. py_unfold. simpl. rewrite E. done.
Qed.
End Send.
End SendProps.

(** ** The typing invariant of the session

    Every input refers to a field that is not hidden and is of the class
    chosen for that field's type, and the field types never change: the
    tab is opened in that state and no key leaves it, on any path. *)

Section TypingProps.
Context `{LineEditor}.

Definition form_types (fm : form) : list string := f_type <$> form_fields fm.

Definition tab_typed (ts : list string) (t : tab) : Prop :=
  form_types (t_form t) = ts /\ inputs_satisfy (input_typed ts) (t_win t).

Lemma with_win_typed {A} ts (m : PyM (formwin field_input) A) :
  preserves (inputs_satisfy (input_typed ts)) m -> preserves (tab_typed ts) (with_win m).
Proof.
  intros Hm t [Hf Hw]. unfold with_win. specialize (Hm _ Hw).
  destruct (m (t_win t)). by split.
Qed.

Lemma with_form_typed {A} ts (m : PyM form A) :
  preserves (fun fm => form_types fm = ts) m -> preserves (tab_typed ts) (with_form m).
Proof.
  intros Hm t [Hf Hw]. unfold with_form. specialize (Hm _ Hf).
  destruct (m (t_form t)). by split.
Qed.

Lemma emit_typed ts ev : preserves (tab_typed ts) (emit ev).
Proof. by apply preserves_modify. Qed.

Lemma on_field_types {A} ts (i : nat) (m : PyM field A) :
  (forall f, f_type (fst (m f)) = f_type f) ->
  preserves (fun fm => form_types fm = ts) (on_field i m).
Proof.
  intros Hm fm Hfm. unfold on_field.
  destruct (form_fields fm !! i) as [f|] eqn:Hi; [|done].
  pose proof (Hm f) as Hf. destruct (m f) as [f' r]. simpl in *.
  unfold form_types in *. simpl. rewrite list_fmap_insert, Hf.
  rewrite list_insert_id; [done|]. by rewrite list_lookup_fmap, Hi.
Qed.

Lemma formwin_reply_types ts fw : preserves (fun fm => form_types fm = ts) (formwin_reply fw).
Proof.
  unfold formwin_reply. apply preserves_bind; [|intros _; apply preserves_bind; [|intros _]];
    [apply preserves_pfor; intros e _ | by apply preserves_modify | by apply preserves_modify].
  unfold reply_entry. destruct (input_is_dummy _); [apply preserves_ret|].
  apply on_field_types, input_reply_type.
Qed.

Lemma entry_of_typed fs e : entry_of fs e -> input_typed (f_type <$> fs) (e_input e).
Proof.
  intros (f & Hf & Hh & _ & Hc). exists (f_type f).
  by rewrite list_lookup_fmap, Hf.
Qed.

Lemma tab_init_typed fm :
  Forall (fun f => init_ok f = true) (form_fields fm) ->
  exists t, tab_init fm = (set_fields (init_field <$> form_fields fm) fm, Ret t) /\
            tab_typed (form_types fm) t.
Proof.
  intros Hok. destruct fm as [ti ins ty fs]. simpl in *.
  destruct (init_entries_spec (length fs) 0 fs (mkForm ti ins ty fs)) as (es & E & _ & Hall);
    [done|done|].
  unfold tab_init, formwin_init, getFields. py_unfold. simpl.
  unfold set_fields in E |- *. simpl in E |- *. rewrite E. simpl.
  eexists. split; [reflexivity|]. split.
  - unfold form_types. simpl. rewrite <- list_fmap_compose.
    apply list_fmap_ext. intros _ f _. apply init_field_type.
  - unfold inputs_satisfy. simpl. eapply Forall_impl; [exact Hall|]. apply entry_of_typed.
Qed.

(** The widget the spec gives each field type (spec, sections 4.2 to
    4.7), written from the spec and not from [input_classes]: a boolean,
    list-multi, list-single or text-private field gets the widget of its
    name, jid-single and text-single a text widget, fixed and hidden the
    inert widget, and any other type the text widget (section 4.5). *)
Definition spec_widgets : list (string * input_class) :=
  [("boolean", CBoolean); ("list-multi", CListMulti); ("list-single", CListSingle);
   ("jid-single", CTextSingle); ("text-single", CTextSingle); ("text-private", CTextPrivate);
   ("fixed", CDummy); ("hidden", CDummy)].

Definition spec_widget (t : string) : input_class :=
  match list_find (fun p => p.1 = t) spec_widgets with
  | Some (_, (_, c)) => c
  | None => CTextSingle
  end.

(** An input is typed as the spec says: on a shown field, of the widget
    the spec gives that field's type. *)
Definition spec_typed (ts : list string) (w : field_input) : Prop :=
  exists t, ts !! fi_field w = Some t /\ t <> "hidden" /\ kind_class (fi_kind w) = spec_widget t.

(** [FormWin.input_classes] with its text fallback is the spec's table
    on every type but hidden (whose fields get no input). *)
Lemma field_class_spec t : t <> "hidden" -> field_class t = spec_widget t.
Proof.
  intros Hh. unfold field_class, input_classes, spec_widget, spec_widgets.
  repeat (case_decide; [subst; reflexivity|]).
  simpl. repeat (rewrite decide_False by congruence). reflexivity.
Qed.

Lemma input_typed_spec ts w : input_typed ts w -> spec_typed ts w.
Proof. intros (t & Ht & Hh & Hc). exists t. rewrite <- field_class_spec by done. done. Qed.

Section Keys.
Variable form_reply : form -> form.
Hypothesis form_reply_types : forall fm, form_types (form_reply fm) = form_types fm.

Lemma tab_on_input_typed ts key : preserves (tab_typed ts) (tab_on_input form_reply key).
Proof.
  unfold tab_on_input. repeat case_decide.
  - apply with_win_typed, go_to_previous_input_preserves, input_set_color_typed.
  - apply with_win_typed, go_to_next_input_preserves, input_set_color_typed.
  - apply emit_typed.
  - unfold tab_on_send.
    apply preserves_bind; [|intros _; apply preserves_bind; [apply preserves_get|intros t']].
    + apply with_form_typed, preserves_modify. intros fm <-. apply form_reply_types.
    + apply preserves_bind; [apply with_form_typed, formwin_reply_types | intros _; apply emit_typed].
  - apply with_win_typed, formwin_on_input_preserves.
    intros w. apply input_do_command_typed.
Qed.

Lemma run_keys_typed ts keys : preserves (tab_typed ts) (run_keys form_reply keys).
Proof. apply preserves_pfor. intros key _. apply tab_on_input_typed. Qed.

(** C33: opening the tab on a form whose fields can be initialised gives
    every input the widget the spec assigns to its field's type (the
    boolean, list and private widgets to their types, the text widget to
    jid-single, text-single and any unknown type, the inert widget to
    fixed), on a field that is not hidden; after any run of keys, also
    one cut short by an exception, every input still has the spec's
    widget for its field, and no field has changed type. *)
Theorem session_well_typed fm keys :
  Forall (fun f => init_ok f = true) (form_fields fm) ->
  exists t, tab_init fm = (set_fields (init_field <$> form_fields fm) fm, Ret t) /\
    inputs_satisfy (spec_typed (form_types fm)) (t_win t) /\
    form_types (t_form (fst (run_keys form_reply keys t))) = form_types fm /\
    inputs_satisfy (spec_typed (form_types fm)) (t_win (fst (run_keys form_reply keys t))).
Proof.
  intros Hok. destruct (tab_init_typed fm Hok) as (t & Ht & Hty).
  destruct (run_keys_typed (form_types fm) keys t Hty) as [Hf Hw].
  exists t. split; [done|]. split; [|split; [done|]].
  - destruct Hty as [_ Hw0]. eapply Forall_impl; [exact Hw0|]. intros e. apply input_typed_spec.
  - eapply Forall_impl; [exact Hw|]. intros e. apply input_typed_spec.
Qed.

End Keys.
End TypingProps.

(** ** The focus invariant of the session

    Under the spec's data-model invariant that a list field has options
    (spec, section 3), the tab opens with the focus in range, every input
    in the normal colour and every input able to redraw, and every key
    keeps the focus in range, no input but the focused one in the focused
    colour, and every input able to redraw. *)

Section FocusProps.
Context `{LineEditor}.

Definition list_has_options (f : field) : Prop :=
  f_type f = "list-multi" \/ f_type f = "list-single" -> f_options f <> [].

(** An input as [__init__] builds it. *)
Definition fresh_input (w : field_input) : Prop :=
  fi_color w = COLOR_NORMAL /\ input_refresh_ok w = true.

Definition session_inv (t : tab) : Prop :=
  focus_inv (t_win t) /\ all_refresh_ok (inputs (t_win t)).

Lemma input_classes_list t c :
  input_classes t = Some c -> c = CListMulti \/ c = CListSingle ->
  t = "list-multi" \/ t = "list-single".
Proof.
  unfold input_classes. repeat case_decide; intros [= <-] Hl; subst; try tauto;
    destruct Hl; discriminate.
Qed.

Lemma init_entry_options k : preserves (fun fm => Forall list_has_options (form_fields fm)) (init_entry k).
Proof.
  unfold init_entry. preserves_solve.
  apply on_field_forall. intros f. by unfold list_has_options.
Qed.

Lemma init_entry_frame k fm e :
  Forall list_has_options (form_fields fm) ->
  snd (init_entry k fm) = Ret (Some e) -> fresh_input (e_input e).
Proof.
  intros Hfs. unfold init_entry. py_unfold. simpl.
  destruct (py_index (form_fields fm) k) as [f|] eqn:Hk; simpl; [|done].
  case_decide; [done|].
  destruct (input_classes (f_type f)) as [c|] eqn:Hc; simpl.
  - rewrite Hk. simpl. destruct (make_input c k f) as [w|] eqn:Hw; simpl; [|done].
    intros [= <-]. simpl.
    destruct (make_input_frame _ _ _ _ Hw) as [Hcol [Hok|[Ho Hl]]]; [done|].
    exfalso. apply py_index_Ret, (Forall_lookup_1 _ _ _ _ Hfs) in Hk.
    by apply Hk; [apply (input_classes_list _ c)|].
  - destruct (on_field _ _ _) as [fm' [[]|]]; simpl; [|done].
    destruct (py_index (form_fields fm') k); simpl; [|done]. intros [= <-]. done.
Qed.

Lemma init_entries_frame idxs fm es :
  Forall list_has_options (form_fields fm) ->
  snd (init_entries idxs fm) = Ret es -> Forall (fun e => fresh_input (e_input e)) es.
Proof.
  revert fm es. induction idxs as [|i idxs IH]; intros fm es Hfs; simpl; py_unfold.
  { intros [= <-]. constructor. }
  pose proof (init_entry_options i fm Hfs) as Hfs1.
  destruct (init_entry i fm) as [fm1 [oe|]] eqn:E1; simpl in *; [|done].
  destruct (init_entries idxs fm1) as [fm2 [es'|]] eqn:E2; simpl; [|done].
  intros [= <-]. assert (Hes' := IH fm1 es' Hfs1 ltac:(by rewrite E2)).
  destruct oe as [e|]; [|done]. constructor; [|done].
  apply (init_entry_frame i fm e Hfs). by rewrite E1.
Qed.

Lemma tab_init_inv fm t :
  Forall list_has_options (form_fields fm) -> snd (tab_init fm) = Ret t -> session_inv t.
Proof.
  intros Hfs. unfold tab_init, formwin_init. py_unfold. simpl.
  pose proof (init_entries_frame (seq 0 (length (getFields fm))) fm) as Hfr.
  destruct (init_entries _ fm) as [fm1 [es|]]; simpl in *; [|done].
  intros [= <-]. specialize (Hfr es Hfs eq_refl). split; simpl.
  - split.
    + intros Hne. unfold focus_in_range. simpl. destruct es; [done|]. simpl. lia.
    + intros i e _ He. by apply (Forall_lookup_1 _ _ _ _ Hfr He).
  - eapply Forall_impl; [exact Hfr|]. by intros e [_ ?].
Qed.

Section Keys.
Variable form_reply : form -> form.

Lemma with_win_inv (m : PyM (formwin field_input) unit) :
  (forall fw, focus_inv fw -> all_refresh_ok (inputs fw) ->
     focus_inv (fst (m fw)) /\ all_refresh_ok (inputs (fst (m fw)))) ->
  preserves session_inv (with_win m).
Proof. intros Hm t [Hf Hr]. unfold with_win. specialize (Hm _ Hf Hr). by destruct (m (t_win t)). Qed.

Lemma with_form_inv {A} (m : PyM form A) : preserves session_inv (with_form m).
Proof. intros t Ht. unfold with_form. by destruct (m (t_form t)). Qed.

Lemma emit_inv ev : preserves session_inv (emit ev).
Proof. by apply preserves_modify. Qed.

Lemma set_color_refresh_ok c (w : field_input) :
  refresh_ok w = true -> refresh_ok (fst (set_color c w)) = true.
Proof. by rewrite set_color_refresh. Qed.

Lemma tab_on_input_inv key : preserves session_inv (tab_on_input form_reply key).
Proof.
  unfold tab_on_input. repeat case_decide.
  - apply with_win_inv. intros fw Hf Hr. split; [by apply nav_focus_inv|].
    apply (go_to_previous_input_preserves (fun w => refresh_ok w = true)); [|done].
    apply set_color_refresh_ok.
  - apply with_win_inv. intros fw Hf Hr. split; [by apply nav_focus_inv|].
    apply (go_to_next_input_preserves (fun w => refresh_ok w = true)); [|done].
    apply set_color_refresh_ok.
  - apply emit_inv.
  - unfold tab_on_send. apply preserves_bind; [apply with_form_inv|intros _].
    apply preserves_bind; [apply preserves_get|intros t'].
    apply preserves_bind; [apply with_form_inv|intros _; apply emit_inv].
  - apply with_win_inv. intros fw Hf Hr. split.
    + apply formwin_on_input_focus_inv; [|done]. intros w. apply input_do_command_color.
    + apply (formwin_on_input_preserves (fun w => refresh_ok w = true) key);
        [|done]. intros w. apply input_do_command_refresh_ok.
Qed.

(** C21: the focus invariant of the session: on a form whose fields can
    be initialised and whose list fields have options, the tab opens with
    the focus in range, no input but the focused one in the focused colour
    and every input able to redraw, and any run of keys, also one cut
    short by an exception, keeps all three. *)
Theorem session_focus_invariant fm keys :
  Forall (fun f => init_ok f = true) (form_fields fm) ->
  Forall list_has_options (form_fields fm) ->
  exists t, snd (tab_init fm) = Ret t /\ session_inv t /\
            session_inv (fst (run_keys form_reply keys t)).
Proof.
  intros Hok Hopt. destruct (tab_init_typed fm Hok) as (t & Ht & _).
  assert (Hs : snd (tab_init fm) = Ret t) by (by rewrite Ht).
  exists t. split; [done|]. pose proof (tab_init_inv fm t Hopt Hs) as Hi. split; [done|].
  revert Hi. apply (preserves_pfor session_inv). intros key _. apply tab_on_input_inv.
Qed.

End Keys.
End FocusProps.

(** ** Error paths and fallbacks

    The exceptions and fallbacks of the session, over every form and
    every tab: the window without inputs, [^Y] with an input that cannot
    reply, [__init__] on a list-multi field without a list value, and
    what the cancel callback receives right after opening. *)

Section EmptyPaths.
Context `{LineEditor}.
Variable form_reply : form -> form.

Lemma on_input_at_same {A} (i : nat) (m : PyM field_input A) fw e r :
  inputs fw !! i = Some e -> m (e_input e) = (e_input e, r) -> on_input_at i m fw = (fw, r).
Proof.
  intros Hi Hm. unfold on_input_at. rewrite Hi, Hm. destruct fw as [ins c], e as [l ins' w]. simpl in *.
  by rewrite list_insert_id.
Qed.

Lemma with_win_same {A} (m : PyM (formwin field_input) A) t r :
  m (t_win t) = (t_win t, r) -> with_win m t = (t, r).
Proof. intros Hm. unfold with_win. rewrite Hm. by destruct t. Qed.

(** C23: on a window without inputs (a form whose fields are all hidden,
    or no field at all) a run of keys in which neither [^G] nor [^Y]
    occurs completes and leaves the tab as it was: the moves find no
    input to focus and [FormWin.on_input] has no input to forward to. *)
Theorem empty_window_keys t keys :
  inputs (t_win t) = [] -> "^G" ∉ keys -> "^Y" ∉ keys ->
  run_keys form_reply keys t = (t, Ret tt).
Proof.
  intros Hi HG HY. apply pfor_noop. intros key Hkey.
  assert (key <> "^G") by (intros ->; done). assert (key <> "^Y") by (intros ->; done).
  unfold tab_on_input. repeat (case_decide; [subst; apply with_win_same;
    unfold go_to_previous_input, go_to_next_input, pbind, pget; by rewrite decide_True|]).
  rewrite !decide_False by done. apply with_win_same.
  unfold formwin_on_input, pbind, pget. by rewrite decide_True.
Qed.

End EmptyPaths.

(** ** [^Y] with an input that cannot reply *)

Section SendPaths.
Context `{LineEditor}.
Variable form_reply : form -> form.

(** An input [FormWin.reply] calls and whose [reply] raises: a
    list-single input whose cursor is off its options. *)
Definition reply_raises (e : entry field_input) : Prop :=
  input_is_dummy (e_input e) = false /\ input_reply_ok (e_input e) = false.

Lemma reply_entry_outcome e fm :
  snd (reply_entry e fm) = Ret tt \/ snd (reply_entry e fm) = Exc IndexError.
Proof.
  unfold reply_entry. destruct (input_is_dummy (e_input e)) eqn:Hd; [by left|].
  unfold on_field. destruct (form_fields fm !! _) as [f|]; [|by right].
  unfold input_reply in *. unfold input_is_dummy in Hd. py_unfold.
  destruct (fi_kind (e_input e)) as [| | |os p| |]; simpl; try done; try by left.
  unfold py_index. destruct (os !! p); simpl; first [by left | by right].
Qed.

Lemma reply_entry_raises e fm : reply_raises e -> snd (reply_entry e fm) = Exc IndexError.
Proof.
  intros [Hd Hok]. unfold reply_entry. rewrite Hd.
  unfold on_field. destruct (form_fields fm !! _) as [f|]; [|done].
  unfold input_reply_ok in Hok. unfold input_is_dummy in Hd. unfold input_reply. py_unfold.
  destruct (fi_kind (e_input e)) as [| | |os p| |]; try done.
  apply bool_decide_eq_false in Hok. rewrite py_index_ge by lia. done.
Qed.

(** C19: [^Y] when some input that is not a dummy cannot reply (a
    list-single input whose cursor is off its options, as on a
    list-single field without options) raises [IndexError] from
    [FormWin.reply]: the send callback is not called, the form window is
    unchanged, and the form keeps the title and instructions
    [Form.reply] left, which are cleared only after every input
    replied. *)
Theorem send_reply_index_error t :
  Exists reply_raises (inputs (t_win t)) ->
  let r := tab_on_input form_reply "^Y" t in
  snd r = Exc IndexError /\ t_events (fst r) = t_events t /\ t_win (fst r) = t_win t /\
  form_title (t_form (fst r)) = form_title (form_reply (t_form t)) /\
  form_instructions (t_form (fst r)) = form_instructions (form_reply (t_form t)).
Proof.
  intros Hex r. subst r. unfold tab_on_input. rewrite !decide_False by done. rewrite decide_True by done.
  destruct t as [fm fw evs]. unfold tab_on_send, with_form, emit, formwin_reply. py_unfold. simpl in *.
  pose proof (pfor_raises reply_entry IndexError reply_raises (inputs fw) (form_reply fm)
                (fun x s _ => reply_entry_outcome x s) (fun x s _ Hb => reply_entry_raises x s Hb) Hex) as Hr.
  assert (Ht : form_title (fst (pfor (inputs fw) reply_entry (form_reply fm))) = form_title (form_reply fm) /\
               form_instructions (fst (pfor (inputs fw) reply_entry (form_reply fm))) =
                 form_instructions (form_reply fm)).
  { revert Hex. generalize (form_reply fm) as s0. intros s0 _.
    apply (preserves_pfor (fun s => form_title s = form_title s0 /\ form_instructions s = form_instructions s0));
      [|done].
    intros e _ s [H1 H2]. unfold reply_entry. destruct (input_is_dummy _); [done|].
    destruct (on_field_title (fi_field (e_input e)) (input_reply (e_input e)) s). by split; congruence. }
  destruct (pfor (inputs fw) reply_entry (form_reply fm)) as [s r]. simpl in Hr, Ht |- *. subst r. done.
Qed.

End SendPaths.

(** ** [FormWin.__init__] *)

Section InitPaths.
Context `{LineEditor}.

Lemma multi_options_outcome v os :
  (exists r, multi_options v os = Ret r) \/ multi_options v os = Exc TypeError.
Proof.
  induction os as [|o os IH]; simpl; [by left; eexists|].
  destruct v; simpl; try by right.
  - destruct IH as [[r ->]| ->]; [left; by eexists | by right].
  - destruct IH as [[r ->]| ->]; [left; by eexists | by right].
Qed.

Lemma make_input_outcome c idx f :
  (exists w, make_input c idx f = Ret w) \/ make_input c idx f = Exc TypeError.
Proof.
  destruct c; simpl; try (left; by eexists).
  destruct (multi_options_outcome (getValue f) (getOptions f)) as [[r ->]| ->]; [left; by eexists | by right].
Qed.

Lemma init_ok_false f :
  init_ok f = false ->
  f_type f = "list-multi" /\ f_options f <> [] /\ (f_value f = PNone \/ exists b, f_value f = PBool b).
Proof.
  unfold init_ok. rewrite !orb_false_iff, negb_false_iff, !bool_decide_eq_true, bool_decide_eq_false.
  intros [[Ht Ho] Hv]. split; [done|]. split; [done|].
  destruct (f_value f); try done; [by left | right; by eexists].
Qed.

Lemma make_input_bad idx f : init_ok f = false -> make_input CListMulti idx f = Exc TypeError.
Proof.
  intros (_ & Ho & Hv)%init_ok_false. simpl. unfold getValue, getOptions.
  destruct (f_options f) as [|o os]; [done|]. simpl.
  by destruct Hv as [->|[b ->]].
Qed.

Lemma init_entry_outcome (k : nat) s :
  k < length (form_fields s) ->
  (exists oe, snd (init_entry k s) = Ret oe) \/ snd (init_entry k s) = Exc TypeError.
Proof.
  intros Hk. destruct (py_index_lt _ _ Hk) as (f & Hf & Hi).
  unfold init_entry. py_unfold. simpl. rewrite Hi. simpl.
  case_decide; [left; by eexists|].
  destruct (input_classes (f_type f)) as [c|]; simpl.
  - rewrite Hi. simpl. destruct (make_input_outcome c k f) as [[w ->]| ->]; [left; by eexists | by right].
  - rewrite (on_field_here k _ s f Hf). simpl.
    rewrite (py_index_lookup _ _ (setValue (PStr (f_type f)) f))
      by (apply list_lookup_insert_eq; by apply lookup_lt_Some in Hf).
    simpl. left. by eexists.
Qed.

(** [__init__] on the field at [k] writes to that field only. *)
Lemma init_entry_writes_own (k : nat) fs0 :
  preserves (fun s => length (form_fields s) = length fs0 /\
                      forall j, j <> k -> form_fields s !! j = fs0 !! j) (init_entry k).
Proof.
  unfold init_entry. preserves_solve.
  intros s [Hl Ho]. rewrite on_field_length. split; [done|].
  intros j Hj. rewrite on_field_other by done. by apply Ho.
Qed.

Lemma init_entry_bad (k : nat) s f :
  form_fields s !! k = Some f -> init_ok f = false -> snd (init_entry k s) = Exc TypeError.
Proof.
  intros Hf Hok. pose proof (init_ok_false f Hok) as (Ht & _).
  unfold init_entry. py_unfold. simpl. rewrite (py_index_lookup _ _ _ Hf). simpl.
  rewrite decide_False by (rewrite Ht; done). rewrite Ht. simpl.
  rewrite (py_index_lookup _ _ _ Hf). simpl.
  pose proof (make_input_bad k f Hok) as Hb. simpl in Hb. by destruct (multi_options _ _) as [|[]].
Qed.

Lemma init_entries_raise (m k : nat) s :
  k + m = length (form_fields s) ->
  (exists j f, k <= j < k + m /\ form_fields s !! j = Some f /\ init_ok f = false) ->
  snd (init_entries (seq k m) s) = Exc TypeError.
Proof.
  revert k s. induction m as [|m IH]; intros k s Hlen (j & f & Hj & Hf & Hok); [lia|].
  simpl. py_unfold.
  destruct (decide (j = k)) as [->|Hjk].
  { pose proof (init_entry_bad k s f Hf Hok) as Hr. destruct (init_entry k s) as [s1 r]. simpl in Hr. by subst r. }
  destruct (init_entry_outcome k s) as [[oe Hr]|Hr]; [lia| |].
  - pose proof (init_entry_writes_own k (form_fields s) s (conj eq_refl (fun _ _ => eq_refl))) as [Hl Ho].
    destruct (init_entry k s) as [s1 r]. simpl in Hr, Hl, Ho. subst r.
    pose proof (IH (S k) s1) as IH'. destruct (init_entries (seq (S k) m) s1) as [s2 r2]. simpl in IH' |- *.
    rewrite IH'; [done|lia|]. exists j, f. split; [lia|]. rewrite Ho by done. done.
  - destruct (init_entry k s) as [s1 r]. simpl in Hr. by subst r.
Qed.

(** C25: opening the tab on a form with a list-multi field that has
    options and whose value is [None] or a boolean raises [TypeError]
    from [option['value'] in values] in [FormWin.__init__], whatever the
    other fields are: the fields before it raise nothing else. *)
Theorem init_list_multi_type_error fm :
  Exists (fun f => init_ok f = false) (form_fields fm) -> snd (tab_init fm) = Exc TypeError.
Proof.
  intros Hex. apply Exists_exists in Hex as (f & Hin & Hok).
  apply list_elem_of_lookup in Hin as [j Hj].
  unfold tab_init, formwin_init, getFields. py_unfold. simpl.
  pose proof (init_entries_raise (length (form_fields fm)) 0 fm) as Hr.
  destruct (init_entries _ fm) as [s r]. simpl in Hr |- *.
  rewrite Hr; [done|lia|]. exists j, f. split; [|done]. apply lookup_lt_Some in Hj. lia.
Qed.



End InitPaths.

(** ** [^G] right after opening the tab *)

Section CancelPaths.
Context `{LineEditor}.
Variable form_reply : form -> form.

Lemma tab_init_ret fm s t : tab_init fm = (s, Ret t) -> t_form t = s /\ t_events t = [].
Proof.
  unfold tab_init. py_unfold. destruct (formwin_init fm) as [s1 [w|e]]; simpl; [|done].
  by intros [= <- <-].
Qed.

(** C20: cancelling right after opening the tab on a form whose fields
    can be initialised calls the cancel callback once, with the form
    [FormWin.__init__] has already changed: every field of a type that
    [input_classes] does not know (and that is not hidden) holds its
    type name as value, while the spec says the callback receives the
    unmodified fields; every other field, the title and the
    instructions are as the form had them. *)
Theorem cancel_after_open_sees_mutation fm :
  Forall (fun f => init_ok f = true) (form_fields fm) ->
  exists t, snd (tab_init fm) = Ret t /\
    tab_on_input form_reply "^G" t = (mkTab (t_form t) (t_win t) [Cancelled (t_form t)], Ret tt) /\
    form_title (t_form t) = form_title fm /\ form_instructions (t_form t) = form_instructions fm /\
    length (form_fields (t_form t)) = length (form_fields fm) /\
    (forall k f, form_fields fm !! k = Some f -> f_type f <> "hidden" -> input_classes (f_type f) = None ->
       form_fields (t_form t) !! k = Some (setValue (PStr (f_type f)) f)) /\
    (forall k f, form_fields fm !! k = Some f -> f_type f = "hidden" \/ input_classes (f_type f) <> None ->
       form_fields (t_form t) !! k = Some f).
Proof.
  intros Hok. destruct (tab_init_typed fm Hok) as (t & Ht & _).
  destruct (tab_init_ret _ _ _ Ht) as [Hf He].
  exists t. rewrite Ht. split; [done|]. split.
  { unfold tab_on_input, tab_on_cancel, emit. rewrite !decide_False, decide_True by done.
    py_unfold. rewrite He. destruct t. done. }
  rewrite Hf. simpl. split; [done|]. split; [done|]. split; [by rewrite length_fmap|].
  split.
  - intros k f Hk Hh Hn. rewrite list_lookup_fmap, Hk. simpl. unfold init_field. by rewrite decide_True.
  - intros k f Hk Hc. rewrite list_lookup_fmap, Hk. simpl. unfold init_field.
    rewrite decide_False; [done|]. intros [Hh Hn]. destruct Hc; congruence.
Qed.

End CancelPaths.
