(* ===== verification/Keys.v ===== *)
(** * Keys: the key table of [DataFormsTab]

    [DataFormsTab.__init__] writes four bindings into [self.key_func]
    (lines 46-49), a table it inherits from poezio's [Tab] with the
    tab-independent bindings of the application (switching tabs, ...);
    [DataFormsTab.on_input] (lines 60-63) runs the binding of a key that
    has one and forwards every other key to the form window.

    The inherited table is outside [src/]: it is a [gmap] from keys to the
    names of the global commands ([base]), and what such a command does is
    the section variable [run_global].  [tab_dispatch] is [on_input] over
    the full table; Session's [tab_on_input] is the same handler for a
    tab whose inherited table binds no key, and the theorem of this file
    says exactly where the two agree.  The last section shows that a key
    that reaches a focused label ([DummyInput]) raises [TypeError] and
    ends the run of keys. *)

From stdpp Require Import base gmap list strings.
From S2P Require Import Prelude Field Editor Focus Widgets Session.

Open Scope string_scope.

(** What a binding of [self.key_func] runs. *)
Inductive action :=
| GoPrev | GoNext | DoCancel | DoSend
| Global (name : string).

(** [self.key_func] after [__init__]: the inherited bindings, then
    [KEY_UP], [KEY_DOWN], [^G] and [^Y] written over them in that order. *)
Definition key_func (base : gmap string string) : gmap string action :=
  <["^Y":=DoSend]> (<["^G":=DoCancel]> (<["KEY_DOWN":=GoNext]> (<["KEY_UP":=GoPrev]> (Global <$> base)))).

(** The keys [__init__] binds. *)
Definition tab_keys : list string := ["KEY_UP"; "KEY_DOWN"; "^G"; "^Y"].

Section Dispatch.
Context `{LineEditor}.
Variable form_reply : form -> form.
Variable run_global : string -> PyM tab unit.

(** [self.key_func[key]()] *)
Definition run_action (a : action) : PyM tab unit :=
  match a with
  | GoPrev => with_win go_to_previous_input
  | GoNext => with_win go_to_next_input
  | DoCancel => tab_on_cancel
  | DoSend => tab_on_send form_reply
  | Global n => run_global n
  end.

(** [DataFormsTab.on_input(key)]. *)
Definition tab_dispatch (base : gmap string string) (key : string) : PyM tab unit :=
  if key_func base !! key is Some a then run_action a
  else with_win (formwin_on_input key).

End Dispatch.

(** ** On_input against Session's handler *)

Lemma tab_keys_elem key :
  key ∈ tab_keys <-> key = "KEY_UP" \/ key = "KEY_DOWN" \/ key = "^G" \/ key = "^Y".
Proof. unfold tab_keys. rewrite !elem_of_cons, elem_of_nil. tauto. Qed.

Section DispatchProps.
Context `{LineEditor}.
Variable form_reply : form -> form.
Variable run_global : string -> PyM tab unit.

(** C17: [DataFormsTab.on_input] over the full key table: the four keys
    bound by [__init__] do what Session's handler does whatever the
    inherited table says about them; any other key runs its inherited
    global command when the table binds it, so it never reaches the
    focused input, and is handled as by Session otherwise (forwarded to
    the form window). *)
Theorem tab_dispatch_spec base key :
  tab_dispatch form_reply run_global base key =
    if decide (key ∈ tab_keys) then tab_on_input form_reply key
    else match base !! key with
         | Some n => run_global n
         | None => tab_on_input form_reply key
         end.
Proof.
  unfold tab_dispatch, key_func. rewrite !lookup_insert, lookup_fmap.
  destruct (decide (key ∈ tab_keys)) as [Hk|Hk]; rewrite tab_keys_elem in Hk.
  - destruct Hk as [ -> | [ -> | [ -> | -> ] ] ]; reflexivity.
  - rewrite !decide_False by naive_solver.
    unfold tab_on_input. rewrite !decide_False by naive_solver.
    by destruct (base !! key).
Qed.

End DispatchProps.

(** ** A key on a label *)

Section LabelKeys.
Context `{LineEditor}.
Variable form_reply : form -> form.

Lemma tab_on_input_other key t :
  key ∉ tab_keys -> tab_on_input form_reply key t = with_win (formwin_on_input key) t.
Proof.
  rewrite tab_keys_elem. intros Hk. unfold tab_on_input. rewrite !decide_False by naive_solver.
  done.
Qed.

(** C18: a key that is not one of the four keys of the tab, pressed while
    the focus is on a [DummyInput] (a section label: where the focus
    starts on a form that opens with a [fixed] field), raises
    [TypeError], because [DummyInput.do_command] takes no key; the tab is
    left as it was and the keys after it are never handled. *)
Theorem key_on_label_type_error t key keys e :
  key ∉ tab_keys ->
  inputs (t_win t) !! current_input (t_win t) = Some e ->
  input_is_dummy (e_input e) = true ->
  run_keys form_reply (key :: keys) t = (t, Exc TypeError).
Proof.
  intros Hk He Hd. unfold run_keys. simpl. unfold pbind.
  rewrite tab_on_input_other by done.
  rewrite (with_win_same _ t (Exc TypeError)); [done|].
  unfold formwin_on_input, pbind, pget. rewrite decide_False by (intros Hn; rewrite Hn in He; done).
  apply (on_input_at_same _ _ _ e); [done|].
  unfold do_command; simpl. unfold input_do_command, pbind, pget.
  unfold input_is_dummy in Hd. destruct (fi_kind (e_input e)); done.
Qed.

End LabelKeys.
