(* ===== verification/View.v ===== *)
(** * View: the data-forms tab on the screen

    [DataFormsTab.__init__] creates four windows: the topic bar, the tab
    bar ([windows.GlobalInfoBar]), the form window ([FormWin], whose
    curses window is [curses.newwin(height-3, width, 1, 0)]) and the help
    line; [DataFormsTab.resize] (lines 65-71) places them, [FormWin.resize]
    (lines 307-310) resizes the form's curses window and records its size,
    and [DataFormsTab.refresh] (lines 73-77) redraws the bars and then the
    form through [FormWin.refresh] (Render).

    The state is the [view]: the session state of Session ([tab]), the
    size the tab was given by poezio's [Tab.resize] (outside [src/]), the
    size [FormWin.resize] stored ([None] before the first resize, when
    [self.width] does not exist yet) and [self.lines].  The screen calls
    are appended to a log of [screen_op]s, the drawing of [FormWin.refresh]
    included, so a screen computation is a [PyM] over the view and its
    log.  [geometry] replays the log to give each window's rectangle: the
    bars' [resize(h, w, y, x)] move and size them, the form's curses
    [resize(h, w)] keeps its origin. *)

From stdpp Require Import base list strings.
From Stdlib Require Import Lia ZArith.
From S2P Require Import Prelude Field Editor Focus Widgets Render Session.

Open Scope string_scope.

(** The three bars, objects of poezio's [windows] module. *)
Inductive subwin := TopicWin | InfoWin | HelpWin.

Inductive screen_op :=
| NewWin (h w y x : Z)
| SubResize (sw : subwin) (h w y x : Z)
| FormResize (h w : Z)
| TopicRefresh (title : string)
| InfoRefresh (tabs : list string) (current : string)
| HelpRefresh
| FormDraw (d : draw).

Record view := mkView {
  v_tab : tab;
  v_height : Z;
  v_width : Z;
  v_fw_size : option (Z * Z);
  v_lines : list string
}.

Definition screen : Type := view * list screen_op.

Definition vget : PyM screen view := fun s => (s, Ret s.1).

Definition vdraw (ops : list screen_op) : PyM screen unit :=
  pmodify (fun s => (s.1, s.2 ++ ops)%list).

Definition vupdate (f : view -> view) : PyM screen unit := pmodify (fun s => (f s.1, s.2)).

Definition set_size (h w : Z) (v : view) : view :=
  mkView (v_tab v) h w (v_fw_size v) (v_lines v).

Definition set_fw_size (h w : Z) (v : view) : view :=
  mkView (v_tab v) (v_height v) (v_width v) (Some (h, w)) (v_lines v).

Definition set_lines (l : list string) (v : view) : view :=
  mkView (v_tab v) (v_height v) (v_width v) (v_fw_size v) l.

Definition set_tab (t : tab) (v : view) : view :=
  mkView t (v_height v) (v_width v) (v_fw_size v) (v_lines v).

(** ** Resize *)

(** [Tab.resize(self)]: the tab takes the size of the terminal. *)
Definition base_resize (h w : Z) : PyM screen unit := vupdate (set_size h w).

(** [FormWin.resize(height, width, y, x)]: [y] and [x] are not used. *)
Definition formwin_resize (h w y x : Z) : PyM screen unit :=
  vdraw [FormResize h w] ;;; vupdate (set_fw_size h w).

(** [DataFormsTab.resize] on a terminal of [h] rows and [w] columns. *)
Definition tab_resize (h w : Z) : PyM screen unit :=
  base_resize h w ;;;
  let* v := vget in
  vdraw [SubResize TopicWin 1 (v_width v) 0 0;
         SubResize InfoWin 1 (v_width v) (v_height v - 2) 0] ;;;
  formwin_resize (v_height v - 3) (v_width v) 1 0 ;;;
  vdraw [SubResize HelpWin 1 (v_width v) (v_height v - 1) 0] ;;;
  vupdate (set_lines []).

(** ** Refresh *)

(** [self.form_win.refresh()]: [FormWin.refresh] with the width
    [FormWin.resize] stored; before any resize [self.width] is missing. *)
Definition formwin_refresh_v : PyM screen unit :=
  fun s =>
    match v_fw_size s.1 with
    | None => (s, Exc AttributeError)
    | Some (_, w) =>
        let t := v_tab s.1 in
        let r := formwin_refresh (t_form t) w (t_win t) in
        ((set_tab (mkTab (t_form t) r.1 (t_events t)) s.1, s.2 ++ (FormDraw <$> r.2.1))%list, r.2.2)
    end.

(** [DataFormsTab.refresh(tabs, informations, _)]. *)
Definition tab_refresh (tabs : list string) : PyM screen unit :=
  let* v := vget in
  vdraw [TopicRefresh (form_title (t_form (v_tab v)))] ;;;
  let* cur := pof (py_index tabs 0) in
  vdraw [InfoRefresh tabs cur; HelpRefresh] ;;;
  formwin_refresh_v.

(** ** Opening the tab *)

(** [DataFormsTab.__init__] on a terminal of [h] rows and [w] columns:
    the form window's curses window, the session state of [tab_init], and
    [self.resize()] last.  The form is returned, with the screen log and
    the tab's view. *)
Definition tab_open (h w : Z) (fm : form) : form * (list screen_op * outcome view) :=
  let log0 := [NewWin (h - 3) w 1 0] in
  match tab_init fm with
  | (fm', Exc e) => (fm', (log0, Exc e))
  | (fm', Ret t) =>
      let r := tab_resize h w (mkView t h w None [], log0) in
      (t_form (v_tab r.1.1), (r.1.2, match r.2 with Ret _ => Ret r.1.1 | Exc e => Exc e end))
  end.

(** ** The rectangles of the windows *)

Inductive winid := WTopic | WInfo | WForm | WHelp.

#[export] Instance winid_eq_dec : EqDecision winid.
Proof. solve_decision. Defined.

Definition rect : Type := (Z * Z * Z * Z)%type.

Definition sub_id (sw : subwin) : winid :=
  match sw with TopicWin => WTopic | InfoWin => WInfo | HelpWin => WHelp end.

Definition upd (g : winid -> option rect) (i : winid) (r : option rect) : winid -> option rect :=
  fun j => if decide (j = i) then r else g j.

(** The effect of one call on the windows' rectangles [(h, w, y, x)]. *)
Definition place (g : winid -> option rect) (op : screen_op) : winid -> option rect :=
  match op with
  | NewWin h w y x => upd g WForm (Some (h, w, y, x))
  | FormResize h w =>
      upd g WForm (match g WForm with Some (_, _, y, x) => Some (h, w, y, x) | None => None end)
  | SubResize sw h w y x => upd g (sub_id sw) (Some (h, w, y, x))
  | _ => g
  end.

Definition geometry (log : list screen_op) : winid -> option rect :=
  fold_left place log (fun _ => None).

(** Window [i] covers row [r]. *)
Definition covers (g : winid -> option rect) (i : winid) (r : Z) : Prop :=
  match g i with Some (h, _, y, _) => (y <= r < y + h)%Z | None => False end.

(** Which window the rows of an [h]-row terminal belong to. *)
Definition row_owner (h r : Z) : winid :=
  if decide (r = 0)%Z then WTopic
  else if decide (r = h - 2)%Z then WInfo
  else if decide (r = h - 1)%Z then WHelp
  else WForm.

(** ** Properties of the screen *)

Lemma tab_resize_run s (h w : Z) :
  tab_resize h w s =
    ((set_lines [] (set_fw_size (h - 3) w (set_size h w s.1)),
      s.2 ++ [SubResize TopicWin 1 w 0 0; SubResize InfoWin 1 w (h - 2) 0;
              FormResize (h - 3) w; SubResize HelpWin 1 w (h - 1) 0])%list, Ret tt).
Proof.
  destruct s as [v log]. unfold tab_resize, base_resize, formwin_resize, vget, vdraw, vupdate.
  py_unfold. simpl. by rewrite <- !app_assoc.
Qed.

Lemma geometry_app log1 log2 :
  geometry (log1 ++ log2) = fold_left place log2 (geometry log1).
Proof. apply fold_left_app. Qed.

(** C34: [DataFormsTab.resize] completes, leaves the session (the form,
    the inputs with their edit state, the focus, the callbacks called)
    as it was, and records the form window's new size; the next refresh
    places every input in a window one row high and a third of the new
    width wide, in the last third of the screen. *)
Theorem tab_resize_reflows s (h w : Z) tabs :
  let s1 := fst (tab_resize h w s) in
  snd (tab_resize h w s) = Ret tt /\
  v_tab s1.1 = v_tab s.1 /\ v_fw_size s1.1 = Some (h - 3, w)%Z /\
  Forall (fun op => match op with FormDraw d => resize_geometry w d | _ => True end)
         (fst (tab_refresh tabs (s1.1, []))).2.
Proof.
  rewrite tab_resize_run. simpl. split; [done|]. split; [done|]. split; [done|].
  unfold tab_refresh, vget, vdraw, formwin_refresh_v. py_unfold. simpl.
  destruct (py_index tabs 0); simpl; [|by repeat constructor].
  do 3 (constructor; [done|]). apply Forall_fmap. eapply Forall_impl; [apply formwin_refresh_resize_geometry|].
  by intros d.
Qed.

(** C35: on a terminal of at least three rows, [DataFormsTab.resize]
    tiles the screen: the topic bar is row 0, the form window rows 1 to
    [h-3], the tab bar row [h-2] and the help line row [h-1]; each row of
    the terminal belongs to exactly one window, no window reaches outside
    it, and every window spans the full width from column 0.  The form
    window keeps the origin [(1, 0)] it was created at. *)
Theorem tab_resize_tiles s (h w : Z) :
  (3 <= h)%Z ->
  (exists fh fw, geometry s.2 WForm = Some (fh, fw, 1, 0)%Z) ->
  let g := geometry (fst (tab_resize h w s)).2 in
  (forall i r, covers g i r <-> (0 <= r < h)%Z /\ i = row_owner h r) /\
  (forall i, exists y hh, g i = Some (hh, w, y, 0%Z)).
Proof.
  intros Hh (fh & fw & Hf). rewrite tab_resize_run. simpl. rewrite geometry_app. simpl.
  unfold upd, covers, row_owner. split.
  - intros i r. destruct i; simpl; rewrite ?Hf; simpl; repeat case_decide;
      (split; [intros; split; [lia | first [reflexivity | exfalso; lia]]
              | intros [? Heq]; first [lia | discriminate Heq]]).
  - intros i. destruct i; simpl; rewrite ?Hf; simpl; eexists _, _; reflexivity.
Qed.
