(* ===== verification/Scenarios.v ===== *)
(** * Scenarios: the session run on concrete forms

    The examples of the spec (section 8) and the behaviours the model
    exposes, each run on a small form through [tab_init] and [run_keys]
    and checked by evaluation; and, for every general theorem with a
    hypothesis, a witness that applies it to a concrete input.  The
    SleekXMPP [Form.reply] is instantiated by [submit_reply], which only
    turns the form type into ["submit"] and leaves the fields alone. *)

From stdpp Require Import base list strings.
From Stdlib Require Import Lia.
From S2P Require Import Prelude Field Editor Focus Widgets Render Session Keys View.

Open Scope string_scope.

Definition submit_reply (fm : form) : form :=
  mkForm (form_title fm) (form_instructions fm) "submit" (form_fields fm).

Lemma submit_reply_fields fm : form_fields (submit_reply fm) = form_fields fm.
Proof. reflexivity. Qed.

(** A field with no option, labelled after its name. *)
Definition fld (name type : string) (v : pyval) : field :=
  mkField name type ("Label " ++ name) "" v [].

Definition mkopt (v : string) : opt := mkOpt v v.

(** Open the tab on [fm] and press [keys]: the form, the window, the
    callbacks called and how the run ended. *)
Definition session (fm : form) (keys : list string) : option (tab * outcome unit) :=
  match tab_init fm with
  | (_, Ret t) => Some (run_keys submit_reply keys t)
  | (_, Exc _) => None
  end.

Definition session_focus (fm : form) (keys : list string) : option (nat * outcome unit) :=
  (fun r => (current_input (t_win r.1), r.2)) <$> session fm keys.

Definition session_events (fm : form) (keys : list string) : option (list event * outcome unit) :=
  (fun r => (t_events r.1, r.2)) <$> session fm keys.

(** ** The forms *)

(** The form of the spec's submit example: a hidden field, a section
    label and a text field holding "hello". *)
Definition form_hello : form :=
  mkForm "Title" "Fill in" "form"
    [fld "h" "hidden" (PStr "secret"); fld "sec" "fixed" (PStr "Section");
     fld "t" "text-single" (PStr "hello")].

(** A field of a type the module does not know. *)
Definition form_custom : form :=
  mkForm "T" "I" "form" [fld "x" "custom-x" PNone].

(** A text field followed by four section labels. *)
Definition form_trailing_labels : form :=
  mkForm "T" "I" "form"
    [fld "a" "text-single" PNone; fld "b" "fixed" (PStr "B"); fld "c" "fixed" (PStr "C");
     fld "d" "fixed" (PStr "D"); fld "e" "fixed" (PStr "E")].

(** Two text fields separated by two section labels. *)
Definition form_two_labels : form :=
  mkForm "T" "I" "form"
    [fld "a" "text-single" PNone; fld "b" "fixed" (PStr "B"); fld "c" "fixed" (PStr "C");
     fld "d" "text-single" PNone].

(** A form that opens with a section label. *)
Definition form_label_first : form :=
  mkForm "T" "I" "form" [fld "s" "fixed" (PStr "Section"); fld "t" "text-single" PNone].

(** A text field and a list-single field without options. *)
Definition form_empty_single : form :=
  mkForm "T" "I" "form" [fld "t" "text-single" (PStr "x"); fld "l" "list-single" PNone].

(** The list-multi field of the spec's example: options A, B, C. *)
Definition field_abc (v : pyval) : field :=
  mkField "m" "list-multi" "Pick" "" v [mkopt "A"; mkopt "B"; mkopt "C"].

Definition form_empty : form := mkForm "T" "I" "form" [].

(** The window [FormWin.__init__] builds for a form. *)
Definition win_of (fm : form) : formwin field_input :=
  match formwin_init fm with (_, Ret w) => w | (_, Exc _) => mkWin [] 0 end.

Definition tab_of (fm : form) : tab :=
  match tab_init fm with (_, Ret t) => t | (_, Exc _) => mkTab fm (mkWin [] 0) [] end.

(** ** The spec's examples *)

(** The spec's example (section 8): submitting the form with a hidden field, a section label and a
    text field holding "hello" sends a form in which only the text field
    changed (its label is cleared, its answer is "hello"), with the title
    and the instructions cleared. *)
Theorem submit_hidden_fixed_text :
  session_events form_hello ["^Y"] =
    Some ([Sent (mkForm "" "" "submit"
                  [fld "h" "hidden" (PStr "secret"); fld "sec" "fixed" (PStr "Section");
                   mkField "t" "text-single" "" "" (PStr "hello") []])], Ret tt).
Proof. vm_compute. reflexivity. Qed.

(** The spec's example (section 8): a field of the unknown type "custom-x" is shown as a text input
    holding "custom-x" and, left unedited, answers "custom-x". *)
Theorem custom_type_fallback :
  (match fi_kind <$> (e_input <$> inputs (win_of form_custom) !! 0) with
   | Some (TextSingleWin ed) => get_text ed = "custom-x"
   | _ => False
   end) /\
  session_events form_custom ["^Y"] =
    Some ([Sent (mkForm "" "" "submit" [mkField "x" "custom-x" "" "" (PStr "custom-x") []])],
          Ret tt).
Proof. vm_compute. split; reflexivity. Qed.

(** The spec's example (section 8): pressing right twice and space on the list-multi field A, B, C
    whose value is [A] selects A and C, and the reply answers [A; C] in
    the order of the options, with the option list removed. *)
Theorem list_multi_answer_order :
  session_events (mkForm "T" "I" "form" [field_abc (PList ["A"])])
                 ["KEY_RIGHT"; "KEY_RIGHT"; " "; "^Y"] =
    Some ([Sent (mkForm "" "" "submit"
                  [mkField "m" "list-multi" "" "" (PList ["A"; "C"]) []])], Ret tt).
Proof. vm_compute. reflexivity. Qed.

(** The empty form: moving does nothing, a key is ignored, and [^Y]
    still calls the send callback with the title and the instructions
    cleared. *)
Theorem empty_form_send :
  session_events form_empty ["KEY_DOWN"; "KEY_UP"; "x"; "^Y"] =
    Some ([Sent (mkForm "" "" "submit" [])], Ret tt).
Proof. vm_compute. reflexivity. Qed.

(** ** Behaviours the spec does not describe *)

(** With a text field followed by four labels, pressing down four
    times walks the focus onto the labels, and pressing up then raises
    [IndexError]: the backward scan reads [inputs[current_input+jump]]
    past the end of the list. *)
Theorem retreat_index_error :
  session_focus form_trailing_labels
    ["KEY_DOWN"; "KEY_DOWN"; "KEY_DOWN"; "KEY_DOWN"; "KEY_UP"] = Some (3, Exc IndexError).
Proof. vm_compute. reflexivity. Qed.

(** The forward move on a concrete form: with a text field followed only by labels, pressing down moves the
    focus onto the first label (index 1) instead of leaving it on the
    text field. *)
Theorem advance_onto_trailing_label :
  session_focus form_trailing_labels ["KEY_DOWN"] = Some (1, Ret tt) /\
  input_is_dummy <$> (e_input <$> inputs (win_of form_trailing_labels) !! 1) = Some true.
Proof. vm_compute. split; reflexivity. Qed.

(** The backward skip on a concrete form: with two labels between two text fields, down then up leaves the
    focus on the first label (index 1), not on the first text field. *)
Theorem retreat_lands_on_label :
  session_focus form_two_labels ["KEY_DOWN"; "KEY_UP"] = Some (1, Ret tt) /\
  input_is_dummy <$> (e_input <$> inputs (win_of form_two_labels) !! 1) = Some true.
Proof. vm_compute. split; reflexivity. Qed.

(** ** Witnesses of the general theorems *)

(** A text field, a label, a text field, a label, a text field. *)
Definition form_alternating : form :=
  mkForm "T" "I" "form"
    [fld "a" "text-single" PNone; fld "b" "fixed" (PStr "B"); fld "c" "text-single" PNone;
     fld "d" "fixed" (PStr "D"); fld "e" "text-single" PNone].

Definition win_at (fm : form) (c : nat) : formwin field_input := mkWin (inputs (win_of fm)) c.

Lemma colors_ok_normal (ins : list (entry field_input)) (c : nat) :
  Forall (fun e => fi_color (e_input e) = COLOR_NORMAL) ins -> colors_ok (mkWin ins c).
Proof. intros Hall i e _ Hi. exact (Forall_lookup_1 _ _ _ _ Hall Hi). Qed.

Ltac concrete := vm_compute; first [lia | reflexivity | repeat constructor].

Lemma go_to_next_input_spec_witness :
  let fw := win_of form_two_labels in
  focus_in_range fw /\ all_refresh_ok (inputs fw) /\
  go_to_next_input fw =
    if decide (current_input fw = length (inputs fw) - 1) then (fw, Ret tt)
    else match spec_next (dummies (inputs fw)) (current_input fw) with
         | Some j => (mkWin (paint COLOR_FOCUSED j
                               (paint COLOR_NORMAL (current_input fw) (inputs fw))) j, Ret tt)
         | None => (mkWin (paint COLOR_NORMAL (current_input fw) (inputs fw))
                          (S (current_input fw)), Ret tt)
         end.
Proof.
  assert (H1 : focus_in_range (win_of form_two_labels)) by concrete.
  assert (H2 : all_refresh_ok (inputs (win_of form_two_labels))) by concrete.
  simpl. split; [exact H1|]. split; [exact H2|]. exact (go_to_next_input_spec _ H1 H2).
Defined.

Lemma go_to_previous_input_step_witness :
  let fw := win_at form_two_labels 1 in
  focus_in_range fw /\ all_refresh_ok (inputs fw) /\ 1 <= current_input fw /\
  dummies (inputs fw) !! (current_input fw - 1) = Some false /\
  go_to_previous_input fw =
    (mkWin (paint COLOR_FOCUSED (current_input fw - 1)
              (paint COLOR_NORMAL (current_input fw) (inputs fw)))
           (current_input fw - 1), Ret tt).
Proof.
  assert (H1 : focus_in_range (win_at form_two_labels 1)) by concrete.
  assert (H2 : all_refresh_ok (inputs (win_at form_two_labels 1))) by concrete.
  assert (H3 : 1 <= current_input (win_at form_two_labels 1)) by concrete.
  assert (H4 : dummies (inputs (win_at form_two_labels 1)) !!
                 (current_input (win_at form_two_labels 1) - 1) = Some false) by concrete.
  simpl. split; [exact H1|]. split; [exact H2|]. split; [exact H3|]. split; [exact H4|].
  exact (go_to_previous_input_step _ H1 H2 H3 H4).
Defined.

Lemma go_to_previous_input_skip_witness :
  let fw := win_at form_alternating 2 in
  focus_in_range fw /\ all_refresh_ok (inputs fw) /\ 2 <= current_input fw /\
  dummies (inputs fw) !! (current_input fw - 1) = Some true /\
  dummies (inputs fw) !! current_input fw = Some false /\
  go_to_previous_input fw =
    (mkWin (paint COLOR_FOCUSED (current_input fw - 2)
              (paint COLOR_NORMAL (current_input fw) (inputs fw)))
           (current_input fw - 2), Ret tt).
Proof.
  assert (H1 : focus_in_range (win_at form_alternating 2)) by concrete.
  assert (H2 : all_refresh_ok (inputs (win_at form_alternating 2))) by concrete.
  assert (H3 : 2 <= current_input (win_at form_alternating 2)) by concrete.
  assert (H4 : dummies (inputs (win_at form_alternating 2)) !!
                 (current_input (win_at form_alternating 2) - 1) = Some true) by concrete.
  assert (H5 : dummies (inputs (win_at form_alternating 2)) !!
                 current_input (win_at form_alternating 2) = Some false) by concrete.
  simpl. split; [exact H1|]. split; [exact H2|]. split; [exact H3|]. split; [exact H4|].
  split; [exact H5|]. exact (go_to_previous_input_skip _ H1 H2 H3 H4 H5).
Defined.

Lemma go_to_next_input_refines_nav_witness :
  focus_in_range (win_of form_trailing_labels) /\
  all_refresh_ok (inputs (win_of form_trailing_labels)) /\
  (current_input (fst (go_to_next_input (win_of form_trailing_labels))) =
     nav_next (dummies (inputs (win_of form_trailing_labels))) 0 <->
   spec_next (dummies (inputs (win_of form_trailing_labels))) 0 <> None \/
   0 = length (inputs (win_of form_trailing_labels)) - 1).
Proof.
  assert (H1 : focus_in_range (win_of form_trailing_labels)) by concrete.
  assert (H2 : all_refresh_ok (inputs (win_of form_trailing_labels))) by concrete.
  split; [exact H1|]. split; [exact H2|]. exact (go_to_next_input_refines_nav _ H1 H2).
Defined.

Lemma no_adjacent_alternating : no_adjacent_dummies (dummies (inputs (win_of form_alternating))).
Proof.
  intros i. do 5 (destruct i as [|i]; [vm_compute; congruence|]). vm_compute. congruence.
Qed.

Lemma go_to_previous_input_refines_nav_witness :
  let fw := win_at form_alternating 4 in
  focus_in_range fw /\ all_refresh_ok (inputs fw) /\
  dummies (inputs fw) !! 0 = Some false /\ no_adjacent_dummies (dummies (inputs fw)) /\
  dummies (inputs fw) !! 4 = Some false /\
  current_input (fst (go_to_previous_input fw)) = nav_prev (dummies (inputs fw)) 4.
Proof.
  assert (H1 : focus_in_range (win_at form_alternating 4)) by concrete.
  assert (H2 : all_refresh_ok (inputs (win_at form_alternating 4))) by concrete.
  assert (H3 : dummies (inputs (win_at form_alternating 4)) !! 0 = Some false) by concrete.
  assert (H4 : dummies (inputs (win_at form_alternating 4)) !! 4 = Some false) by concrete.
  pose proof no_adjacent_alternating as H5.
  simpl. split; [exact H1|]. split; [exact H2|]. split; [exact H3|]. split; [exact H5|].
  split; [exact H4|]. exact (go_to_previous_input_refines_nav _ H1 H2 H3 H5 H4).
Defined.

Lemma next_prev_roundtrip_witness :
  focus_in_range (win_of form_alternating) /\
  all_refresh_ok (inputs (win_of form_alternating)) /\
  dummies (inputs (win_of form_alternating)) !! 0 = Some false /\
  spec_next (dummies (inputs (win_of form_alternating))) 0 = Some 2 /\ 2 <= 0 + 2 /\
  current_input (fst (go_to_previous_input (fst (go_to_next_input (win_of form_alternating))))) =
    current_input (win_of form_alternating).
Proof.
  assert (H1 : focus_in_range (win_of form_alternating)) by concrete.
  assert (H2 : all_refresh_ok (inputs (win_of form_alternating))) by concrete.
  assert (H3 : dummies (inputs (win_of form_alternating)) !! 0 = Some false) by concrete.
  assert (H4 : spec_next (dummies (inputs (win_of form_alternating))) 0 = Some 2) by concrete.
  assert (H5 : 2 <= 0 + 2) by lia.
  simpl. split; [exact H1|]. split; [exact H2|]. split; [exact H3|]. split; [exact H4|].
  split; [exact H5|]. exact (next_prev_roundtrip _ 2 H1 H2 H3 H4 H5).
Defined.

Lemma navigation_preserves_focus_inv_witness :
  focus_inv (win_of form_alternating) /\ all_refresh_ok (inputs (win_of form_alternating)) /\
  focus_inv (fst (go_to_next_input (win_of form_alternating))) /\
  focus_inv (fst (go_to_previous_input (win_of form_alternating))).
Proof.
  assert (H1 : focus_inv (win_of form_alternating)).
  { split; [intros _; concrete|]. apply colors_ok_normal. concrete. }
  assert (H2 : all_refresh_ok (inputs (win_of form_alternating))) by concrete.
  split; [exact H1|]. split; [exact H2|]. exact (navigation_preserves_focus_inv _ H1 H2).
Defined.

Lemma next_jump_terminates_witness :
  1 < length (inputs (win_of form_two_labels)) /\
  length (inputs (win_of form_two_labels)) - 1 <= 4 /\
  exists j, next_jump 4 (inputs (win_of form_two_labels)) 1 0 = Ret j /\
    1 + j < length (inputs (win_of form_two_labels)) /\
    (1 + j = length (inputs (win_of form_two_labels)) - 1 \/
     dummies (inputs (win_of form_two_labels)) !! (1 + j) = Some false) /\
    (forall k, k < j -> dummies (inputs (win_of form_two_labels)) !! (1 + k) = Some true).
Proof.
  assert (H1 : 1 < length (inputs (win_of form_two_labels))) by concrete.
  assert (H2 : length (inputs (win_of form_two_labels)) - 1 <= 4) by concrete.
  split; [exact H1|]. split; [exact H2|]. exact (next_jump_terminates 4 _ 1 H1 H2).
Defined.

Lemma prev_jump_terminates_witness :
  3 < 5 /\
  match prev_jump 5 (inputs (win_of form_trailing_labels)) 3 0 with
  | Ret j => j <= 3 /\
             (forall k, k < j -> dummies (inputs (win_of form_trailing_labels)) !! (3 + k) = Some true) /\
             (j = 3 \/ dummies (inputs (win_of form_trailing_labels)) !! (3 + j) = Some false)
  | Exc e => e = IndexError /\ length (inputs (win_of form_trailing_labels)) < 2 * 3 /\
             (forall k, 3 <= k < length (inputs (win_of form_trailing_labels)) ->
                        dummies (inputs (win_of form_trailing_labels)) !! k = Some true)
  end.
Proof.
  assert (H1 : 3 < 5) by lia.
  split; [exact H1|]. exact (prev_jump_terminates 5 (inputs (win_of form_trailing_labels)) 3 H1).
Defined.

Lemma list_multi_reply_after_keys_witness :
  0 < length [(mkopt "A", true); (mkopt "B", false); (mkopt "C", true)] /\
  (let (w, r) := run_input_keys ["KEY_RIGHT"; " "]
                   (mkInput 0 COLOR_NORMAL
                      (ListMultiWin [(mkopt "A", true); (mkopt "B", false); (mkopt "C", true)] 0)) in
   r = Ret tt /\
   exists os' p',
     w = mkInput 0 COLOR_NORMAL (ListMultiWin os' p') /\
     fst <$> os' = fst <$> [(mkopt "A", true); (mkopt "B", false); (mkopt "C", true)] /\
     p' < length os' /\
     (" " ∉ ["KEY_RIGHT"; " "] -> os' = [(mkopt "A", true); (mkopt "B", false); (mkopt "C", true)]) /\
     input_reply w (field_abc (PList ["A"; "C"])) =
       (setAnswer (PList ((fun o => opt_value o.1) <$> filter (fun o => o.2 = true) os'))
                  (delOptions (set_label "" (field_abc (PList ["A"; "C"])))), Ret tt)).
Proof.
  assert (H1 : 0 < length [(mkopt "A", true); (mkopt "B", false); (mkopt "C", true)]) by concrete.
  split; [exact H1|]. exact (list_multi_reply_after_keys 0 COLOR_NORMAL _ 0 ["KEY_RIGHT"; " "] (field_abc (PList ["A"; "C"])) H1).
Defined.

Lemma list_single_reply_after_keys_witness :
  1 < length [mkopt "A"; mkopt "B"; mkopt "C"] /\
  (let (w, r) := run_input_keys ["KEY_RIGHT"; "KEY_RIGHT"]
                   (mkInput 0 COLOR_NORMAL (ListSingleWin [mkopt "A"; mkopt "B"; mkopt "C"] 1)) in
   r = Ret tt /\
   exists o, (o ∈ [mkopt "A"; mkopt "B"; mkopt "C"]) /\
     input_reply w (field_abc (PStr "B")) =
       (setAnswer (PStr (opt_value o)) (delOptions (set_label "" (field_abc (PStr "B")))), Ret tt)).
Proof.
  assert (H1 : 1 < length [mkopt "A"; mkopt "B"; mkopt "C"]) by concrete.
  split; [exact H1|]. exact (list_single_reply_after_keys 0 COLOR_NORMAL _ 1 ["KEY_RIGHT"; "KEY_RIGHT"] (field_abc (PStr "B")) H1).
Defined.

Lemma run_keys_without_send_keeps_form_witness :
  ("^Y" ∉ ["KEY_DOWN"; "x"; "^G"]) /\
  t_form (fst (run_keys submit_reply ["KEY_DOWN"; "x"; "^G"] (tab_of form_hello))) =
    t_form (tab_of form_hello).
Proof.
  assert (H1 : "^Y" ∉ ["KEY_DOWN"; "x"; "^G"]) by (apply (bool_decide_unpack _); vm_compute; reflexivity).
  split; [exact H1|]. exact (run_keys_without_send_keeps_form submit_reply _ _ H1).
Defined.

Lemma formwin_init_spec_witness :
  Forall (fun f => init_ok f = true) (form_fields form_hello) /\
  exists es,
    formwin_init form_hello =
      (set_fields (init_field <$> form_fields form_hello) form_hello, Ret (mkWin es 0)) /\
    (fun e => fi_field (e_input e)) <$> es =
      filter (fun i => nonhidden_at (form_fields form_hello) i = true)
             (seq 0 (length (form_fields form_hello))) /\
    Forall (entry_of (form_fields form_hello)) es.
Proof.
  assert (H1 : Forall (fun f => init_ok f = true) (form_fields form_hello)) by concrete.
  split; [exact H1|]. exact (formwin_init_spec _ H1).
Defined.

Lemma tab_on_send_spec_witness :
  (forall fm, form_fields (submit_reply fm) = form_fields fm) /\
  replies_ok (inputs (t_win (tab_of form_hello))) (form_fields (t_form (tab_of form_hello))) /\
  exists fs',
    let t := tab_of form_hello in
    let fm' := set_form_instructions "" (set_title "" (set_fields fs' (submit_reply (t_form t)))) in
    tab_on_send submit_reply t = (mkTab fm' (t_win t) (t_events t ++ [Sent fm']), Ret tt) /\
    (forall j, j ∉ touched (inputs (t_win t)) -> fs' !! j = form_fields (t_form t) !! j) /\
    (forall e, e ∈ inputs (t_win t) -> input_is_dummy (e_input e) = false ->
       exists f, form_fields (t_form t) !! fi_field (e_input e) = Some f /\
                 fs' !! fi_field (e_input e) = Some (fst (input_reply (e_input e) f))).
Proof.
  assert (H2 : replies_ok (inputs (t_win (tab_of form_hello))) (form_fields (t_form (tab_of form_hello)))).
  { unfold replies_ok. apply (bool_decide_unpack _). vm_compute. reflexivity. }
  split; [exact submit_reply_fields|]. split; [exact H2|].
  exact (tab_on_send_spec submit_reply submit_reply_fields _ H2).
Defined.

Lemma list_multi_label_column_witness :
  1 < length [(mkopt "a", true); (mkopt "longer label", false)] /\
  exists o, [(mkopt "a", true); (mkopt "longer label", false)] !! 1 = Some o /\
    AddStr 0 (20 / 2 - 1) (opt_label o.1)
      ∈ fst (input_render (mkInput 0 COLOR_NORMAL
                             (ListMultiWin [(mkopt "a", true); (mkopt "longer label", false)] 1)) 20).
Proof. split; [simpl; lia|]. apply list_multi_label_column. simpl. lia. Defined.

Lemma layout_geometry_witness :
  snd (layout (inputs (win_of form_hello)) (getFields form_hello) 30 0 0) = Ret tt /\
  getFields form_hello !! 2 = Some (fld "t" "text-single" (PStr "hello")) /\
  f_type (fld "t" "text-single" (PStr "hello")) <> "hidden" /\
  (let ops := fst (layout (inputs (win_of form_hello)) (getFields form_hello) 30 0 0) in
   let r := (0 + form_rows (take 2 (getFields form_hello)))%Z in
   let j := (0 + shown_count (take 2 (getFields form_hello)))%nat in
   Forall (row_ok 30 0 (form_rows (getFields form_hello))) ops /\
   exists e label,
     inputs (win_of form_hello) !! j = Some e /\ py_str_arg (e_label e) = Ret label /\
     AddStr r 0 label ∈ ops /\
     (forall x s, AddStr r x s ∈ ops -> x = 0%Z /\ s = label) /\
     ResizeInput j 1 (30 / 3) (r + 1) (2 * 30 / 3) ∈ ops /\
     (f_instructions (fld "t" "text-single" (PStr "hello")) <> "" ->
      AddStr (r + 1) 0 (f_instructions (fld "t" "text-single" (PStr "hello"))) ∈ ops)).
Proof.
  assert (H1 : snd (layout (inputs (win_of form_hello)) (getFields form_hello) 30 0 0) = Ret tt)
    by (vm_compute; reflexivity).
  assert (H2 : getFields form_hello !! 2 = Some (fld "t" "text-single" (PStr "hello")))
    by (vm_compute; reflexivity).
  assert (H3 : f_type (fld "t" "text-single" (PStr "hello")) <> "hidden") by (vm_compute; discriminate).
  split; [exact H1|]. split; [exact H2|]. split; [exact H3|].
  exact (layout_geometry _ _ 30 0 0 2 _ H1 H2 H3).
Defined.

Lemma formwin_refresh_empty_witness :
  inputs (mkWin (W := field_input) [] 0) = [] /\
  formwin_refresh form_hello 30 (mkWin [] 0) =
    (mkWin [] 0, (fst (snd (formwin_refresh form_hello 30 (mkWin [] 0))), Exc IndexError)).
Proof. split; [reflexivity|]. apply formwin_refresh_empty. reflexivity. Defined.

Lemma down_reaches_focusable_witness :
  let fw := win_of form_two_labels in
  focus_in_range fw /\ all_refresh_ok (inputs fw) /\ current_input fw < 3 /\
  dummies (inputs fw) !! 3 = Some false /\
  eventually (fun fw' => current_input fw' = 3) fw.
Proof.
  assert (H1 : focus_in_range (win_of form_two_labels)) by concrete.
  assert (H2 : all_refresh_ok (inputs (win_of form_two_labels))) by concrete.
  assert (H3 : current_input (win_of form_two_labels) < 3) by concrete.
  assert (H4 : dummies (inputs (win_of form_two_labels)) !! 3 = Some false) by concrete.
  split; [exact H1|]. split; [exact H2|]. split; [exact H3|]. split; [exact H4|].
  exact (down_reaches_focusable _ 3 H1 H2 H3 H4).
Defined.

Lemma session_well_typed_witness :
  (forall fm, form_types (submit_reply fm) = form_types fm) /\
  Forall (fun f => init_ok f = true) (form_fields form_hello) /\
  exists t, tab_init form_hello =
              (set_fields (init_field <$> form_fields form_hello) form_hello, Ret t) /\
    inputs_satisfy (spec_typed (form_types form_hello)) (t_win t) /\
    form_types (t_form (fst (run_keys submit_reply ["KEY_DOWN"; "x"; "^Y"] t))) =
      form_types form_hello /\
    inputs_satisfy (spec_typed (form_types form_hello))
      (t_win (fst (run_keys submit_reply ["KEY_DOWN"; "x"; "^Y"] t))).
Proof.
  assert (H1 : forall fm, form_types (submit_reply fm) = form_types fm) by reflexivity.
  assert (H2 : Forall (fun f => init_ok f = true) (form_fields form_hello)) by concrete.
  split; [exact H1|]. split; [exact H2|].
  exact (session_well_typed submit_reply H1 form_hello _ H2).
Defined.

(** The tab on [form_hello] on a 24 x 80 terminal, before a resize. *)
Definition screen_hello : screen :=
  (mkView (tab_of form_hello) 24 80 None [], [NewWin 21 80 1 0]).

Lemma tab_resize_tiles_witness :
  (3 <= 30)%Z /\ (exists fh fw, geometry screen_hello.2 WForm = Some (fh, fw, 1, 0)%Z) /\
  let g := geometry (fst (tab_resize 30 100 screen_hello)).2 in
  (forall i r, covers g i r <-> (0 <= r < 30)%Z /\ i = row_owner 30 r) /\
  (forall i, exists y hh, g i = Some (hh, 100%Z, y, 0%Z)).
Proof.
  assert (H1 : (3 <= 30)%Z) by lia.
  assert (H2 : exists fh fw, geometry screen_hello.2 WForm = Some (fh, fw, 1, 0)%Z)
    by (exists 21%Z, 80%Z; reflexivity).
  split; [exact H1|]. split; [exact H2|].
  exact (tab_resize_tiles screen_hello 30 100 H1 H2).
Defined.

(** Opening the tab on [form_hello] in a 24 x 80 terminal: the form
    window is created at row 1, then [resize] places the four windows and
    records the form window's size. *)
Lemma open_hello_screen :
  match tab_open 24 80 form_hello with
  | (_, (log, Ret v)) =>
      log = [NewWin 21 80 1 0; SubResize TopicWin 1 80 0 0; SubResize InfoWin 1 80 22 0;
             FormResize 21 80; SubResize HelpWin 1 80 23 0]%Z /\
      v_fw_size v = Some (21%Z, 80%Z)
  | _ => False
  end.
Proof. vm_compute. split; reflexivity. Qed.

(** The first refresh of that tab shows the form's title, then the bars,
    then the form window: it redraws under [g_lock] and succeeds. *)
Lemma refresh_hello_screen :
  match tab_open 24 80 form_hello with
  | (_, (_, Ret v)) =>
      let r := tab_refresh ["data-forms"] (v, []) in
      head r.1.2 = Some (TopicRefresh "Title") /\
      FormDraw Lock ∈ r.1.2 /\ r.2 = Ret tt
  | _ => False
  end.
Proof. vm_compute. split; [reflexivity|]. split; [|reflexivity]. apply list_elem_of_In. simpl. tauto. Qed.

(** A form with a boolean field, a label and two list fields with options. *)
Definition form_lists : form :=
  mkForm "T" "I" "form"
    [fld "b" "boolean" (PBool true); fld "s" "fixed" (PStr "Choose");
     mkField "one" "list-single" "One" "" (PStr "y") [mkopt "x"; mkopt "y"];
     mkField "many" "list-multi" "Many" "" (PList ["x"]) [mkopt "x"; mkopt "y"; mkopt "z"]].

Lemma session_focus_invariant_witness :
  Forall (fun f => init_ok f = true) (form_fields form_lists) /\
  Forall list_has_options (form_fields form_lists) /\
  exists t, snd (tab_init form_lists) = Ret t /\ session_inv t /\
    session_inv (fst (run_keys submit_reply
                        ["KEY_DOWN"; "KEY_RIGHT"; "KEY_DOWN"; " "; "KEY_UP"; "KEY_UP"] t)).
Proof.
  assert (H1 : Forall (fun f => init_ok f = true) (form_fields form_lists)) by concrete.
  assert (H2 : Forall list_has_options (form_fields form_lists)).
  { repeat constructor.
    all: unfold list_has_options; simpl; first [intros _; discriminate | intros [Ht|Ht]; discriminate]. }
  split; [exact H1|]. split; [exact H2|].
  exact (session_focus_invariant submit_reply form_lists _ H1 H2).
Defined.

(** ** Witnesses of the paths *)

(** The entry the focus is on. *)
Definition focused_entry (t : tab) : entry field_input :=
  match inputs (t_win t) !! current_input (t_win t) with
  | Some e => e
  | None => mkEntry PNone "" (mkInput 0 COLOR_NORMAL DummyInput)
  end.

Lemma key_on_label_type_error_witness :
  ("a" ∉ tab_keys) /\
  inputs (t_win (tab_of form_label_first)) !! current_input (t_win (tab_of form_label_first)) =
    Some (focused_entry (tab_of form_label_first)) /\
  input_is_dummy (e_input (focused_entry (tab_of form_label_first))) = true /\
  run_keys submit_reply ["a"; "KEY_DOWN"] (tab_of form_label_first) =
    (tab_of form_label_first, Exc TypeError).
Proof.
  assert (H1 : "a" ∉ tab_keys) by (apply (bool_decide_unpack _); vm_compute; reflexivity).
  assert (H2 : inputs (t_win (tab_of form_label_first)) !! current_input (t_win (tab_of form_label_first)) =
                 Some (focused_entry (tab_of form_label_first))) by (vm_compute; reflexivity).
  assert (H3 : input_is_dummy (e_input (focused_entry (tab_of form_label_first))) = true)
    by (vm_compute; reflexivity).
  split; [exact H1|]. split; [exact H2|]. split; [exact H3|].
  exact (key_on_label_type_error submit_reply _ "a" ["KEY_DOWN"] _ H1 H2 H3).
Defined.

(** A form whose only field is hidden. *)
Definition form_hidden_only : form :=
  mkForm "T" "I" "form" [fld "h" "hidden" (PStr "secret")].

Lemma empty_window_keys_witness :
  inputs (t_win (tab_of form_hidden_only)) = [] /\
  ("^G" ∉ ["KEY_DOWN"; "KEY_UP"; "x"]) /\ ("^Y" ∉ ["KEY_DOWN"; "KEY_UP"; "x"]) /\
  run_keys submit_reply ["KEY_DOWN"; "KEY_UP"; "x"] (tab_of form_hidden_only) =
    (tab_of form_hidden_only, Ret tt).
Proof.
  assert (H1 : inputs (t_win (tab_of form_hidden_only)) = []) by (vm_compute; reflexivity).
  assert (H2 : "^G" ∉ ["KEY_DOWN"; "KEY_UP"; "x"]) by (apply (bool_decide_unpack _); vm_compute; reflexivity).
  assert (H3 : "^Y" ∉ ["KEY_DOWN"; "KEY_UP"; "x"]) by (apply (bool_decide_unpack _); vm_compute; reflexivity).
  split; [exact H1|]. split; [exact H2|]. split; [exact H3|].
  exact (empty_window_keys submit_reply _ _ H1 H2 H3).
Defined.

Lemma send_reply_index_error_witness :
  Exists reply_raises (inputs (t_win (tab_of form_empty_single))) /\
  (let r := tab_on_input submit_reply "^Y" (tab_of form_empty_single) in
   snd r = Exc IndexError /\ t_events (fst r) = t_events (tab_of form_empty_single) /\
   t_win (fst r) = t_win (tab_of form_empty_single) /\
   form_title (t_form (fst r)) = form_title (submit_reply (t_form (tab_of form_empty_single))) /\
   form_instructions (t_form (fst r)) =
     form_instructions (submit_reply (t_form (tab_of form_empty_single)))).
Proof.
  assert (H1 : Exists reply_raises (inputs (t_win (tab_of form_empty_single)))).
  { vm_compute. apply Exists_cons_tl, Exists_cons_hd. split; reflexivity. }
  split; [exact H1|]. exact (send_reply_index_error submit_reply _ H1).
Defined.

Lemma init_list_multi_type_error_witness :
  Exists (fun f => init_ok f = false) (form_fields (mkForm "T" "I" "form" [fld "t" "text-single" PNone; field_abc PNone])) /\
  snd (tab_init (mkForm "T" "I" "form" [fld "t" "text-single" PNone; field_abc PNone])) = Exc TypeError.
Proof.
  assert (H1 : Exists (fun f => init_ok f = false)
                 (form_fields (mkForm "T" "I" "form" [fld "t" "text-single" PNone; field_abc PNone]))).
  { apply Exists_cons_tl, Exists_cons_hd. vm_compute. reflexivity. }
  split; [exact H1|]. exact (init_list_multi_type_error _ H1).
Defined.

Lemma list_multi_string_value_witness :
  getValue (field_abc (PStr "ABC")) = PStr "ABC" /\
  exists os,
    make_input CListMulti 0 (field_abc (PStr "ABC")) = Ret (mkInput 0 COLOR_NORMAL (ListMultiWin os 0)) /\
    fst <$> os = getOptions (field_abc (PStr "ABC")) /\
    forall k o b, os !! k = Some (o, b) ->
      (b = true <-> exists p q, "ABC" = String.append p (String.append (opt_value o) q)).
Proof.
  assert (H1 : getValue (field_abc (PStr "ABC")) = PStr "ABC") by reflexivity.
  split; [exact H1|]. exact (list_multi_string_value 0 _ _ H1).
Defined.

Lemma cancel_after_open_sees_mutation_witness :
  Forall (fun f => init_ok f = true) (form_fields form_custom) /\
  exists t, snd (tab_init form_custom) = Ret t /\
    tab_on_input submit_reply "^G" t = (mkTab (t_form t) (t_win t) [Cancelled (t_form t)], Ret tt) /\
    form_title (t_form t) = form_title form_custom /\
    form_instructions (t_form t) = form_instructions form_custom /\
    length (form_fields (t_form t)) = length (form_fields form_custom) /\
    (forall k f, form_fields form_custom !! k = Some f -> f_type f <> "hidden" ->
       input_classes (f_type f) = None ->
       form_fields (t_form t) !! k = Some (setValue (PStr (f_type f)) f)) /\
    (forall k f, form_fields form_custom !! k = Some f ->
       f_type f = "hidden" \/ input_classes (f_type f) <> None ->
       form_fields (t_form t) !! k = Some f).
Proof.
  assert (H1 : Forall (fun f => init_ok f = true) (form_fields form_custom)) by concrete.
  split; [exact H1|]. exact (cancel_after_open_sees_mutation submit_reply _ H1).
Defined.
